(** * RabbitMQ to InfluxDB bridge: message handling of [main.py]

    A shallow embedding of [RabbitMQToInfluxBridge._message_callback] and
    [RabbitMQToInfluxBridge._transform_to_influx_point], with the part of
    the Python runtime they rely on, followed by the properties of the
    bridge.

    Conventions.
    - A Python [str] is represented by its UTF-8 encoding, a [string] of
      bytes.  The two replacements made by the code have an ASCII pattern,
      so working on the encoding is the same as working on code points.
    - A Python [bytes] object is a [string] of bytes as well.
    - A Python [float] is an IEEE-754 binary64 number ([spec_float] with
      precision 53 and maximal exponent 1024).
    - A Python [dict] that the code iterates over is the list of its items
      in iteration order; a [dict] that is only assigned to and read
      ([Point._tags], [Point._fields], the field mapping) is a [gmap].
    - [json.loads], [datetime.fromisoformat], [datetime.utcnow], the text
      of a container, and whether [write_api.write] and
      [channel.basic_ack] return or raise, are parameters.
    - The calls on the channel and on the write API are recorded in order,
      whether they return or raise; log lines are left out.  A
      [basic_nack] is the last call of a delivery, so that the record is
      the same whether it returns or raises. *)

From Stdlib Require Import ZArith String Ascii List Bool Lia.
From Stdlib Require Import Floats.SpecFloat.
From stdpp Require Import base option list gmap strings.

Local Open Scope Z_scope.
Local Open Scope string_scope.
Local Set Warnings "-register-all".

(** ** Python strings *)

Module PyStr.

(** [s.replace(old, new)] for a pattern [old] of one character. *)
Fixpoint replace (old : ascii) (new : string) (s : string) : string :=
  match s with
  | EmptyString => EmptyString
  | String c s' =>
      if Ascii.eqb c old then new +:+ replace old new s'
      else String c (replace old new s')
  end.

(** [s.startswith(p)] *)
Fixpoint startswith (p s : string) : bool :=
  match p, s with
  | EmptyString, _ => true
  | String a p', String b s' => Ascii.eqb a b && startswith p' s'
  | String _ _, EmptyString => false
  end.

(** [needle in hay] on two strings: substring test. *)
Fixpoint contains (needle hay : string) : bool :=
  startswith needle hay ||
  match hay with
  | EmptyString => false
  | String _ hay' => contains needle hay'
  end.

(** Truth value of a string: the empty string is falsy. *)
Definition truthy (s : string) : bool :=
  match s with EmptyString => false | String _ _ => true end.

End PyStr.

(** ** [bytes.decode('utf-8')] *)

Module Utf8.

Definition byte_in (lo hi : N) (c : ascii) : bool :=
  let n := N_of_ascii c in ((lo <=? n) && (n <=? hi))%N.

Definition cont : ascii -> bool := byte_in 128 191.

(** Well-formed UTF-8 byte sequences (strict decoding: no overlong form,
    no surrogate, nothing above U+10FFFF). *)
Fixpoint well_formed (bs : string) : bool :=
  match bs with
  | EmptyString => true
  | String b0 r0 =>
      if byte_in 0 127 b0 then well_formed r0
      else
        match r0 with
        | EmptyString => false
        | String b1 r1 =>
            if byte_in 194 223 b0 then cont b1 && well_formed r1
            else
              match r1 with
              | EmptyString => false
              | String b2 r2 =>
                  if byte_in 224 239 b0 then
                    (if byte_in 224 224 b0 then byte_in 160 191 b1
                     else if byte_in 237 237 b0 then byte_in 128 159 b1
                     else cont b1)
                    && cont b2 && well_formed r2
                  else
                    match r2 with
                    | EmptyString => false
                    | String b3 r3 =>
                        byte_in 240 244 b0
                        && (if byte_in 240 240 b0 then byte_in 144 191 b1
                            else if byte_in 244 244 b0 then byte_in 128 143 b1
                            else cont b1)
                        && cont b2 && cont b3 && well_formed r3
                    end
              end
        end
  end.

(** The decoded text, or [None] for [UnicodeDecodeError]. *)
Definition decode (body : string) : option string :=
  if well_formed body then Some body else None.

End Utf8.

(** ** Python floats (binary64) *)

Module PyFloat.

Definition prec : Z := 53.
Definition emax : Z := 1024.

(** [float(n)] for an integer [n], rounded to nearest even. *)
Definition of_int (n : Z) : spec_float := binary_normalize prec emax n 0 false.

(** [x * y] on floats. *)
Definition mul (x y : spec_float) : spec_float := SFmul prec emax x y.

(** [int(x)]: truncation toward zero; [None] when it raises
    ([ValueError] for a NaN, [OverflowError] for an infinity). *)
Definition to_int (x : spec_float) : option Z :=
  match x with
  | S754_zero _ => Some 0
  | S754_finite s m e =>
      let a := Z.shiftl (Zpos m) e in
      Some (if s then - a else a)
  | S754_infinity _ => None
  | S754_nan => None
  end.

End PyFloat.

(** ** Exceptions and results *)

Inductive exn :=
| UnicodeDecodeError | JSONDecodeError | RecursionError
| TypeError | AttributeError | KeyError | ValueError | OverflowError
| WriteError | ChannelError.

Inductive result (A : Type) :=
| Ok (a : A)
| Raise (e : exn).
Arguments Ok {A} a.
Arguments Raise {A} e.

Definition bind {A B} (r : result A) (k : A -> result B) : result B :=
  match r with Ok a => k a | Raise e => Raise e end.

Declare Scope py_scope.
Delimit Scope py_scope with py.
Notation "x <- c ;; k" := (bind c (fun x => k))
  (at level 100, c at next level, right associativity) : py_scope.

(** A [for] loop whose body updates [s] and may raise. *)
Fixpoint for_each {A S : Type} (body : S -> A -> result S) (l : list A) (s : S)
  : result S :=
  match l with
  | [] => Ok s
  | a :: l' => bind (body s a) (for_each body l')
  end.

(** ** Values *)

(** What [json.loads] returns. *)
Inductive pyval :=
| JNull
| JBool (b : bool)
| JInt (n : Z)
| JFloat (f : spec_float)
| JStr (s : string)
| JList (l : list pyval)
| JDict (items : list (string * pyval)).

(** [datetime.datetime]; [dt_utcoffset] is the offset in seconds of an
    aware value, [None] for a naive one. *)
Record datetime := mkdatetime {
  dt_year : Z; dt_month : Z; dt_day : Z;
  dt_hour : Z; dt_minute : Z; dt_second : Z; dt_microsecond : Z;
  dt_utcoffset : option Z }.

(** What [Point.time] is given: an integer (nanoseconds since the epoch)
    or a [datetime]. *)
Inductive ptime :=
| TimeInt (ns : Z)
| TimeDatetime (dt : datetime).

(** [influxdb_client.Point]: the four attributes the bridge sets. *)
Module Point.

Record t := mk {
  name : string;
  time_ : option ptime;
  tags_ : gmap string string;
  fields_ : gmap string pyval }.

Definition new (measurement : string) : t :=
  {| name := measurement; time_ := None; tags_ := ∅; fields_ := ∅ |}.

Definition time (p : t) (v : ptime) : t :=
  {| name := name p; time_ := Some v; tags_ := tags_ p; fields_ := fields_ p |}.

Definition tag (p : t) (key value : string) : t :=
  {| name := name p; time_ := time_ p;
     tags_ := <[key := value]> (tags_ p); fields_ := fields_ p |}.

Definition field (p : t) (key : string) (value : pyval) : t :=
  {| name := name p; time_ := time_ p;
     tags_ := tags_ p; fields_ := <[key := value]> (fields_ p) |}.

End Point.

(** A key of the configuration that the code reads as a mapping: the key
    is missing, or it is present with a mapping, or it is present with
    something else (a null, as YAML gives for [tags:] with nothing after
    it, a list, a scalar). *)
Inductive setting (A : Type) :=
| Missing
| NotMapping
| Mapping (m : A).
Arguments Missing {A}.
Arguments NotMapping {A}.
Arguments Mapping {A} m.

(** The mapping of a setting, [d] when it has none. *)
Definition mapping_or {A : Type} (d : A) (s : setting A) : A :=
  match s with Mapping m => m | _ => d end.

(** Whether the methods of a mapping can be called on what the code reads:
    the key is missing (the code reads [{}]) or holds a mapping. *)
Definition reads_as_mapping {A : Type} (s : setting A) : bool :=
  match s with NotMapping => false | _ => true end.

(** One entry of [config['topics']]: the four keys the message path reads.
    For [measurement] and [influx_bucket], [None] is a key that is missing
    or null (the code treats both alike). *)
Record TopicConfig := mkTopic {
  measurement : option string;
  tags : setting (list (string * string));
  field_mapping : setting (gmap string string);
  influx_bucket : option string }.

(** [config['influxdb']['bucket']]; [None] when the key is missing. *)
Record Config := mkConfig { bucket : option string }.

(** The [method] frame of a delivery. *)
Record Method := mkMethod {
  routing_key : string;
  exchange : string;
  delivery_tag : Z }.

(** Calls made on the channel and on the write API, in order.  A call is
    recorded whether it returns or raises. *)
Inductive event :=
| Write (bucket : string) (record : Point.t)
| BasicAck (delivery_tag : Z)
| BasicNack (delivery_tag : Z) (requeue : bool).

(** ** Operations on values *)

Fixpoint assoc (key : string) (items : list (string * pyval)) : option pyval :=
  match items with
  | [] => None
  | (k, v) :: items' => if String.eqb k key then Some v else assoc key items'
  end.

Definition is_str (key : string) (v : pyval) : bool :=
  match v with JStr s => String.eqb s key | _ => false end.

(** [key in container] *)
Definition py_in (key : string) (container : pyval) : result bool :=
  match container with
  | JDict items => Ok (bool_decide (is_Some (assoc key items)))
  | JList l => Ok (existsb (is_str key) l)
  | JStr s => Ok (PyStr.contains key s)
  | _ => Raise TypeError
  end.

(** [container[key]] for a string [key] *)
Definition getitem (container : pyval) (key : string) : result pyval :=
  match container with
  | JDict items =>
      match assoc key items with Some v => Ok v | None => Raise KeyError end
  | _ => Raise TypeError
  end.

(** [container.items()] *)
Definition py_items (container : pyval) : result (list (string * pyval)) :=
  match container with
  | JDict items => Ok items
  | _ => Raise AttributeError
  end.

(** [isinstance(v, (int, float))]; [bool] is a subclass of [int]. *)
Definition isinstance_int_float (v : pyval) : bool :=
  match v with JBool _ | JInt _ | JFloat _ => true | _ => false end.

(** [isinstance(v, bool)] *)
Definition isinstance_bool (v : pyval) : bool :=
  match v with JBool _ => true | _ => false end.

(** [v * k] for a number [v] and an integer literal [k]. *)
Definition num_mul (v : pyval) (k : Z) : result pyval :=
  match v with
  | JBool b => Ok (JInt (Z.b2z b * k))
  | JInt n => Ok (JInt (n * k))
  | JFloat f => Ok (JFloat (PyFloat.mul f (PyFloat.of_int k)))
  | _ => Raise TypeError
  end.

(** [int(v)] for a number [v]. *)
Definition py_int (v : pyval) : result Z :=
  match v with
  | JBool b => Ok (Z.b2z b)
  | JInt n => Ok n
  | JFloat f =>
      match PyFloat.to_int f with
      | Some n => Ok n
      | None => Raise (match f with S754_nan => ValueError | _ => OverflowError end)
      end
  | _ => Raise TypeError
  end.

(** [v.replace(old, new)]: a method of [str] only. *)
Definition py_replace (v : pyval) (old : ascii) (new : string) : result string :=
  match v with
  | JStr s => Ok (PyStr.replace old new s)
  | _ => Raise AttributeError
  end.

(** [topic_config.get(key, {}).items()] *)
Definition setting_items {A : Type} (s : setting (list A)) : result (list A) :=
  match s with
  | Missing => Ok []
  | Mapping l => Ok l
  | NotMapping => Raise AttributeError
  end.

(** [topic_config.get('field_mapping', {}).get(key, key)] *)
Definition setting_get (s : setting (gmap string string)) (key : string)
  : result string :=
  match s with
  | Missing => Ok key
  | Mapping m => Ok (default key (m !! key))
  | NotMapping => Raise AttributeError
  end.

(** [str(v)], as the code applies it: to values that are neither numbers
    nor booleans.  The text of a list or of a dict is left to [py_repr]. *)
Definition py_str (py_repr : pyval -> string) (v : pyval) : string :=
  match v with
  | JStr s => s
  | JNull => "None"
  | _ => py_repr v
  end.

(** ** The bridge *)

Section Bridge.

(** The library calls whose result the bridge consumes. *)
Variable json_loads : string -> result pyval.
Variable fromisoformat : string -> option datetime.
Variable utcnow : datetime.
Variable py_repr : pyval -> string.
(** [write_returns bucket record] tells whether [write_api.write]
    returns ([true]) or raises ([false]). *)
Variable write_returns : string -> Point.t -> bool.
(** [ack_returns delivery_tag] tells whether [channel.basic_ack] returns
    ([true]) or raises ([false]), as it does on a channel that has closed
    since the delivery. *)
Variable ack_returns : Z -> bool.
Variable config : Config.

Local Open Scope py_scope.

(** Lines 213-227: the time of the point. *)
Definition with_time (point : Point.t) (message_data : pyval)
  : result Point.t :=
  has_timestamp <- py_in "timestamp" message_data ;;
  if has_timestamp : bool then
    let attempt :=
      ts <- getitem message_data "timestamp" ;;
      if isinstance_int_float ts then
        scaled <- num_mul ts 1000000000 ;;
        ns <- py_int scaled ;;
        Ok (Point.time point (TimeInt ns))
      else
        text <- py_replace ts "Z" "+00:00" ;;
        match fromisoformat text with
        | Some dt => Ok (Point.time point (TimeDatetime dt))
        | None => Raise ValueError
        end in
    match attempt with
    | Ok point' => Ok point'
    | Raise _ => Ok (Point.time point (TimeDatetime utcnow))
    end
  else Ok (Point.time point (TimeDatetime utcnow)).

(** Lines 242-254: one iteration of the loop over the items.
    [field_mapping] is what [topic_config.get('field_mapping', {})] is;
    its [get] is called for every key but [timestamp]. *)
Definition add_field (field_mapping : setting (gmap string string))
    (point : Point.t) (item : string * pyval) : result Point.t :=
  let '(key, value) := item in
  if String.eqb key "timestamp" then Ok point
  else
    field_name <- setting_get field_mapping key ;;
    if isinstance_int_float value then Ok (Point.field point field_name value)
    else if isinstance_bool value then Ok (Point.field point field_name value)
    else Ok (Point.field point field_name (JStr (py_str py_repr value))).

(** The body of the [try] of [_transform_to_influx_point]. *)
Definition transform_body (message_data : pyval)
    (topic_config : TopicConfig) (method : Method) : result Point.t :=
  let measurement :=
    match measurement topic_config with
    | Some m =>
        if PyStr.truthy m then m
        else PyStr.replace "." "_" (routing_key method)
    | None => PyStr.replace "." "_" (routing_key method)
    end in
  let point := Point.new measurement in
  point <- with_time point message_data ;;
  tags <- setting_items (tags topic_config) ;;
  let point :=
    fold_left (fun p kv => Point.tag p (fst kv) (snd kv)) tags point in
  let point := Point.tag point "routing_key" (routing_key method) in
  let point := Point.tag point "exchange" (exchange method) in
  let field_mapping := field_mapping topic_config in
  items <- py_items message_data ;;
  for_each (add_field field_mapping) items point.

Definition _transform_to_influx_point (message_data : pyval)
    (topic_config : TopicConfig) (method : Method) : option Point.t :=
  match transform_body message_data topic_config method with
  | Ok point => Some point
  | Raise _ => None
  end.

(** Lines 179-183: the message as data. *)
Definition parse_message (body : string) : result pyval :=
  let decode b :=
    match Utf8.decode b with
    | Some text => Ok text
    | None => Raise UnicodeDecodeError
    end in
  match (text <- decode body ;; json_loads text) with
  | Raise JSONDecodeError =>
      text <- decode body ;;
      Ok (JDict [("raw_message", JStr text)])
  | r => r
  end.

(** [topic_config.get('influx_bucket') or self.config['influxdb']['bucket']] *)
Definition write_bucket (topic_config : TopicConfig) : result string :=
  let global :=
    match bucket config with
    | Some b => Ok b
    | None => Raise KeyError
    end in
  match influx_bucket topic_config with
  | Some b => if PyStr.truthy b then Ok b else global
  | None => global
  end.

(** Line 196: the call of [basic_ack], and whether it returns. *)
Definition basic_ack (method : Method) : list event * result unit :=
  ([BasicAck (delivery_tag method)],
   if ack_returns (delivery_tag method) then Ok tt else Raise ChannelError).

(** The body of the [try] of [_message_callback] (lines 178-196): the
    calls made, and whether the end of the body is reached. *)
Definition callback_body (method : Method) (body : string)
    (topic_config : TopicConfig) : list event * result unit :=
  match parse_message body with
  | Raise e => ([], Raise e)
  | Ok message_data =>
      match _transform_to_influx_point message_data topic_config method with
      | Some point =>
          match write_bucket topic_config with
          | Raise e => ([], Raise e)
          | Ok b =>
              if write_returns b point then
                let (calls, r) := basic_ack method in
                (Write b point :: calls, r)
              else ([Write b point], Raise WriteError)
          end
      | None => basic_ack method
      end
  end.

(** The handler of line 198 ends a body that raised with [basic_nack]. *)
Definition _message_callback (method : Method) (body : string)
    (topic_config : TopicConfig) : list event :=
  match callback_body method body topic_config with
  | (calls, Ok _) => calls
  | (calls, Raise _) => calls ++ [BasicNack (delivery_tag method) true]
  end.

End Bridge.

Arguments with_time fromisoformat utcnow point message_data : assert.
Arguments add_field py_repr field_mapping point item : assert.

(** ** Reading a delivery's calls *)

Definition is_ack (tag : Z) (e : event) : bool :=
  match e with BasicAck t => Z.eqb t tag | _ => false end.

Definition is_nack (tag : Z) (e : event) : bool :=
  match e with BasicNack t _ => Z.eqb t tag | _ => false end.

Definition is_write (e : event) : bool :=
  match e with Write _ _ => true | _ => false end.

(** How many times the delivery [tag] is acknowledged, is rejected, and how
    many writes are attempted. *)
Definition acks (tag : Z) (calls : list event) : nat :=
  length (filter (fun e => is_ack tag e = true) calls).
Definition nacks (tag : Z) (calls : list event) : nat :=
  length (filter (fun e => is_nack tag e = true) calls).
Definition writes (calls : list event) : nat :=
  length (filter (fun e => is_write e = true) calls).

(** Rejected with requeue enabled, and never acknowledged. *)
Definition rejected_not_acked (tag : Z) (calls : list event) : Prop :=
  In (BasicNack tag true) calls /\ acks tag calls = 0%nat.

(** Acknowledged exactly once, and never rejected. *)
Definition acked_once_not_rejected (tag : Z) (calls : list event) : Prop :=
  acks tag calls = 1%nat /\ nacks tag calls = 0%nat.

(** ** What a field holds *)

(** The value stored for a source value: numbers and booleans as they are,
    anything else as its text. *)
Definition field_value (py_repr : pyval -> string) (v : pyval) : pyval :=
  if isinstance_int_float v then v
  else if isinstance_bool v then v
  else JStr (py_str py_repr v).

(** The name a source key is stored under. *)
Definition field_name (field_mapping : gmap string string) (key : string)
  : string := default key (field_mapping !! key).

(** What one iteration of the loop over the items does to the point when
    the field mapping is [field_mapping]. *)
Definition put_field (py_repr : pyval -> string)
    (field_mapping : gmap string string) (point : Point.t)
    (item : string * pyval) : Point.t :=
  if String.eqb (fst item) "timestamp" then point
  else Point.field point (field_name field_mapping (fst item))
         (field_value py_repr (snd item)).

(** Whether the loop over [items] gets through: the field mapping is read
    for every key but [timestamp]. *)
Definition fields_pass (field_mapping : setting (gmap string string))
    (items : list (string * pyval)) : bool :=
  reads_as_mapping field_mapping
  || forallb (fun item => String.eqb (fst item) "timestamp") items.

(** Whether the settings of the topic let a point be built from an object
    of these items. *)
Definition builds_point (topic_config : TopicConfig)
    (items : list (string * pyval)) : bool :=
  reads_as_mapping (tags topic_config)
  && fields_pass (field_mapping topic_config) items.

(** The static tag of a topic under [key]; of two entries with one key the
    later wins. *)
Definition static_tag (topic_config : TopicConfig) (key : string)
  : option string :=
  (list_to_map (reverse (mapping_or [] (tags topic_config)))
     : gmap string string) !! key.

(** The measurement name the code computes. *)
Definition measurement_name (topic_config : TopicConfig) (method : Method)
  : string :=
  match measurement topic_config with
  | Some m =>
      if PyStr.truthy m then m else PyStr.replace "." "_" (routing_key method)
  | None => PyStr.replace "." "_" (routing_key method)
  end.

(** One iteration of the loop over the static tags (lines 231-232). *)
Definition add_tag (p : Point.t) (kv : string * string) : Point.t :=
  Point.tag p (fst kv) (snd kv).

(** ** The specification's wording, for comparison *)

(** The text the specification has parsed for a timestamp string: the
    string itself, with a [Z] in last position read as [+00:00]. *)
Fixpoint trailing_Z_as_utc (s : string) : string :=
  match s with
  | EmptyString => EmptyString
  | String c EmptyString =>
      if Ascii.eqb c "Z" then "+00:00" else String c EmptyString
  | String c s' => String c (trailing_Z_as_utc s')
  end.

(** The instant the specification gives a timestamp string. *)
Definition spec_string_time (fromisoformat : string -> option datetime)
    (utcnow : datetime) (s : string) : ptime :=
  match fromisoformat (trailing_Z_as_utc s) with
  | Some dt => TimeDatetime dt
  | None => TimeDatetime utcnow
  end.

(** [ns] is exactly [t] seconds in nanoseconds, for a number [t]: a finite
    float [(-1)^s * m * 2^e] is taken at its rational value. *)
Definition exactly_scaled (t : pyval) (ns : Z) : Prop :=
  match t with
  | JInt n => ns = n * 1000000000
  | JFloat (S754_zero _) => ns = 0
  | JFloat (S754_finite s m e) =>
      let v := if s then Zneg m else Zpos m in
      if Z.leb 0 e then ns = v * 2 ^ e * 1000000000
      else ns * 2 ^ (- e) = v * 1000000000
  | _ => False
  end.

(** ** A sample environment *)

Module Sample.

Definition dq : string := String "034"%char "".

(** The object with a timestamp 1700000000 and a temperature 21.5. *)
Definition body_env : string :=
  "{" +:+ dq +:+ "timestamp" +:+ dq +:+ ":1700000000,"
      +:+ dq +:+ "temperature" +:+ dq +:+ ":21.5}".

(** The object with a temp of 10. *)
Definition body_temp : string := "{" +:+ dq +:+ "temp" +:+ dq +:+ ":10}".

Definition f21_5 : spec_float := S754_finite false 6051711999279104 (-48).

(** [json.loads] on the texts used below, with the values it returns for
    them; a text that is not listed is taken not to be JSON. *)
Definition json_loads (text : string) : result pyval :=
  if String.eqb text body_env then
    Ok (JDict [("timestamp", JInt 1700000000); ("temperature", JFloat f21_5)])
  else if String.eqb text body_temp then Ok (JDict [("temp", JInt 10)])
  else if String.eqb text "42" then Ok (JInt 42)
  else if String.eqb text "null" then Ok JNull
  else if String.eqb text "NaN" then Ok (JFloat S754_nan)
  else Raise JSONDecodeError.

Definition utc (y mo d h mi s : Z) (offset : option Z) : datetime :=
  mkdatetime y mo d h mi s 0 offset.

(** [datetime.fromisoformat] on the texts used below, with the values it
    returns for them; it raises on a text that is not listed. *)
Definition fromisoformat (text : string) : option datetime :=
  if String.eqb text "2024-01-15T12:30:00+00:00" then
    Some (utc 2024 1 15 12 30 0 (Some 0))
  else if String.eqb text "2024-01-01T10:00:00+00:00:30" then
    Some (utc 2024 1 1 10 0 0 (Some 30))
  else None.

Definition utcnow : datetime := utc 2026 11 4 8 0 0 None.

Definition py_repr (v : pyval) : string :=
  match v with
  | JList [] => "[]"
  | JDict [] => "{}"
  | _ => "?"
  end.

Definition store_up (b : string) (p : Point.t) : bool := true.
Definition store_down (b : string) (p : Point.t) : bool := false.

Definition channel_open (tag : Z) : bool := true.
Definition channel_closed (tag : Z) : bool := false.

Definition config : Config := mkConfig (Some "default-bucket").

Definition topic_env : TopicConfig :=
  mkTopic (Some "env") Missing Missing None.
Definition topic_plain : TopicConfig :=
  mkTopic None Missing Missing None.
Definition topic_rename : TopicConfig :=
  mkTopic None (Mapping [("site", "lab"); ("exchange", "static")])
    (Mapping {[ "temp" := "temperature" ]}) (Some "sensors").
(** [tags:] and [field_mapping:] with nothing after them. *)
Definition topic_null_tags : TopicConfig :=
  mkTopic None NotMapping Missing None.
Definition topic_null_mapping : TopicConfig :=
  mkTopic None Missing NotMapping None.

Definition method_env : Method := mkMethod "node.1.env" "sensor.data" 7.
Definition method_raw : Method := mkMethod "test.raw" "sensor.data" 8.

Definition topic_raw_renamed : TopicConfig :=
  mkTopic None Missing (Mapping {[ "raw_message" := "text" ]}) None.
Definition method_blank : Method := mkMethod "" "amq.fanout" 9.

Definition transform :=
  _transform_to_influx_point fromisoformat utcnow py_repr.
(** The handler on a channel that stays open, and on one that has closed
    by the time of the acknowledgement. *)
Definition callback (store : string -> Point.t -> bool) :=
  _message_callback json_loads fromisoformat utcnow py_repr store channel_open
    config.
Definition callback_closed (store : string -> Point.t -> bool) :=
  _message_callback json_loads fromisoformat utcnow py_repr store channel_closed
    config.

(** The point built from [message_data] (an empty point when none is). *)
Definition point_of (message_data : pyval) (topic_config : TopicConfig)
    (method : Method) : Point.t :=
  default (Point.new "") (transform message_data topic_config method).

(** A byte that no UTF-8 text contains. *)
Definition not_utf8 : string := String "255"%char "".

(** 1700000000.25, a binary64 number. *)
Definition f_quarter : spec_float := S754_finite false 7130316801048576 (-22).

Definition items_env : list (string * pyval) :=
  [("timestamp", JInt 1700000000); ("temperature", JFloat f21_5)].
Definition items_temp : list (string * pyval) := [("temp", JInt 10)].
Definition items_clash : list (string * pyval) :=
  [("temperature", JInt 1); ("ok", JBool true); ("timestamp", JNull);
   ("temp", JStr "warm"); ("note", JNull)].

End Sample.

(** ** The subscriptions ([_setup_subscriptions]) *)

(** One entry of [config['topics']], with the keys the setup reads; [None]
    is a missing key ([exchange] and [queue_name] are read for their truth
    value, so a null there is [None] as well).  [message] holds the keys
    the message path reads. *)
Module Topic.

Record t := mk {
  exchange : option string;
  routing_key : option string;
  queue_name : option string;
  exchange_type : option string;
  durable : option bool;
  message : TopicConfig }.

End Topic.

(** The calls made on the channel, with the arguments the code passes and
    pika's defaults for the ones it leaves out.  [BasicConsume] carries the
    topic its callback is bound to (the default argument of the lambda). *)
Inductive channel_call :=
| ExchangeDeclare (exchange exchange_type : string) (durable : bool)
| QueueDeclare (queue : string) (durable exclusive : bool)
| QueueBind (exchange queue routing_key : string)
| BasicConsume (queue : string) (topic : Topic.t) (auto_ack : bool).

(** A computation on the channel: from the calls made so far to the calls
    made after it, and its value, or [None] when a call has raised. *)
Definition chan (A : Type) : Type :=
  list channel_call -> list channel_call * option A.

Definition chan_ret {A} (a : A) : chan A := fun calls => (calls, Some a).

Definition chan_bind {A B} (m : chan A) (k : A -> chan B) : chan B :=
  fun calls =>
    match m calls with
    | (calls', Some a) => k a calls'
    | (calls', None) => (calls', None)
    end.

Declare Scope chan_scope.
Delimit Scope chan_scope with chan.
Notation "x <- c ;; k" := (chan_bind c (fun x => k))
  (at level 100, c at next level, right associativity) : chan_scope.

Section Setup.

(** [call_raises n]: the call made after [n] earlier calls raises.
    [server_queue n]: the name the broker gives the queue declared, without
    a name, after [n] earlier calls. *)
Variable call_raises : nat -> bool.
Variable server_queue : nat -> string.

Local Open Scope chan_scope.

(** One call on the channel, returning [value] unless it raises. *)
Definition channel {A} (c : channel_call) (value : nat -> A) : chan A :=
  fun calls =>
    ((calls ++ [c])%list,
     if call_raises (length calls) then None else Some (value (length calls))).

(** Lines 134-171: the body of the loop over the topics. *)
Definition subscribe (topic_config : Topic.t) : chan unit :=
  let exchange := default "" (Topic.exchange topic_config) in
  let routing_key := default "#" (Topic.routing_key topic_config) in
  let queue_name := Topic.queue_name topic_config in
  _ <- (if PyStr.truthy exchange then
          channel
            (ExchangeDeclare exchange
               (default "topic" (Topic.exchange_type topic_config))
               (default true (Topic.durable topic_config)))
            (fun _ => tt)
        else chan_ret tt) ;;
  queue_name <-
    (match queue_name with
     | Some q =>
         if PyStr.truthy q then
           channel (QueueDeclare q (default true (Topic.durable topic_config)) false)
             (fun _ => q)
         else channel (QueueDeclare "" false true) server_queue
     | None => channel (QueueDeclare "" false true) server_queue
     end) ;;
  _ <- (if PyStr.truthy exchange then
          channel (QueueBind exchange queue_name routing_key) (fun _ => tt)
        else chan_ret tt) ;;
  channel (BasicConsume queue_name topic_config false) (fun _ => tt).

(** The loop over [config.get('topics', [])]. *)
Fixpoint subscribe_all (topics : list Topic.t) : chan unit :=
  match topics with
  | [] => chan_ret tt
  | topic_config :: topics' =>
      _ <- subscribe topic_config ;; subscribe_all topics'
  end.

Definition _setup_subscriptions (topics : option (list Topic.t))
  : list channel_call * option unit :=
  subscribe_all (default [] topics) [].

End Setup.

(** The calls of one topic, when the queue it consumes is [queue]. *)
Definition topic_calls (queue : string) (t : Topic.t) : list channel_call :=
  let ex := default "" (Topic.exchange t) in
  let named :=
    match Topic.queue_name t with
    | Some q => PyStr.truthy q
    | None => false
    end in
  ((if PyStr.truthy ex then
      [ExchangeDeclare ex (default "topic" (Topic.exchange_type t))
         (default true (Topic.durable t))]
    else [])
   ++ [if named then QueueDeclare queue (default true (Topic.durable t)) false
       else QueueDeclare "" false true]
   ++ (if PyStr.truthy ex then
         [QueueBind ex queue (default "#" (Topic.routing_key t))]
       else [])
   ++ [BasicConsume queue t false])%list.

(** The queue a topic consumes, when its setup starts after [n] calls. *)
Definition topic_queue (server_queue : nat -> string) (n : nat) (t : Topic.t)
  : string :=
  let declared_after :=
    (if PyStr.truthy (default "" (Topic.exchange t)) then S n else n) in
  match Topic.queue_name t with
  | Some q => if PyStr.truthy q then q else server_queue declared_after
  | None => server_queue declared_after
  end.

(** The calls of a list of topics, when the setup starts after [n] calls
    and no call raises. *)
Fixpoint planned_calls (server_queue : nat -> string) (n : nat)
    (topics : list Topic.t) : list channel_call :=
  match topics with
  | [] => []
  | t :: topics' =>
      let calls := topic_calls (topic_queue server_queue n t) t in
      (calls ++ planned_calls server_queue (n + length calls) topics')%list
  end.

(** The calls that are made of a plan: all of them up to the first one
    that raises, that one included. *)
Fixpoint attempted (call_raises : nat -> bool) (n : nat)
    (plan : list channel_call) : list channel_call :=
  match plan with
  | [] => []
  | c :: plan' =>
      c :: (if call_raises n then [] else attempted call_raises (S n) plan')
  end.

Definition is_consume (c : channel_call) : option Topic.t :=
  match c with BasicConsume _ t _ => Some t | _ => None end.

(** The topics of the consumers registered by a list of calls, in order. *)
Definition consumers (calls : list channel_call) : list Topic.t :=
  omap is_consume calls.

(** No call of a plan raises. *)
Fixpoint succeeds (call_raises : nat -> bool) (n : nat)
    (plan : list channel_call) : bool :=
  match plan with
  | [] => true
  | _ :: plan' => negb (call_raises n) && succeeds call_raises (S n) plan'
  end.

(** The call [c], made after [n] earlier calls, declares the queue [q]:
    under its name, or without a name, [q] being what the broker answers. *)
Definition declares (server_queue : nat -> string) (n : nat) (q : string)
    (c : channel_call) : Prop :=
  (exists d, c = QueueDeclare q d false)
  \/ (c = QueueDeclare "" false true /\ q = server_queue n).

(** In [calls], made after [n] earlier calls, a queue is bound right after
    its exchange and the queue itself have been declared. *)
Definition binds_declared (server_queue : nat -> string) (n : nat)
    (calls : list channel_call) : Prop :=
  forall i ex q rk,
    calls !! i = Some (QueueBind ex q rk) ->
    (2 <= i)%nat
    /\ (exists ty d, calls !! (i - 2)%nat = Some (ExchangeDeclare ex ty d))
    /\ (exists c, calls !! (i - 1)%nat = Some c
                  /\ declares server_queue (n + (i - 1)) q c).

(** In [calls], made after [n] earlier calls, a consumer is registered
    without automatic acknowledgement, right after its queue has been
    declared, or declared and bound. *)
Definition consumes_declared (server_queue : nat -> string) (n : nat)
    (calls : list channel_call) : Prop :=
  forall i q t a,
    calls !! i = Some (BasicConsume q t a) ->
    a = false
    /\ (1 <= i)%nat
    /\ ((exists c, calls !! (i - 1)%nat = Some c
                   /\ declares server_queue (n + (i - 1)) q c)
        \/ ((2 <= i)%nat
            /\ (exists ex rk, calls !! (i - 1)%nat = Some (QueueBind ex q rk))
            /\ (exists c, calls !! (i - 2)%nat = Some c
                          /\ declares server_queue (n + (i - 2)) q c))).

(** The exchanges declared by a list of calls, the bindings made and the
    queues declared, in order. *)
Definition declared_exchanges (calls : list channel_call)
  : list (string * string * bool) :=
  omap (fun c => match c with
                 | ExchangeDeclare e ty d => Some (e, ty, d)
                 | _ => None
                 end) calls.

Definition bindings (calls : list channel_call) : list (string * string) :=
  omap (fun c => match c with
                 | QueueBind e _ rk => Some (e, rk)
                 | _ => None
                 end) calls.

Definition declared_queues (calls : list channel_call)
  : list (string * bool * bool) :=
  omap (fun c => match c with
                 | QueueDeclare q d x => Some (q, d, x)
                 | _ => None
                 end) calls.

(** What a topic asks for: its exchange (none for the default exchange),
    its binding, and the declaration of its queue. *)
Definition topic_exchange (t : Topic.t) : option (string * string * bool) :=
  let ex := default "" (Topic.exchange t) in
  if PyStr.truthy ex
  then Some (ex, default "topic" (Topic.exchange_type t),
             default true (Topic.durable t))
  else None.

Definition topic_binding (t : Topic.t) : option (string * string) :=
  let ex := default "" (Topic.exchange t) in
  if PyStr.truthy ex then Some (ex, default "#" (Topic.routing_key t))
  else None.

Definition topic_queue_declaration (t : Topic.t) : string * bool * bool :=
  match Topic.queue_name t with
  | Some (String c q) => (String c q, default true (Topic.durable t), false)
  | _ => ("", false, true)
  end.

(** Sample topics: a named exchange with a named queue, the default
    exchange with an anonymous queue, and a named exchange with an
    anonymous queue. *)
Module SampleSetup.

Definition sensors : Topic.t :=
  Topic.mk (Some "sensor.data") (Some "sensor.*.measurements")
    (Some "bridge-sensors") None None Sample.topic_rename.
Definition direct : Topic.t :=
  Topic.mk None None None None None Sample.topic_plain.
Definition alerts : Topic.t :=
  Topic.mk (Some "alerts") None (Some "") (Some "fanout") (Some false)
    Sample.topic_env.

Definition topics : list Topic.t := [sensors; direct; alerts].

Definition never (n : nat) : bool := false.
Definition at_call (k n : nat) : bool := Nat.eqb n k.
Definition server_queue (n : nat) : string :=
  if Nat.eqb n 3 then "amq.gen-3" else "amq.gen-7".

End SampleSetup.

(** The keys of an object that become fields: all but [timestamp]. *)
Definition field_keys (items : list (string * pyval)) : list string :=
  filter (fun k => k <> "timestamp") (map fst items).

(** The scalars: booleans, numbers and strings. *)
Definition is_scalar (v : pyval) : bool :=
  match v with
  | JBool _ | JInt _ | JFloat _ | JStr _ => true
  | _ => false
  end.

(** ** The main loop ([run]) *)

(** The calls [run] makes, in order, log lines left out. *)
Inductive step :=
| ConnectRabbitmq
| ConnectInfluxdb
| Sleep (seconds : Z)
| SetupSubscriptions
| ProcessDataEvents
| Cleanup.

(** What [process_data_events] does: it returns, or it raises
    [AMQPConnectionError], another [Exception], or [KeyboardInterrupt]. *)
Inductive pumped := Delivered | ConnectionLost | Failed | Interrupted.

(** How [run] ends. *)
Inductive outcome := Returns | Raises.

(** The world around the bridge.  The answers are indexed by the number of
    calls made before: [rabbitmq_up n] and [influxdb_up n] tell whether a
    connection attempted then succeeds, [setup_raises n] whether
    [_setup_subscriptions] raises, [events n] what [process_data_events]
    does.  [signal = Some k] when a termination signal has been handled by
    the time [k] calls have been made ([_signal_handler] has set
    [running] to [False]); [None] when none ever is. *)
Record World := mkWorld {
  rabbitmq_up : nat -> bool;
  influxdb_up : nat -> bool;
  setup_raises : nat -> bool;
  events : nat -> pumped;
  signal : option nat }.

(** [self.running], read after [n] calls. *)
Definition running (w : World) (n : nat) : bool :=
  match signal w with
  | None => true
  | Some k => Nat.ltb n k
  end.

Section Run.

Variable w : World.

(** Lines 267-278: the loop that connects.  The result tells whether the
    loop has been left ([false]: it is still turning when the fuel runs
    out). *)
Fixpoint connect_loop (fuel : nat) (steps : list step) : list step * bool :=
  match fuel with
  | O => (steps, false)
  | S fuel' =>
      if running w (length steps) then
        let steps1 := (steps ++ [ConnectRabbitmq])%list in
        if negb (rabbitmq_up w (length steps)) then
          connect_loop fuel' (steps1 ++ [Sleep 5])%list
        else
          let steps2 := (steps1 ++ [ConnectInfluxdb])%list in
          if negb (influxdb_up w (length steps1)) then
            connect_loop fuel' (steps2 ++ [Sleep 5])%list
          else (steps2, true)
      else (steps, true)
  end.

(** Lines 290-299: the loop that consumes, with what ends it ([None]: it
    is still turning when the fuel runs out). *)
Fixpoint consume_loop (fuel : nat) (steps : list step)
  : list step * option outcome :=
  match fuel with
  | O => (steps, None)
  | S fuel' =>
      if running w (length steps) then
        let steps1 := (steps ++ [ProcessDataEvents])%list in
        match events w (length steps) with
        | Delivered => consume_loop fuel' steps1
        | ConnectionLost =>
            let steps2 := (steps1 ++ [ConnectRabbitmq])%list in
            let steps3 := (steps2 ++ [SetupSubscriptions])%list in
            if setup_raises w (length steps2) then (steps3, Some Raises)
            else consume_loop fuel' steps3
        | Failed => consume_loop fuel' (steps1 ++ [Sleep 1])%list
        | Interrupted => (steps1, Some Returns)
        end
      else (steps, Some Returns)
  end.

Definition run (fuel : nat) : list step * option outcome :=
  match connect_loop fuel [] with
  | (steps, false) => (steps, None)
  | (steps, true) =>
      if negb (running w (length steps)) then (steps, Some Returns)
      else
        let steps1 := (steps ++ [SetupSubscriptions])%list in
        let '(steps2, ended) :=
          if setup_raises w (length steps) then (steps1, Some Raises)
          else consume_loop fuel steps1 in
        match ended with
        | Some out => ((steps2 ++ [Cleanup])%list, Some out)
        | None => (steps2, None)
        end
  end.

End Run.

(** One turn of the connecting loop that fails: at RabbitMQ, or at
    InfluxDB once RabbitMQ is connected. *)
Definition retry (at_influxdb : bool) : list step :=
  if at_influxdb then [ConnectRabbitmq; ConnectInfluxdb; Sleep 5]
  else [ConnectRabbitmq; Sleep 5].

(** The calls of the consuming loop. *)
Definition is_steady (s : step) : Prop :=
  s = ProcessDataEvents \/ s = ConnectRabbitmq
  \/ s = SetupSubscriptions \/ s = Sleep 1.

(** In [steps], every call of [process_data_events] that loses the
    connection is followed by a reconnection and by the setup, and every
    one that fails otherwise by a sleep of one second. *)
Definition reacts (w : World) (steps : list step) : Prop :=
  forall i,
    steps !! i = Some ProcessDataEvents ->
    (events w i = ConnectionLost ->
     steps !! S i = Some ConnectRabbitmq
     /\ steps !! S (S i) = Some SetupSubscriptions)
    /\ (events w i = Failed -> steps !! S i = Some (Sleep 1)).

(** Sample worlds: nothing ever fails; RabbitMQ is down for the first
    three attempts; a signal is handled while the twentieth call is made;
    the connection is lost at the sixth call and the setup that follows
    raises. *)
Module SampleRun.

Definition calm : World :=
  mkWorld (fun _ => true) (fun _ => true) (fun _ => false)
    (fun _ => Delivered) None.

Definition slow_start : World :=
  mkWorld (fun n => Nat.leb 6 n) (fun _ => true) (fun _ => false)
    (fun _ => Delivered) (Some 20%nat).

Definition broken : World :=
  mkWorld (fun _ => true) (fun _ => true) (fun n => Nat.eqb n 7)
    (fun n => if Nat.eqb n 5 then ConnectionLost
              else if Nat.eqb n 3 then Failed else Delivered)
    None.

Definition unreachable : World :=
  mkWorld (fun _ => false) (fun _ => true) (fun _ => false)
    (fun _ => Delivered) None.

End SampleRun.

(** ** The test data generator ([test-data-generator.py]) *)

Module Generator.

(** What [main] publishes: sensor data, weather data, alerts. *)
Inductive publication := Sensor | Weather | Alert.

(** The calls of the generator, in order, print lines left out: an attempt
    to connect and declare the exchanges, a sleep before the next attempt,
    a publication, the sleep at the end of a turn of the main loop, and
    the closing of the connection.  A run that is not interrupted from the
    keyboard is modelled. *)
Inductive step :=
| Attempt
| Wait (seconds : Z)
| Publish (p : publication)
| Pause
| Close.

Definition max_retries : nat := 10.

Section Publisher.

(** [attempt_succeeds n]: the attempt made when [retry_count] is [n] goes
    through (connection, channel and the three exchanges).
    [publish_raises n]: the publication made after [n] earlier ones
    raises. *)
Variable attempt_succeeds : nat -> bool.
Variable publish_raises : nat -> bool.

(** Lines 96-131: the loop of [DataPublisher.connect].  [Some (Some b)]
    is [return b], [Some None] the end of the loop without a [return],
    [None] a loop still turning when the fuel runs out. *)
Fixpoint connect_loop (fuel retry_count : nat)
  : list step * option (option bool) :=
  match fuel with
  | O => ([], None)
  | S fuel' =>
      if Nat.ltb retry_count max_retries then
        if attempt_succeeds retry_count then ([Attempt], Some (Some true))
        else
          let retry_count := S retry_count in
          if Nat.ltb retry_count max_retries then
            let '(steps, r) := connect_loop fuel' retry_count in
            (Attempt :: Wait 5 :: steps, r)
          else ([Attempt], Some (Some false))
      else ([], Some None)
  end.

Definition connect (fuel : nat) : list step * option (option bool) :=
  connect_loop fuel 0.

(** Lines 205-215: what a turn of the main loop is to publish. *)
Definition turn (message_count : nat) : list publication :=
  ((if Nat.eqb (message_count mod 2) 0 then [Sensor] else [])
   ++ (if Nat.eqb (message_count mod 5) 0 then [Weather] else [])
   ++ (if Nat.eqb (message_count mod 10) 0 then [Alert] else []))%list.

(** The publications of a turn, one after the other, [published] having
    been made before: the calls, and the number of publications made when
    none raises. *)
Fixpoint publish_all (plan : list publication) (published : nat)
  : list step * option nat :=
  match plan with
  | [] => ([], Some published)
  | p :: plan' =>
      if publish_raises published then ([Publish p], None)
      else
        let '(steps, r) := publish_all plan' (S published) in
        (Publish p :: steps, r)
  end.

(** Lines 202-220: the main loop.  The result tells whether an exception
    has ended it ([false]: it is still turning when the fuel runs out). *)
Fixpoint main_loop (fuel message_count published : nat) : list step * bool :=
  match fuel with
  | O => ([], false)
  | S fuel' =>
      match publish_all (turn message_count) published with
      | (steps, None) => (steps, true)
      | (steps, Some published') =>
          let '(steps', ended) :=
            main_loop fuel' (S message_count) published' in
          ((steps ++ Pause :: steps')%list, ended)
      end
  end.

(** Lines 190-230: [main].  The result tells whether it has returned. *)
Definition main (fuel : nat) : list step * bool :=
  match connect (S max_retries) with
  | (steps, Some (Some true)) =>
      match main_loop fuel 0 0 with
      | (steps', true) => ((steps ++ steps' ++ [Close])%list, true)
      | (steps', false) => ((steps ++ steps')%list, false)
      end
  | (steps, _) => (steps, true)
  end.

End Publisher.

(** The publications among a list of calls. *)
Definition publications (steps : list step) : list publication :=
  omap (fun s => match s with Publish p => Some p | _ => None end) steps.

Global Instance publication_eq_dec : EqDecision publication.
Proof. solve_decision. Defined.

Definition count (p : publication) (l : list publication) : nat :=
  length (filter (fun q => q = p) l).

End Generator.

(** What the turns [c], [c + 1], ..., [c + n - 1] of the generator's main
    loop are to publish. *)
Definition schedule (c n : nat) : list Generator.publication :=
  concat (map Generator.turn (seq c n)).

(** *** What the generator publishes *)

Fixpoint zeros (n : nat) : string :=
  match n with O => "" | S n' => String "0" (zeros n') end.

(** [format(n, '03d')]: the decimal digits of [n] after its sign, padded
    with zeros to a width of three. *)
Definition fmt_03d (n : Z) : string :=
  let digits := pretty.pretty (Z.abs_N n) in
  let sign := if Z.ltb n 0 then "-" else "" in
  sign +:+ zeros (3 - String.length sign - String.length digits) +:+ digits.

(** The identifiers of [generate_sensor_data] and [generate_weather_data],
    from the number drawn. *)
Definition sensor_id (drawn : Z) : string := "sensor_" +:+ fmt_03d drawn.
Definition node_id (drawn : Z) : string := "node_" +:+ fmt_03d drawn.
Definition station_id (drawn : Z) : string := "weather_" +:+ fmt_03d drawn.

Definition alert_types : list string :=
  ["temperature_high"; "humidity_low"; "battery_low"; "connection_lost"].
Definition severities : list string := ["info"; "warning"; "critical"].

(** The routing keys of [publish_sensor_data], [publish_weather_data] and
    [publish_alert_data]. *)
Definition sensor_routing_key (data_sensor_id : string) : string :=
  "sensor." +:+ data_sensor_id +:+ ".measurements".
Definition weather_routing_key (data_station_id : string) : string :=
  "station." +:+ data_station_id +:+ ".measurements".
Definition alert_routing_key (severity alert_type : string) : string :=
  "alert." +:+ severity +:+ "." +:+ alert_type.

(** The dictionary of [generate_sensor_data], from the time and the values
    drawn. *)
Definition generate_sensor_data (isoformat : string) (sensor node : Z)
    (temperature humidity pressure : spec_float) (light_level : Z)
    (battery_voltage : spec_float) (signal_strength : Z) (status : string)
  : list (string * pyval) :=
  [("timestamp", JStr isoformat);
   ("sensor_id", JStr (sensor_id sensor));
   ("node_id", JStr (node_id node));
   ("temperature", JFloat temperature);
   ("humidity", JFloat humidity);
   ("pressure", JFloat pressure);
   ("light_level", JInt light_level);
   ("battery_voltage", JFloat battery_voltage);
   ("signal_strength", JInt signal_strength);
   ("status", JStr status)].

Module SampleGenerator.

Definition method_sensor : Method :=
  mkMethod (sensor_routing_key (sensor_id 7)) "sensor.data" 11.

Definition data : list (string * pyval) :=
  generate_sensor_data "2024-01-15T12:30:00+00:00" 7 2 Sample.f21_5
    Sample.f21_5 Sample.f21_5 512 Sample.f21_5 (-40) "active".

Definition third_fails (n : nat) : bool := Nat.eqb n 2.
Definition always (n : nat) : bool := true.
Definition never (n : nat) : bool := false.

End SampleGenerator.

(** ** Python strings: facts *)

Lemma truthy_true (s : string) : PyStr.truthy s = true <-> s <> "".
Proof. destruct s; simpl; split; intros; congruence. Qed.

Lemma replace_char_empty (old new : ascii) (s : string) :
  PyStr.replace old (String new "") s = "" <-> s = "".
Proof.
  split; [| intros ->; reflexivity].
  destruct s as [| c s]; [reflexivity |].
  simpl. destruct (Ascii.eqb c old); simpl; discriminate.
Qed.

Lemma replace_absent (old : ascii) (new s : string) :
  (forall c, In c (list_ascii_of_string s) -> c <> old) ->
  PyStr.replace old new s = s.
Proof.
  induction s as [| c s IH]; simpl; intros H; [reflexivity |].
  destruct (Ascii.eqb_spec c old) as [-> | _].
  - exfalso. apply (H old); [left |]; reflexivity.
  - f_equal. apply IH. intros c' Hc'. apply H. right. exact Hc'.
Qed.

Lemma append_cons (x : ascii) (a b : string) :
  String x a +:+ b = String x (a +:+ b).
Proof. reflexivity. Qed.

Lemma append_assoc (a b c : string) : (a +:+ b) +:+ c = a +:+ (b +:+ c).
Proof.
  induction a as [| x a IH]; [reflexivity |].
  now rewrite !append_cons, IH.
Qed.

Lemma replace_app (old : ascii) (new s1 s2 : string) :
  PyStr.replace old new (s1 +:+ s2)
  = PyStr.replace old new s1 +:+ PyStr.replace old new s2.
Proof.
  induction s1 as [| c s1 IH]; [reflexivity |].
  rewrite append_cons. simpl.
  destruct (Ascii.eqb c old); rewrite IH.
  - symmetry. apply append_assoc.
  - now rewrite append_cons.
Qed.

(** A text whose only [Z] is the last character: the replacement turns
    that [Z] into the offset and leaves the rest alone. *)
Lemma replace_trailing_Z (prefix : string) :
  (forall c, In c (list_ascii_of_string prefix) -> c <> "Z"%char) ->
  PyStr.replace "Z" "+00:00" (prefix +:+ "Z") = prefix +:+ "+00:00".
Proof.
  intros H. rewrite replace_app, (replace_absent _ _ prefix H). reflexivity.
Qed.

(** ** Python floats: facts *)

(** [int(x)] truncates toward zero: for a float [(-1)^s * m * 2^e], the
    absolute value of the result is the integer part of [m * 2^e]. *)
Lemma to_int_truncates s m e :
  exists a,
    PyFloat.to_int (S754_finite s m e) = Some (if s then - a else a)
    /\ 0 <= a
    /\ (0 <= e -> a = Zpos m * 2 ^ e)
    /\ (e < 0 -> a * 2 ^ (- e) <= Zpos m < (a + 1) * 2 ^ (- e)).
Proof.
  exists (Z.shiftl (Zpos m) e). split; [reflexivity |].
  split; [apply Z.shiftl_nonneg; lia |].
  split.
  - intros He. now apply Z.shiftl_mul_pow2.
  - intros He. rewrite Z.shiftl_div_pow2 by lia.
    assert (Hpow : 0 < 2 ^ (- e)) by (apply Z.pow_pos_nonneg; lia).
    pose proof (Z.div_mod (Zpos m) (2 ^ (- e)) ltac:(lia)) as Hdm.
    pose proof (Z.mod_pos_bound (Zpos m) (2 ^ (- e)) Hpow) as Hmod.
    nia.
Qed.

(** ** The transformation: structure of the result *)

Section TransformFacts.

Variable fromisoformat : string -> option datetime.
Variable utcnow : datetime.
Variable py_repr : pyval -> string.

Local Abbreviation transform := (_transform_to_influx_point fromisoformat utcnow py_repr).
Local Abbreviation put := (put_field py_repr).

Lemma put_field_eq fm p key value :
  put fm p (key, value) =
    if String.eqb key "timestamp" then p
    else Point.field p (field_name fm key) (field_value py_repr value).
Proof. reflexivity. Qed.

(** One iteration of the loop, when the field mapping can be read. *)
Lemma add_field_reads s p item :
  reads_as_mapping s = true ->
  add_field py_repr s p item = Ok (put (mapping_or ∅ s) p item).
Proof.
  intros Hs. destruct item as [key value].
  unfold add_field, put_field, field_name, field_value. cbn [fst snd].
  destruct (String.eqb key "timestamp"); [reflexivity |].
  destruct s as [| | m]; [| discriminate |]; cbn [setting_get mapping_or bind].
  - rewrite lookup_empty.
    destruct (isinstance_int_float value); [reflexivity |].
    destruct (isinstance_bool value); reflexivity.
  - destruct (isinstance_int_float value); [reflexivity |].
    destruct (isinstance_bool value); reflexivity.
Qed.

(** One iteration of the loop, when it cannot: only [timestamp] passes. *)
Lemma add_field_not_mapping p key value :
  add_field py_repr NotMapping p (key, value) =
    if String.eqb key "timestamp" then Ok p else Raise AttributeError.
Proof. unfold add_field. destruct (String.eqb key "timestamp"); reflexivity. Qed.

(** The loop over the items gets through exactly when [fields_pass] says
    so, and then does what [put_field] does. *)
Lemma fields_loop s items p :
  for_each (add_field py_repr s) items p =
    if fields_pass s items then Ok (fold_left (put (mapping_or ∅ s)) items p)
    else Raise AttributeError.
Proof.
  unfold fields_pass. destruct (reads_as_mapping s) eqn:Hs; cbn [orb].
  - revert p. induction items as [| item items IH]; intros p; [reflexivity |].
    cbn [for_each fold_left]. rewrite (add_field_reads s p item Hs). apply IH.
  - destruct s; try discriminate. cbn [mapping_or].
    revert p. induction items as [| [key value] items IH]; intros p;
      [reflexivity |].
    cbn [for_each fold_left forallb fst]. rewrite add_field_not_mapping.
    rewrite put_field_eq.
    destruct (String.eqb key "timestamp"); cbn [bind andb]; [apply IH | reflexivity].
Qed.

Lemma put_field_frame fm p item :
  Point.name (put fm p item) = Point.name p
  /\ Point.time_ (put fm p item) = Point.time_ p
  /\ Point.tags_ (put fm p item) = Point.tags_ p.
Proof.
  destruct item as [key value]. rewrite put_field_eq.
  destruct (String.eqb key "timestamp"); simpl; auto.
Qed.

Lemma fields_loop_frame fm items p :
  Point.name (fold_left (put fm) items p) = Point.name p
  /\ Point.time_ (fold_left (put fm) items p) = Point.time_ p
  /\ Point.tags_ (fold_left (put fm) items p) = Point.tags_ p.
Proof.
  revert p. induction items as [| item items IH]; intros p; simpl; [auto |].
  destruct (IH (put fm p item)) as (-> & -> & ->). apply put_field_frame.
Qed.

Lemma tags_loop_frame l p :
  Point.name (fold_left add_tag l p) = Point.name p
  /\ Point.time_ (fold_left add_tag l p) = Point.time_ p
  /\ Point.fields_ (fold_left add_tag l p) = Point.fields_ p.
Proof.
  revert p. induction l as [| kv l IH]; intros p; simpl; [auto |].
  destruct (IH (add_tag p kv)) as (-> & -> & ->). simpl. auto.
Qed.

(** The loop over the static tags: the later entry of a key wins, and
    what was there before is kept under the other keys. *)
Lemma tags_loop l p :
  Point.tags_ (fold_left add_tag l p)
  = list_to_map (reverse l) ∪ Point.tags_ p.
Proof.
  revert p. induction l as [| [k v] l IH]; intros p; simpl.
  - now rewrite (left_id_L ∅ (∪)).
  - rewrite IH, reverse_cons, list_to_map_app. simpl.
    rewrite <- (assoc_L (∪)). f_equal.
    now rewrite insert_empty, <- insert_union_singleton_l.
Qed.

(** The loop over the items leaves a name alone when no item is stored
    under it. *)
Lemma fields_loop_other fm items p d :
  (forall k v, In (k, v) items -> k <> "timestamp" -> field_name fm k <> d) ->
  Point.fields_ (fold_left (put fm) items p) !! d = Point.fields_ p !! d.
Proof.
  revert p. induction items as [| [k v] items IH]; intros p H; cbn [fold_left];
    [reflexivity |].
  rewrite IH by (intros k' v' Hin; apply (H k' v'); right; exact Hin).
  rewrite put_field_eq. destruct (String.eqb_spec k "timestamp") as [_ | Hk];
    [reflexivity |].
  simpl. apply lookup_insert_ne. apply (H k v); [left; reflexivity | exact Hk].
Qed.

(** An item is read back under its destination name unless a later item
    is stored under the same name. *)
Lemma fields_loop_last fm before k v after p :
  k <> "timestamp" ->
  (forall k' v', In (k', v') after -> k' <> "timestamp" ->
     field_name fm k' <> field_name fm k) ->
  Point.fields_ (fold_left (put fm) (before ++ (k, v) :: after)%list p)
    !! field_name fm k = Some (field_value py_repr v).
Proof.
  intros Hk Hafter. rewrite fold_left_app. cbn [fold_left].
  rewrite fields_loop_other by exact Hafter.
  rewrite put_field_eq. destruct (String.eqb_spec k "timestamp") as [E | _];
    [contradiction |].
  simpl. apply lookup_insert_eq.
Qed.

Lemma with_time_dict p items :
  exists t, with_time fromisoformat utcnow p (JDict items) = Ok (Point.time p t).
Proof.
  unfold with_time. simpl.
  destruct (bool_decide (is_Some (assoc "timestamp" items))); [| eauto].
  match goal with |- context [match ?a with Ok _ => _ | Raise _ => _ end] =>
    destruct a as [p' |] eqn:E end; [| eauto].
  unfold bind in E.
  destruct (assoc "timestamp" items) as [ts |]; [| discriminate].
  destruct (isinstance_int_float ts).
  - destruct (num_mul ts 1000000000) as [sc |]; [| discriminate].
    destruct (py_int sc) as [ns |]; [| discriminate].
    injection E as <-. eauto.
  - destruct (py_replace ts "Z" "+00:00") as [text |]; [| discriminate].
    destruct (fromisoformat text) as [dt |]; [| discriminate].
    injection E as <-. eauto.
Qed.

(** The tags of a topic, as the loop of line 231 gets them. *)
Lemma setting_items_eq {A : Type} (s : setting (list A)) :
  setting_items s =
    if reads_as_mapping s then Ok (mapping_or [] s) else Raise AttributeError.
Proof. destruct s; reflexivity. Qed.

(** On an object the transformation builds a point when the settings of
    the topic let it, and none when they do not. *)
Lemma transform_dict items topic_config method :
  exists t,
    with_time fromisoformat utcnow
      (Point.new (measurement_name topic_config method)) (JDict items)
    = Ok (Point.time (Point.new (measurement_name topic_config method)) t)
    /\ transform (JDict items) topic_config method =
         if builds_point topic_config items then
           Some (fold_left (put (mapping_or ∅ (field_mapping topic_config))) items
                   (Point.tag
                      (Point.tag
                         (fold_left add_tag (mapping_or [] (tags topic_config))
                            (Point.time
                               (Point.new (measurement_name topic_config method)) t))
                         "routing_key" (routing_key method))
                      "exchange" (exchange method)))
         else None.
Proof.
  destruct (with_time_dict (Point.new (measurement_name topic_config method)) items)
    as [t Ht].
  exists t. split; [exact Ht |].
  unfold _transform_to_influx_point, transform_body, builds_point.
  fold (measurement_name topic_config method). rewrite Ht. cbn [bind].
  rewrite setting_items_eq.
  destruct (reads_as_mapping (tags topic_config)); cbn [bind andb py_items];
    [| reflexivity].
  rewrite fields_loop.
  destruct (fields_pass (field_mapping topic_config) items); reflexivity.
Qed.

(** On anything else it builds none. *)
Lemma transform_not_dict message_data topic_config method :
  (forall items, message_data <> JDict items) ->
  transform message_data topic_config method = None.
Proof.
  intros H. unfold _transform_to_influx_point, transform_body.
  destruct (with_time _ _ _ message_data) as [p |]; [| reflexivity].
  cbn [bind]. destruct (setting_items (tags topic_config)); [| reflexivity].
  cbn [bind]. destruct message_data; try reflexivity. now destruct (H items).
Qed.

Lemma transform_Some_dict message_data topic_config method p :
  transform message_data topic_config method = Some p ->
  exists items, message_data = JDict items.
Proof.
  intros H.
  destruct message_data as [| b | n | f | s | l | items];
    [.. | exists items; reflexivity];
    rewrite transform_not_dict in H by discriminate; discriminate.
Qed.

(** A point is built exactly from an object under settings that let it. *)
Lemma transform_Some_iff message_data topic_config method :
  (exists p, transform message_data topic_config method = Some p)
  <-> exists items,
        message_data = JDict items /\ builds_point topic_config items = true.
Proof.
  split.
  - intros [p H]. destruct (transform_Some_dict _ _ _ _ H) as [items ->].
    exists items. split; [reflexivity |].
    destruct (transform_dict items topic_config method) as (t & _ & E).
    rewrite E in H. destruct (builds_point topic_config items);
      [reflexivity | discriminate].
  - intros (items & -> & Hb).
    destruct (transform_dict items topic_config method) as (t & _ & E).
    rewrite Hb in E. eauto.
Qed.

(** The settings let a point be built from any object when both are
    mappings or missing. *)
Lemma builds_point_reads topic_config items :
  reads_as_mapping (tags topic_config) = true ->
  reads_as_mapping (field_mapping topic_config) = true ->
  builds_point topic_config items = true.
Proof. intros H1 H2. unfold builds_point, fields_pass. now rewrite H1, H2. Qed.

End TransformFacts.

(** ** The scenarios of the specification *)

(** Scenario A: an object with an integer timestamp, under a measurement
    override. *)
Example scenario_A :
  match Sample.transform
          (JDict [("timestamp", JInt 1700000000);
                  ("temperature", JFloat Sample.f21_5)])
          Sample.topic_env Sample.method_env with
  | Some p =>
      Point.name p = "env"
      /\ Point.time_ p = Some (TimeInt 1700000000000000000)
      /\ Point.fields_ p !! "temperature" = Some (JFloat Sample.f21_5)
      /\ Point.fields_ p !! "timestamp" = None
      /\ Point.tags_ p !! "routing_key" = Some "node.1.env"
  | None => False
  end.
Proof. vm_compute. repeat split. Qed.

(** Scenario B: a body that is not JSON. *)
Example scenario_B :
  Sample.callback Sample.store_up Sample.method_raw "hello world" Sample.topic_plain
  = [Write "default-bucket"
       (Point.mk "test_raw" (Some (TimeDatetime Sample.utcnow))
          (<["exchange" := "sensor.data"]> (<["routing_key" := "test.raw"]> ∅))
          (<["raw_message" := JStr "hello world"]> ∅));
     BasicAck 8].
Proof. vm_compute. reflexivity. Qed.

(** Scenario C: a renamed field keeps its integer value. *)
Example scenario_C :
  match Sample.transform (JDict [("temp", JInt 10)])
          Sample.topic_rename Sample.method_env with
  | Some p =>
      Point.fields_ p !! "temperature" = Some (JInt 10)
      /\ Point.fields_ p !! "temp" = None
      /\ Point.tags_ p !! "exchange" = Some "sensor.data"
      /\ Point.tags_ p !! "site" = Some "lab"
  | None => False
  end.
Proof. vm_compute. repeat split. Qed.

(** Scenario D: the store is down. *)
Example scenario_D :
  exists p,
    Sample.callback Sample.store_down Sample.method_env Sample.body_temp
      Sample.topic_rename
    = [Write "sensors" p; BasicNack 7 true].
Proof. eexists. vm_compute. reflexivity. Qed.

(** A topic whose [tags:] is null: no point is built from an object, and
    the message is acknowledged.  A topic whose [field_mapping:] is null:
    no point is built from an object with a key other than [timestamp],
    and one is built from an object with that key only. *)
Example null_settings :
  Sample.transform (JDict Sample.items_temp) Sample.topic_null_tags
    Sample.method_env = None
  /\ Sample.callback Sample.store_up Sample.method_env Sample.body_temp
       Sample.topic_null_tags = [BasicAck 7]
  /\ Sample.transform (JDict Sample.items_temp) Sample.topic_null_mapping
       Sample.method_env = None
  /\ Sample.transform (JDict [("timestamp", JInt 1700000000)])
       Sample.topic_null_mapping Sample.method_env
     = Some (Point.mk "node_1_env" (Some (TimeInt 1700000000000000000))
               (<["exchange" := "sensor.data"]>
                  (<["routing_key" := "node.1.env"]> ∅))
               ∅).
Proof. vm_compute. repeat split. Qed.

(** ** The handling of one delivery *)

Section CallbackFacts.

Variable json_loads : string -> result pyval.
Variable fromisoformat : string -> option datetime.
Variable utcnow : datetime.
Variable py_repr : pyval -> string.
Variable write_returns : string -> Point.t -> bool.
Variable ack_returns : Z -> bool.
Variable config : Config.

Local Abbreviation transform :=
  (_transform_to_influx_point fromisoformat utcnow py_repr).
Local Abbreviation parse := (parse_message json_loads).
Local Abbreviation callback :=
  (_message_callback json_loads fromisoformat utcnow py_repr write_returns
     ack_returns config).

Lemma callback_parse_raises method body topic_config e :
  parse body = Raise e ->
  callback method body topic_config = [BasicNack (delivery_tag method) true].
Proof.
  intros H. unfold _message_callback, callback_body. rewrite H. reflexivity.
Qed.

(** Without a point the first call is [basic_ack]; the handler follows it
    with [basic_nack] when it raises. *)
Lemma callback_no_point method body topic_config message_data :
  parse body = Ok message_data ->
  transform message_data topic_config method = None ->
  callback method body topic_config =
    BasicAck (delivery_tag method)
    :: (if ack_returns (delivery_tag method) then []
        else [BasicNack (delivery_tag method) true]).
Proof.
  intros H1 H2. unfold _message_callback, callback_body, basic_ack.
  rewrite H1, H2. destruct (ack_returns (delivery_tag method)); reflexivity.
Qed.

Lemma callback_no_bucket method body topic_config message_data p e :
  parse body = Ok message_data ->
  transform message_data topic_config method = Some p ->
  write_bucket config topic_config = Raise e ->
  callback method body topic_config = [BasicNack (delivery_tag method) true].
Proof.
  intros H1 H2 H3. unfold _message_callback, callback_body.
  rewrite H1, H2, H3. reflexivity.
Qed.

Lemma callback_point method body topic_config message_data p b :
  parse body = Ok message_data ->
  transform message_data topic_config method = Some p ->
  write_bucket config topic_config = Ok b ->
  callback method body topic_config =
    Write b p
    :: (if write_returns b p then
          BasicAck (delivery_tag method)
          :: (if ack_returns (delivery_tag method) then []
              else [BasicNack (delivery_tag method) true])
        else [BasicNack (delivery_tag method) true]).
Proof.
  intros H1 H2 H3. unfold _message_callback, callback_body, basic_ack.
  rewrite H1, H2, H3.
  destruct (write_returns b p); [| reflexivity].
  destruct (ack_returns (delivery_tag method)); reflexivity.
Qed.

Lemma parse_not_utf8 body :
  Utf8.decode body = None -> parse body = Raise UnicodeDecodeError.
Proof. intros H. unfold parse_message. rewrite H. reflexivity. Qed.

Lemma parse_loaded body text v :
  Utf8.decode body = Some text -> json_loads text = Ok v -> parse body = Ok v.
Proof. intros H1 H2. unfold parse_message. rewrite H1. simpl. rewrite H2. reflexivity. Qed.

Lemma parse_fallback body text :
  Utf8.decode body = Some text -> json_loads text = Raise JSONDecodeError ->
  parse body = Ok (JDict [("raw_message", JStr text)]).
Proof. intros H1 H2. unfold parse_message. rewrite H1. simpl. rewrite H2. reflexivity. Qed.

End CallbackFacts.

(** ** Properties of the point that is built *)

Section PointClaims.

Variable fromisoformat : string -> option datetime.
Variable utcnow : datetime.
Variable py_repr : pyval -> string.

Local Abbreviation transform :=
  (_transform_to_influx_point fromisoformat utcnow py_repr).

(** The four attributes of the point built from an object. *)
Lemma transform_dict_attrs items topic_config method p :
  transform (JDict items) topic_config method = Some p ->
  exists t,
    with_time fromisoformat utcnow
      (Point.new (measurement_name topic_config method)) (JDict items)
    = Ok (Point.time (Point.new (measurement_name topic_config method)) t)
    /\ Point.name p = measurement_name topic_config method
    /\ Point.time_ p = Some t
    /\ Point.tags_ p =
         <["exchange" := exchange method]>
           (<["routing_key" := routing_key method]>
              (list_to_map (reverse (mapping_or [] (tags topic_config)))))
    /\ Point.fields_ p =
         Point.fields_
           (fold_left (put_field py_repr (mapping_or ∅ (field_mapping topic_config)))
              items (Point.new (measurement_name topic_config method))).
Proof.
  intros H.
  destruct (transform_dict fromisoformat utcnow py_repr items topic_config method)
    as (t & Ht & E).
  rewrite E in H. destruct (builds_point topic_config items); [| discriminate].
  injection H as <-. exists t. split; [exact Ht |].
  set (fm := mapping_or ∅ (field_mapping topic_config)).
  set (p0 := Point.new (measurement_name topic_config method)).
  set (p1 := fold_left add_tag (mapping_or [] (tags topic_config)) (Point.time p0 t)).
  set (p2 := Point.tag (Point.tag p1 "routing_key" (routing_key method))
               "exchange" (exchange method)).
  destruct (fields_loop_frame py_repr fm items p2) as (-> & -> & ->).
  destruct (tags_loop_frame (mapping_or [] (tags topic_config)) (Point.time p0 t))
    as (Hn & Ht' & Hf).
  fold p1 in Hn, Ht', Hf.
  repeat split.
  - simpl. exact Hn.
  - simpl. exact Ht'.
  - simpl. unfold p1. rewrite tags_loop. simpl.
    now rewrite (right_id_L ∅ (∪)).
  - apply map_eq. intros d.
    assert (G : forall q q', Point.fields_ q = Point.fields_ q' ->
                Point.fields_ (fold_left (put_field py_repr fm) items q)
                = Point.fields_ (fold_left (put_field py_repr fm) items q')).
    { clear. induction items as [| [k v] items IH]; intros q q' Hq; cbn [fold_left];
        [exact Hq |].
      apply IH. rewrite !put_field_eq.
      destruct (String.eqb k "timestamp"); [exact Hq |]. simpl. now rewrite Hq. }
    rewrite (G p2 p0); [reflexivity |]. simpl. exact Hf.
Qed.

(** C6 (amended).  The measurement name of the point is the topic's
    [measurement] override when that is present and not the empty string,
    and otherwise the routing key of the delivery with every dot replaced
    by an underscore.  The name is empty exactly when there is no usable
    override and the routing key is empty. *)
Theorem measurement_name_rule message_data topic_config method p :
  transform message_data topic_config method = Some p ->
  (forall o, measurement topic_config = Some o -> o <> "" -> Point.name p = o)
  /\ (measurement topic_config = None \/ measurement topic_config = Some "" ->
      Point.name p = PyStr.replace "." "_" (routing_key method))
  /\ (Point.name p = "" <->
      (measurement topic_config = None \/ measurement topic_config = Some "")
      /\ routing_key method = "").
Proof.
  intros H.
  destruct (transform_Some_dict _ _ _ _ _ _ _ H) as [items ->].
  destruct (transform_dict_attrs _ _ _ _ H) as (t & _ & Hn & _).
  rewrite Hn. unfold measurement_name. clear.
  destruct (measurement topic_config) as [[| c o] |]; simpl.
  - split; [| split; [| split]].
    + intros o' [= <-] Ho. now destruct Ho.
    + reflexivity.
    + intros E. split; [now right | now apply replace_char_empty in E].
    + intros [_ ->]. reflexivity.
  - split; [| split; [| split]].
    + now intros o' [= <-] _.
    + intros [? | ?]; discriminate.
    + discriminate.
    + intros [[? | ?] _]; discriminate.
  - split; [| split; [| split]].
    + discriminate.
    + reflexivity.
    + intros E. split; [now left | now apply replace_char_empty in E].
    + intros [_ ->]. reflexivity.
Qed.

(** C8.  The tag set of the point holds [routing_key] and [exchange] with
    the routing key and the exchange of the delivery, whatever the static
    tags of the topic say; under every other key it holds the static tag
    of the topic. *)
Theorem delivery_tags_win message_data topic_config method p :
  transform message_data topic_config method = Some p ->
  Point.tags_ p !! "routing_key" = Some (routing_key method)
  /\ Point.tags_ p !! "exchange" = Some (exchange method)
  /\ (forall key, key <> "routing_key" -> key <> "exchange" ->
        Point.tags_ p !! key = static_tag topic_config key).
Proof.
  intros H.
  destruct (transform_Some_dict _ _ _ _ _ _ _ H) as [items ->].
  destruct (transform_dict_attrs _ _ _ _ H) as (t & _ & _ & _ & Ht & _).
  rewrite Ht. split; [| split].
  - rewrite lookup_insert_ne by discriminate. apply lookup_insert_eq.
  - apply lookup_insert_eq.
  - intros key H1 H2. unfold static_tag.
    rewrite !lookup_insert_ne by congruence. reflexivity.
Qed.

(** C9.  In the point built from an object, an item [key: value] other than
    [timestamp] is stored under the image of [key] by the field mapping
    (under [key] itself when the mapping has no entry for it), as the
    value itself when it is a number or a boolean and as its text
    otherwise; of the items stored under one name the last one in
    iteration order is the one read back, and a name that no item is
    stored under is not a field. *)
Theorem fields_renamed_last_wins items topic_config method p :
  transform (JDict items) topic_config method = Some p ->
  let fm := mapping_or ∅ (field_mapping topic_config) in
  (forall before key value after,
      items = (before ++ (key, value) :: after)%list ->
      key <> "timestamp" ->
      (forall k' v', In (k', v') after -> k' <> "timestamp" ->
         field_name fm k' <> field_name fm key) ->
      Point.fields_ p !! field_name fm key = Some (field_value py_repr value))
  /\ (forall before k1 v1 between k2 v2 after,
      items = (before ++ (k1, v1) :: between ++ (k2, v2) :: after)%list ->
      k1 <> k2 -> k1 <> "timestamp" -> k2 <> "timestamp" ->
      field_name fm k1 = field_name fm k2 ->
      (forall k' v', In (k', v') after -> k' <> "timestamp" ->
         field_name fm k' <> field_name fm k2) ->
      Point.fields_ p !! field_name fm k1 = Some (field_value py_repr v2))
  /\ (forall name,
      (forall k v, In (k, v) items -> k <> "timestamp" -> field_name fm k <> name) ->
      Point.fields_ p !! name = None)
  /\ (forall key key', fm !! key = Some key' -> field_name fm key = key')
  /\ (forall key, fm !! key = None -> field_name fm key = key)
  /\ (forall n, field_value py_repr (JInt n) = JInt n)
  /\ (forall f, field_value py_repr (JFloat f) = JFloat f)
  /\ (forall b, field_value py_repr (JBool b) = JBool b)
  /\ (forall s, field_value py_repr (JStr s) = JStr s)
  /\ field_value py_repr JNull = JStr "None"
  /\ (forall l, field_value py_repr (JList l) = JStr (py_repr (JList l)))
  /\ (forall d, field_value py_repr (JDict d) = JStr (py_repr (JDict d))).
Proof.
  intros H fm.
  destruct (transform_dict_attrs _ _ _ _ H) as (t & _ & _ & _ & _ & Hf).
  fold fm in Hf. rewrite Hf.
  assert (Last : forall before key value after,
      items = (before ++ (key, value) :: after)%list ->
      key <> "timestamp" ->
      (forall k' v', In (k', v') after -> k' <> "timestamp" ->
         field_name fm k' <> field_name fm key) ->
      Point.fields_
        (fold_left (put_field py_repr fm) items
           (Point.new (measurement_name topic_config method)))
        !! field_name fm key = Some (field_value py_repr value)).
  { intros before key value after -> Hk Hafter. now apply fields_loop_last. }
  split; [exact Last |].
  split.
  { intros before k1 v1 between k2 v2 after E _ _ Hk2 Hsame Hafter.
    rewrite Hsame.
    apply (Last (before ++ (k1, v1) :: between)%list k2 v2 after); [| exact Hk2 | exact Hafter].
    rewrite E, <- app_assoc. reflexivity. }
  split.
  { intros name Hnone. now rewrite fields_loop_other. }
  unfold field_name.
  split; [now intros key key' -> |].
  split; [now intros key -> |].
  repeat split.
Qed.

(** C5 (amended).  In the point built from an object whose [timestamp] is
    an integer [n], the time is [n * 1000000000] nanoseconds exactly.
    When [timestamp] is a float [f], the time is the binary64 product of
    [f] and 1e9 truncated toward zero, and the current time when that
    product is a NaN or an infinity. *)
Theorem numeric_timestamp_time items topic_config method p :
  transform (JDict items) topic_config method = Some p ->
  (forall n, assoc "timestamp" items = Some (JInt n) ->
     Point.time_ p = Some (TimeInt (n * 1000000000)))
  /\ (forall f, assoc "timestamp" items = Some (JFloat f) ->
     Point.time_ p =
       Some match PyFloat.to_int (PyFloat.mul f (PyFloat.of_int 1000000000)) with
            | Some ns => TimeInt ns
            | None => TimeDatetime utcnow
            end).
Proof.
  intros H.
  destruct (transform_dict_attrs _ _ _ _ H) as (t & Ht & _ & -> & _).
  split.
  - intros n Hn. unfold with_time in Ht. simpl in Ht. rewrite Hn in Ht.
    simpl in Ht. now injection Ht as <-.
  - intros f Hf. unfold with_time in Ht. simpl in Ht. rewrite Hf in Ht.
    simpl in Ht.
    destruct (PyFloat.to_int _); simpl in Ht; now injection Ht as <-.
Qed.

(** C7 (amended).  In the point built from an object whose [timestamp] is
    a string, every [Z] of the string is replaced by [+00:00] and the
    result is handed to the ISO parser: the time is the parsed value, and
    the current time when the parser rejects the text.  In particular a
    string whose only [Z] is its last character is parsed with that [Z]
    read as [+00:00]. *)
Theorem string_timestamp_time items topic_config method p s :
  transform (JDict items) topic_config method = Some p ->
  assoc "timestamp" items = Some (JStr s) ->
  Point.time_ p =
    Some (TimeDatetime
            match fromisoformat (PyStr.replace "Z" "+00:00" s) with
            | Some dt => dt
            | None => utcnow
            end)
  /\ (forall prefix,
        s = prefix +:+ "Z" ->
        (forall c, In c (list_ascii_of_string prefix) -> c <> "Z"%char) ->
        Point.time_ p =
          Some (TimeDatetime
                  match fromisoformat (prefix +:+ "+00:00") with
                  | Some dt => dt
                  | None => utcnow
                  end)).
Proof.
  intros H Hs.
  destruct (transform_dict_attrs _ _ _ _ H) as (t & Ht & _ & -> & _).
  assert (E : Some t = Some (TimeDatetime
            match fromisoformat (PyStr.replace "Z" "+00:00" s) with
            | Some dt => dt | None => utcnow end)).
  { unfold with_time in Ht. simpl in Ht. rewrite Hs in Ht. simpl in Ht.
    destruct (fromisoformat _); simpl in Ht; now injection Ht as <-. }
  split; [exact E |].
  intros prefix -> Hprefix. rewrite E. now rewrite replace_trailing_Z.
Qed.

End PointClaims.

(** ** Properties of the handling of a delivery *)

Lemma calls_ack_only tag :
  acked_once_not_rejected tag [BasicAck tag] /\ writes [BasicAck tag] = 0%nat.
Proof.
  unfold acked_once_not_rejected, acks, nacks, writes. cbn.
  rewrite Z.eqb_refl. auto.
Qed.

Lemma calls_write_ack tag b p :
  acked_once_not_rejected tag [Write b p; BasicAck tag]
  /\ writes [Write b p; BasicAck tag] = 1%nat.
Proof.
  unfold acked_once_not_rejected, acks, nacks, writes. cbn.
  rewrite Z.eqb_refl. auto.
Qed.

Lemma calls_write_nack tag b p :
  rejected_not_acked tag [Write b p; BasicNack tag true]
  /\ writes [Write b p; BasicNack tag true] = 1%nat.
Proof.
  unfold rejected_not_acked, acks, writes. cbn. auto.
Qed.

(** The counts of a record whose acknowledgement raised. *)
Lemma calls_ack_nack tag :
  acks tag [BasicAck tag; BasicNack tag true] = 1%nat
  /\ nacks tag [BasicAck tag; BasicNack tag true] = 1%nat
  /\ writes [BasicAck tag; BasicNack tag true] = 0%nat.
Proof. unfold acks, nacks, writes. cbn. rewrite Z.eqb_refl. auto. Qed.

Lemma calls_write_ack_nack tag b p :
  acks tag [Write b p; BasicAck tag; BasicNack tag true] = 1%nat
  /\ nacks tag [Write b p; BasicAck tag; BasicNack tag true] = 1%nat
  /\ writes [Write b p; BasicAck tag; BasicNack tag true] = 1%nat.
Proof. unfold acks, nacks, writes. cbn. rewrite Z.eqb_refl. auto. Qed.

Section DeliveryClaims.

Variable json_loads : string -> result pyval.
Variable fromisoformat : string -> option datetime.
Variable utcnow : datetime.
Variable py_repr : pyval -> string.
Variable write_returns : string -> Point.t -> bool.
Variable ack_returns : Z -> bool.
Variable config : Config.

Local Abbreviation transform :=
  (_transform_to_influx_point fromisoformat utcnow py_repr).
Local Abbreviation parse := (parse_message json_loads).
Local Abbreviation callback :=
  (_message_callback json_loads fromisoformat utcnow py_repr write_returns
     ack_returns config).

(** C1 (amended).  When the body of a delivery is parsed and the
    transformation builds no point, nothing is written and [basic_ack] is
    called, first and exactly once.  When that call returns, the delivery
    is acknowledged once and not rejected; when it raises, the handler
    rejects the delivery with requeue, and these are the two calls. *)
Theorem transform_failure_is_acked method body topic_config message_data :
  parse body = Ok message_data ->
  transform message_data topic_config method = None ->
  writes (callback method body topic_config) = 0%nat
  /\ head (callback method body topic_config)
     = Some (BasicAck (delivery_tag method))
  /\ acks (delivery_tag method) (callback method body topic_config) = 1%nat
  /\ (ack_returns (delivery_tag method) = true ->
      acked_once_not_rejected (delivery_tag method)
        (callback method body topic_config))
  /\ (ack_returns (delivery_tag method) = false ->
      callback method body topic_config
      = [BasicAck (delivery_tag method); BasicNack (delivery_tag method) true]).
Proof.
  intros Hparse Hnone.
  rewrite (callback_no_point _ _ _ _ _ _ _ _ _ _ _ Hparse Hnone).
  destruct (calls_ack_only (delivery_tag method)) as [Hack Hw].
  destruct (calls_ack_nack (delivery_tag method)) as (Ha & _ & Hw').
  destruct (ack_returns (delivery_tag method)).
  - split; [exact Hw |]. split; [reflexivity |]. split; [apply Hack |].
    split; [intros _; exact Hack | discriminate].
  - split; [exact Hw' |]. split; [reflexivity |]. split; [exact Ha |].
    split; [discriminate | reflexivity].
Qed.

(** C2.  When the body of a delivery is parsed and the transformation
    builds no point, the call made is the acknowledgement of the delivery:
    it is the only call when it returns, and the handler's [basic_nack]
    is the one call after it when it raises. *)
Theorem no_point_still_acked method body topic_config message_data :
  parse body = Ok message_data ->
  transform message_data topic_config method = None ->
  callback method body topic_config =
    BasicAck (delivery_tag method)
    :: (if ack_returns (delivery_tag method) then []
        else [BasicNack (delivery_tag method) true]).
Proof. apply callback_no_point. Qed.

(** C3 (amended).  When a point is built and handed to the store: if the
    write raises, the delivery is rejected with requeue enabled and
    [basic_ack] is not called; if the write returns, [basic_ack] is called
    exactly once, right after the write, and the delivery is not rejected
    provided that this call returns; when it raises, the handler rejects
    the delivery with requeue. *)
Theorem write_outcome_decides method body topic_config message_data p b :
  parse body = Ok message_data ->
  transform message_data topic_config method = Some p ->
  write_bucket config topic_config = Ok b ->
  (write_returns b p = false ->
     callback method body topic_config
     = [Write b p; BasicNack (delivery_tag method) true]
     /\ rejected_not_acked (delivery_tag method)
          (callback method body topic_config))
  /\ (write_returns b p = true ->
     acks (delivery_tag method) (callback method body topic_config) = 1%nat
     /\ (ack_returns (delivery_tag method) = true ->
         callback method body topic_config
         = [Write b p; BasicAck (delivery_tag method)]
         /\ acked_once_not_rejected (delivery_tag method)
              (callback method body topic_config))
     /\ (ack_returns (delivery_tag method) = false ->
         callback method body topic_config
         = [Write b p; BasicAck (delivery_tag method);
            BasicNack (delivery_tag method) true])).
Proof.
  intros Hparse Hsome Hbucket.
  rewrite (callback_point _ _ _ _ _ _ _ _ _ _ _ _ _ Hparse Hsome Hbucket).
  split; intros ->.
  - split; [reflexivity | apply calls_write_nack].
  - destruct (ack_returns (delivery_tag method)).
    + split; [apply calls_write_ack |].
      split; [intros _; split; [reflexivity | apply calls_write_ack]
             | discriminate].
    + split; [apply calls_write_ack_nack |].
      split; [discriminate | reflexivity].
Qed.

(** C10.  When a point is built, the one write that is attempted goes to
    the topic's [influx_bucket] when that is a non-empty string, and to
    the bucket of the global configuration when the topic's
    [influx_bucket] is missing, null or the empty string. *)
Theorem bucket_override_truthy method body topic_config message_data p :
  parse body = Ok message_data ->
  transform message_data topic_config method = Some p ->
  (forall b, influx_bucket topic_config = Some b -> b <> "" ->
     head (callback method body topic_config) = Some (Write b p)
     /\ writes (callback method body topic_config) = 1%nat)
  /\ (influx_bucket topic_config = None \/ influx_bucket topic_config = Some "" ->
      forall g, bucket config = Some g ->
        head (callback method body topic_config) = Some (Write g p)
        /\ writes (callback method body topic_config) = 1%nat).
Proof.
  intros Hparse Hsome.
  assert (G : forall b, write_bucket config topic_config = Ok b ->
            head (callback method body topic_config) = Some (Write b p)
            /\ writes (callback method body topic_config) = 1%nat).
  { intros b Hb.
    rewrite (callback_point _ _ _ _ _ _ _ _ _ _ _ _ _ Hparse Hsome Hb).
    split; [reflexivity |].
    destruct (write_returns b p); [| apply calls_write_nack].
    destruct (ack_returns (delivery_tag method));
      [apply calls_write_ack | apply calls_write_ack_nack]. }
  split.
  - intros b Hb Hne. apply G. unfold write_bucket. rewrite Hb.
    apply truthy_true in Hne. now rewrite Hne.
  - intros Hnone g Hg. apply G. unfold write_bucket. rewrite Hg.
    now destruct Hnone as [-> | ->].
Qed.

(** C4 (amended).  For a body that is valid UTF-8 and on whose text
    [json.loads] raises [JSONDecodeError], the message is the object whose
    one key [raw_message] holds the text of the body.  A point is built
    from it exactly when the [tags] and the [field_mapping] of the topic
    are each missing or a mapping; that point has exactly one field,
    holding the text, under the image of [raw_message] by the field
    mapping, which is [raw_message] itself when the mapping has no entry
    for it. *)
Theorem parse_fallback_fields body text :
  Utf8.decode body = Some text ->
  json_loads text = Raise JSONDecodeError ->
  text = body
  /\ parse body = Ok (JDict [("raw_message", JStr text)])
  /\ forall topic_config method,
       ((exists p,
           transform (JDict [("raw_message", JStr text)]) topic_config method
           = Some p)
        <-> tags topic_config <> NotMapping
            /\ field_mapping topic_config <> NotMapping)
       /\ forall p,
            transform (JDict [("raw_message", JStr text)]) topic_config method
            = Some p ->
            Point.fields_ p =
              {[ field_name (mapping_or ∅ (field_mapping topic_config))
                   "raw_message" := JStr text ]}
            /\ (mapping_or ∅ (field_mapping topic_config) !! "raw_message" = None ->
                Point.fields_ p = {[ "raw_message" := JStr text ]}).
Proof.
  intros Hdec Hloads. split; [| split].
  - unfold Utf8.decode in Hdec. destruct (Utf8.well_formed body); congruence.
  - now apply parse_fallback.
  - intros topic_config method. split.
    + rewrite transform_Some_iff. split.
      * intros (items & [= <-] & Hb). unfold builds_point, fields_pass in Hb.
        cbn in Hb. rewrite orb_false_r in Hb.
        apply andb_true_iff in Hb as [H1 H2].
        split; intros E; rewrite E in *; discriminate.
      * intros [H1 H2]. eexists. split; [reflexivity |].
        apply builds_point_reads.
        -- now destruct (tags topic_config).
        -- now destruct (field_mapping topic_config).
    + intros p E.
      destruct (transform_dict_attrs _ _ _ _ _ _ _ E) as (_ & _ & _ & _ & _ & ->).
      cbn [fold_left]. rewrite put_field_eq. simpl.
      split; [reflexivity |].
      intros Hnone. unfold field_name. now rewrite Hnone.
Qed.

End DeliveryClaims.

(** ** Where the specification's wording and the code part *)

(** C1, as worded, fails.  The body [42] is JSON but not an object: it is
    parsed, no point is built from it, and the delivery is acknowledged,
    not rejected. *)
Lemma transform_failure_not_rejected :
  parse_message Sample.json_loads "42" = Ok (JInt 42)
  /\ Sample.transform (JInt 42) Sample.topic_env Sample.method_env = None
  /\ Sample.callback Sample.store_up Sample.method_env "42" Sample.topic_env
     = [BasicAck 7]
  /\ ~ rejected_not_acked 7
         (Sample.callback Sample.store_up Sample.method_env "42" Sample.topic_env).
Proof.
  split; [reflexivity |]. split; [reflexivity |]. split; [reflexivity |].
  intros [Hin _]. vm_compute in Hin. destruct Hin as [Hin | []]. discriminate.
Qed.

(** C3, as worded, fails.  The store takes the point, and the channel has
    closed by the time of the acknowledgement: [basic_ack] is called and
    raises, and the handler rejects the delivery that has been written. *)
Lemma acked_then_rejected :
  parse_message Sample.json_loads Sample.body_temp = Ok (JDict Sample.items_temp)
  /\ Sample.transform (JDict Sample.items_temp) Sample.topic_rename
       Sample.method_env
     = Some (Sample.point_of (JDict Sample.items_temp) Sample.topic_rename
               Sample.method_env)
  /\ Sample.store_up "sensors"
       (Sample.point_of (JDict Sample.items_temp) Sample.topic_rename
          Sample.method_env) = true
  /\ Sample.callback_closed Sample.store_up Sample.method_env Sample.body_temp
       Sample.topic_rename
     = [Write "sensors"
          (Sample.point_of (JDict Sample.items_temp) Sample.topic_rename
             Sample.method_env);
        BasicAck 7; BasicNack 7 true]
  /\ ~ acked_once_not_rejected 7
         (Sample.callback_closed Sample.store_up Sample.method_env
            Sample.body_temp Sample.topic_rename).
Proof.
  split; [reflexivity |]. split; [reflexivity |]. split; [reflexivity |].
  split; [reflexivity |].
  intros [_ Hn]. vm_compute in Hn. discriminate.
Qed.

(** C4, as worded, fails.  A body that is not UTF-8 makes the parse step
    raise, and the delivery is rejected; the JSON text [42] is kept as the
    number 42 and gives no point, and so is the text [NaN], which is not
    JSON and which [json.loads] reads as a float; and with a field mapping
    that renames [raw_message], the field of a body that is not JSON is
    not named [raw_message]. *)
Lemma fallback_not_total :
  Utf8.decode Sample.not_utf8 = None
  /\ parse_message Sample.json_loads Sample.not_utf8 = Raise UnicodeDecodeError
  /\ Sample.callback Sample.store_up Sample.method_raw Sample.not_utf8
       Sample.topic_plain = [BasicNack 8 true]
  /\ parse_message Sample.json_loads "42" = Ok (JInt 42)
  /\ Sample.transform (JInt 42) Sample.topic_plain Sample.method_raw = None
  /\ parse_message Sample.json_loads "NaN" = Ok (JFloat S754_nan)
  /\ Sample.transform (JFloat S754_nan) Sample.topic_plain Sample.method_raw = None
  /\ parse_message Sample.json_loads "hello world"
     = Ok (JDict [("raw_message", JStr "hello world")])
  /\ Point.fields_
       (Sample.point_of (JDict [("raw_message", JStr "hello world")])
          Sample.topic_raw_renamed Sample.method_raw)
     = {[ "text" := JStr "hello world" ]}.
Proof. vm_compute. repeat split. Qed.

(** C5, as worded, fails.  1700000000.25 is a binary64 number, and that
    many seconds are exactly 1700000000250000000 nanoseconds; the time of
    the point is 128 nanoseconds less.  For a NaN the time is the current
    time. *)
Lemma float_timestamp_not_exact :
  valid_binary PyFloat.prec PyFloat.emax Sample.f_quarter = true
  /\ exactly_scaled (JFloat Sample.f_quarter) 1700000000250000000
  /\ Point.time_
       (Sample.point_of (JDict [("timestamp", JFloat Sample.f_quarter)])
          Sample.topic_plain Sample.method_env)
     = Some (TimeInt (1700000000250000000 - 128))
  /\ ~ exactly_scaled (JFloat Sample.f_quarter) (1700000000250000000 - 128)
  /\ Point.time_
       (Sample.point_of (JDict [("timestamp", JFloat S754_nan)])
          Sample.topic_plain Sample.method_env)
     = Some (TimeDatetime Sample.utcnow).
Proof.
  split; [reflexivity |]. split; [reflexivity |]. split; [reflexivity |].
  split; [| reflexivity]. vm_compute. discriminate.
Qed.

(** C6, as worded, fails.  A delivery with an empty routing key, on a
    topic without a measurement override, gives a point whose measurement
    name is empty. *)
Lemma empty_measurement_name :
  Sample.transform (JDict Sample.items_temp) Sample.topic_plain Sample.method_blank
  = Some (Sample.point_of (JDict Sample.items_temp) Sample.topic_plain
            Sample.method_blank)
  /\ Point.name
       (Sample.point_of (JDict Sample.items_temp) Sample.topic_plain
          Sample.method_blank) = "".
Proof. split; reflexivity. Qed.

(** Whatever the ISO parser is, once it accepts the text with the offset
    and rejects the text with the inner [Z], the time the code gives is
    not the time of the specification's wording. *)
Lemma inner_Z_any_parser (fromisoformat : string -> option datetime)
    (utcnow : datetime) (py_repr : pyval -> string) (dt : datetime)
    (topic_config : TopicConfig) (method : Method) :
  fromisoformat "2024-01-01T10:00:00+00:00:30" = Some dt ->
  fromisoformat "2024-01-01T10:00:00Z:30" = None ->
  dt <> utcnow ->
  tags topic_config <> NotMapping ->
  exists p,
    _transform_to_influx_point fromisoformat utcnow py_repr
      (JDict [("timestamp", JStr "2024-01-01T10:00:00Z:30")]) topic_config method
    = Some p
    /\ Point.time_ p = Some (TimeDatetime dt)
    /\ Point.time_ p
       <> Some (spec_string_time fromisoformat utcnow "2024-01-01T10:00:00Z:30").
Proof.
  intros Hyes Hno Hne Htags.
  destruct (transform_dict fromisoformat utcnow py_repr
              [("timestamp", JStr "2024-01-01T10:00:00Z:30")] topic_config method)
    as (t & _ & E).
  assert (Hb : builds_point topic_config
                 [("timestamp", JStr "2024-01-01T10:00:00Z:30")] = true).
  { unfold builds_point, fields_pass. cbn. rewrite orb_true_r, andb_true_r.
    now destruct (tags topic_config). }
  rewrite Hb in E.
  eexists. split; [exact E |].
  destruct (transform_dict_attrs _ _ _ _ _ _ _ E) as (t' & Ht' & _ & -> & _).
  assert (Et : t' = TimeDatetime dt).
  { cbv in Ht'. rewrite Hyes in Ht'. congruence. }
  subst t'. split; [reflexivity |].
  unfold spec_string_time. cbv [trailing_Z_as_utc Ascii.eqb Bool.eqb].
  rewrite Hno. congruence.
Qed.

(** C7, as worded, fails.  In [2024-01-01T10:00:00Z:30] the [Z] is not in
    last position.  Read as the specification words it, the text is left
    as it is, the parser rejects it and the time is the current time.  The
    code replaces the [Z], the parser accepts the result (an offset of 30
    seconds), and the time is the parsed value. *)
Lemma inner_Z_replaced :
  PyStr.replace "Z" "+00:00" "2024-01-01T10:00:00Z:30"
  = "2024-01-01T10:00:00+00:00:30"
  /\ trailing_Z_as_utc "2024-01-01T10:00:00Z:30" = "2024-01-01T10:00:00Z:30"
  /\ spec_string_time Sample.fromisoformat Sample.utcnow "2024-01-01T10:00:00Z:30"
     = TimeDatetime Sample.utcnow
  /\ Point.time_
       (Sample.point_of (JDict [("timestamp", JStr "2024-01-01T10:00:00Z:30")])
          Sample.topic_plain Sample.method_env)
     = Some (TimeDatetime (Sample.utc 2024 1 1 10 0 0 (Some 30)))
  /\ Point.time_
       (Sample.point_of (JDict [("timestamp", JStr "2024-01-01T10:00:00Z:30")])
          Sample.topic_plain Sample.method_env)
     <> Some (spec_string_time Sample.fromisoformat Sample.utcnow
                "2024-01-01T10:00:00Z:30").
Proof.
  split; [reflexivity |].
  split; [reflexivity |]. split; [reflexivity |]. split; [reflexivity |].
  vm_compute. discriminate.
Qed.

(** ** The properties at work on the sample environment *)

(** C1 (amended) on the body [42]. *)
Lemma transform_failure_is_acked_witness :
  parse_message Sample.json_loads "42" = Ok (JInt 42)
  /\ acked_once_not_rejected 7
       (Sample.callback Sample.store_up Sample.method_env "42" Sample.topic_env)
  /\ writes
       (Sample.callback Sample.store_up Sample.method_env "42" Sample.topic_env)
     = 0%nat.
Proof.
  split; [reflexivity |].
  destruct (transform_failure_is_acked Sample.json_loads Sample.fromisoformat
              Sample.utcnow Sample.py_repr Sample.store_up Sample.channel_open
              Sample.config Sample.method_env "42" Sample.topic_env (JInt 42))
    as (H1 & _ & _ & H2 & _); [reflexivity | reflexivity |].
  split; [apply H2; reflexivity | exact H1].
Defined.

(** C2 on the body [null]. *)
Lemma no_point_still_acked_witness :
  parse_message Sample.json_loads "null" = Ok JNull
  /\ Sample.callback Sample.store_down Sample.method_raw "null" Sample.topic_rename
     = [BasicAck 8].
Proof.
  split; [reflexivity |].
  apply (no_point_still_acked Sample.json_loads Sample.fromisoformat
           Sample.utcnow Sample.py_repr Sample.store_down Sample.channel_open
           Sample.config Sample.method_raw "null" Sample.topic_rename JNull);
    reflexivity.
Defined.

(** C3 (amended) with the store down. *)
Lemma write_outcome_decides_witness :
  rejected_not_acked 7
    (Sample.callback Sample.store_down Sample.method_env Sample.body_temp
       Sample.topic_rename).
Proof.
  destruct (write_outcome_decides Sample.json_loads Sample.fromisoformat
              Sample.utcnow Sample.py_repr Sample.store_down Sample.channel_open
              Sample.config Sample.method_env Sample.body_temp Sample.topic_rename
              (JDict Sample.items_temp)
              (Sample.point_of (JDict Sample.items_temp) Sample.topic_rename
                 Sample.method_env)
              "sensors")
    as (Hdown & _); [reflexivity | reflexivity | reflexivity |].
  apply Hdown. reflexivity.
Defined.

(** C10 on a topic with a bucket of its own. *)
Lemma bucket_override_truthy_witness :
  head (Sample.callback Sample.store_up Sample.method_env Sample.body_temp
          Sample.topic_rename)
  = Some (Write "sensors"
            (Sample.point_of (JDict Sample.items_temp) Sample.topic_rename
               Sample.method_env)).
Proof.
  destruct (bucket_override_truthy Sample.json_loads Sample.fromisoformat
              Sample.utcnow Sample.py_repr Sample.store_up Sample.channel_open
              Sample.config Sample.method_env Sample.body_temp Sample.topic_rename
              (JDict Sample.items_temp)
              (Sample.point_of (JDict Sample.items_temp) Sample.topic_rename
                 Sample.method_env))
    as (Hown & _); [reflexivity | reflexivity |].
  apply (Hown "sensors"); [reflexivity | discriminate].
Defined.

(** C4 (amended) on the body [hello world]. *)
Lemma parse_fallback_fields_witness :
  parse_message Sample.json_loads "hello world"
  = Ok (JDict [("raw_message", JStr "hello world")])
  /\ exists p,
       Sample.transform (JDict [("raw_message", JStr "hello world")])
         Sample.topic_plain Sample.method_raw = Some p
       /\ Point.fields_ p = {[ "raw_message" := JStr "hello world" ]}.
Proof.
  destruct (parse_fallback_fields Sample.json_loads Sample.fromisoformat
              Sample.utcnow Sample.py_repr "hello world" "hello world")
    as (_ & Hparse & Hpoint); [reflexivity | reflexivity |].
  split; [exact Hparse |].
  destruct (Hpoint Sample.topic_plain Sample.method_raw) as (Hbuilt & Hfields).
  destruct (proj2 Hbuilt) as [p Hp]; [split; discriminate |].
  exists p. split; [exact Hp |].
  destruct (Hfields p Hp) as (_ & Hf). apply Hf. reflexivity.
Defined.

(** C5 (amended) on the integer timestamp 1700000000. *)
Lemma numeric_timestamp_time_witness :
  Point.time_
    (Sample.point_of (JDict Sample.items_env) Sample.topic_env Sample.method_env)
  = Some (TimeInt (1700000000 * 1000000000)).
Proof.
  destruct (numeric_timestamp_time Sample.fromisoformat Sample.utcnow
              Sample.py_repr Sample.items_env Sample.topic_env Sample.method_env
              (Sample.point_of (JDict Sample.items_env) Sample.topic_env
                 Sample.method_env))
    as (Hint & _); [reflexivity |].
  apply Hint. reflexivity.
Defined.

(** C6 (amended) on a topic with a measurement override. *)
Lemma measurement_name_rule_witness :
  Point.name
    (Sample.point_of (JDict Sample.items_env) Sample.topic_env Sample.method_env)
  = "env".
Proof.
  destruct (measurement_name_rule Sample.fromisoformat Sample.utcnow
              Sample.py_repr (JDict Sample.items_env) Sample.topic_env
              Sample.method_env
              (Sample.point_of (JDict Sample.items_env) Sample.topic_env
                 Sample.method_env))
    as (Hover & _); [reflexivity |].
  apply Hover; [reflexivity | discriminate].
Defined.

(** C7 (amended) on a timestamp with a [Z] in last position. *)
Lemma string_timestamp_time_witness :
  Point.time_
    (Sample.point_of (JDict [("timestamp", JStr "2024-01-15T12:30:00Z")])
       Sample.topic_plain Sample.method_env)
  = Some (TimeDatetime (Sample.utc 2024 1 15 12 30 0 (Some 0))).
Proof.
  destruct (string_timestamp_time Sample.fromisoformat Sample.utcnow
              Sample.py_repr [("timestamp", JStr "2024-01-15T12:30:00Z")]
              Sample.topic_plain Sample.method_env
              (Sample.point_of (JDict [("timestamp", JStr "2024-01-15T12:30:00Z")])
                 Sample.topic_plain Sample.method_env)
              "2024-01-15T12:30:00Z")
    as (Htime & _); [reflexivity | reflexivity |].
  exact Htime.
Defined.

(** C8 on a topic with a static tag named [exchange]. *)
Lemma delivery_tags_win_witness :
  static_tag Sample.topic_rename "exchange" = Some "static"
  /\ Point.tags_
       (Sample.point_of (JDict Sample.items_temp) Sample.topic_rename
          Sample.method_env) !! "exchange" = Some "sensor.data"
  /\ Point.tags_
       (Sample.point_of (JDict Sample.items_temp) Sample.topic_rename
          Sample.method_env) !! "routing_key" = Some "node.1.env".
Proof.
  split; [reflexivity |].
  destruct (delivery_tags_win Sample.fromisoformat Sample.utcnow
              Sample.py_repr (JDict Sample.items_temp) Sample.topic_rename
              Sample.method_env
              (Sample.point_of (JDict Sample.items_temp) Sample.topic_rename
                 Sample.method_env))
    as (Hrk & Hex & _); [reflexivity |].
  split; [exact Hex | exact Hrk].
Defined.

(** C9 on an object whose keys [temperature] and [temp] are stored under
    one name: the later one is read back. *)
Lemma fields_renamed_last_wins_witness :
  Point.fields_
    (Sample.point_of (JDict Sample.items_clash) Sample.topic_rename
       Sample.method_env) !! "temperature" = Some (JStr "warm").
Proof.
  destruct (fields_renamed_last_wins Sample.fromisoformat Sample.utcnow
              Sample.py_repr Sample.items_clash Sample.topic_rename
              Sample.method_env
              (Sample.point_of (JDict Sample.items_clash) Sample.topic_rename
                 Sample.method_env))
    as (_ & Hclash & _); [reflexivity |].
  apply (Hclash [] "temperature" (JInt 1)
           [("ok", JBool true); ("timestamp", JNull)] "temp" (JStr "warm")
           [("note", JNull)]);
    try reflexivity; try discriminate.
  intros k' v' [[= <- <-] | []] _. vm_compute. discriminate.
Defined.

(** ** The subscriptions: the calls that are made *)

Section SetupFacts.

Variable call_raises : nat -> bool.
Variable server_queue : nat -> string.

Lemma attempted_app n p1 p2 :
  attempted call_raises n (p1 ++ p2)%list =
    if succeeds call_raises n p1
    then (p1 ++ attempted call_raises (n + length p1) p2)%list
    else attempted call_raises n p1.
Proof.
  revert n. induction p1 as [| c p1 IH]; intros n; simpl.
  - now rewrite Nat.add_0_r.
  - destruct (call_raises n); simpl; [reflexivity |].
    rewrite IH, Nat.add_succ_r. simpl.
    now destruct (succeeds call_raises (S n) p1).
Qed.

Lemma succeeds_app n p1 p2 :
  succeeds call_raises n (p1 ++ p2)%list =
    succeeds call_raises n p1 && succeeds call_raises (n + length p1) p2.
Proof.
  revert n. induction p1 as [| c p1 IH]; intros n; simpl.
  - now rewrite Nat.add_0_r.
  - rewrite IH, Nat.add_succ_r. simpl. now rewrite andb_assoc.
Qed.

(** The calls that are made are the first calls of the plan. *)
Lemma attempted_prefix n plan :
  exists k, attempted call_raises n plan = take k plan
            /\ (succeeds call_raises n plan = true -> k = length plan).
Proof.
  revert n. induction plan as [| c plan IH]; intros n; simpl.
  - exists 0%nat. split; reflexivity.
  - destruct (call_raises n); simpl.
    + exists 1%nat. split; [now destruct plan | discriminate].
    + destruct (IH (S n)) as (k & -> & Hk). exists (S k). split; [reflexivity |].
      intros H. now rewrite Hk.
Qed.

Lemma attempted_all n plan :
  succeeds call_raises n plan = true -> attempted call_raises n plan = plan.
Proof.
  intros H. destruct (attempted_prefix n plan) as (k & -> & Hk).
  rewrite Hk by exact H. apply firstn_all.
Qed.

Lemma subscribe_exec t calls :
  subscribe call_raises server_queue t calls =
    let plan := topic_calls (topic_queue server_queue (length calls) t) t in
    ((calls ++ attempted call_raises (length calls) plan)%list,
     if succeeds call_raises (length calls) plan then Some tt else None).
Proof.
  unfold subscribe, topic_calls, topic_queue, chan_bind, chan_ret, channel.
  destruct (PyStr.truthy (default "" (Topic.exchange t)));
    destruct (Topic.queue_name t) as [q |]; try destruct (PyStr.truthy q);
    cbn [app attempted succeeds];
    repeat (rewrite ?length_app, ?Nat.add_1_r; cbn [length app];
            match goal with
            | |- context [call_raises ?n] => destruct (call_raises n)
            end; cbn [negb andb app]);
    rewrite <- ?app_assoc; cbn [app]; rewrite ?app_nil_r; reflexivity.
Qed.

Lemma subscribe_all_exec topics calls :
  subscribe_all call_raises server_queue topics calls =
    let plan := planned_calls server_queue (length calls) topics in
    ((calls ++ attempted call_raises (length calls) plan)%list,
     if succeeds call_raises (length calls) plan then Some tt else None).
Proof.
  revert calls. induction topics as [| t topics IH]; intros calls; cbn [subscribe_all planned_calls].
  - unfold chan_ret. simpl. now rewrite app_nil_r.
  - unfold chan_bind. rewrite subscribe_exec. cbv zeta.
    set (p1 := topic_calls (topic_queue server_queue (length calls) t) t).
    rewrite attempted_app, succeeds_app.
    destruct (succeeds call_raises (length calls) p1) eqn:E1; [| reflexivity].
    rewrite IH. cbv zeta.
    rewrite (attempted_all _ _ E1), length_app, <- app_assoc. reflexivity.
Qed.

Lemma succeeds_spec n plan :
  succeeds call_raises n plan = true <->
  forall j, (j < length plan)%nat -> call_raises (n + j) = false.
Proof.
  revert n. induction plan as [| c plan IH]; intros n; simpl.
  - split; [intros _ j Hj; lia | reflexivity].
  - rewrite andb_true_iff, negb_true_iff, IH. split.
    + intros [H0 H] [| j] Hj; [now rewrite Nat.add_0_r |].
      replace (n + S j)%nat with (S n + j)%nat by lia. apply H. lia.
    + intros H. split.
      * rewrite <- (Nat.add_0_r n). apply H. lia.
      * intros j Hj. replace (S n + j)%nat with (n + S j)%nat by lia.
        apply H. lia.
Qed.

Lemma attempted_raises n plan :
  succeeds call_raises n plan = false ->
  exists j, length (attempted call_raises n plan) = S j
            /\ (j < length plan)%nat
            /\ call_raises (n + j) = true
            /\ forall m, (m < j)%nat -> call_raises (n + m) = false.
Proof.
  revert n. induction plan as [| c plan IH]; intros n; simpl; [discriminate |].
  destruct (call_raises n) eqn:E; simpl.
  - intros _. exists 0%nat. rewrite Nat.add_0_r.
    repeat split; [lia | exact E | intros m Hm; lia].
  - intros H. destruct (IH (S n) H) as (j & Hlen & Hj & Hr & Hbefore).
    exists (S j). replace (n + S j)%nat with (S n + j)%nat by lia.
    repeat split; [now rewrite Hlen | lia | exact Hr |].
    intros [| m] Hm; [now rewrite Nat.add_0_r |].
    replace (n + S m)%nat with (S n + m)%nat by lia. apply Hbefore. lia.
Qed.

End SetupFacts.

Section SetupProperties.

Variable call_raises : nat -> bool.
Variable server_queue : nat -> string.

Local Abbreviation setup := (_setup_subscriptions call_raises server_queue).

Lemma setup_exec topics :
  setup topics =
    (attempted call_raises 0 (planned_calls server_queue 0 (default [] topics)),
     if succeeds call_raises 0 (planned_calls server_queue 0 (default [] topics))
     then Some tt else None).
Proof. unfold _setup_subscriptions. now rewrite subscribe_all_exec. Qed.

Lemma consumers_topic_calls q t : consumers (topic_calls q t) = [t].
Proof.
  unfold topic_calls, consumers.
  destruct (PyStr.truthy (default "" (Topic.exchange t)));
    destruct (match Topic.queue_name t with Some q0 => PyStr.truthy q0 | None => false end);
    reflexivity.
Qed.

Lemma consumers_planned n topics :
  consumers (planned_calls server_queue n topics) = topics.
Proof.
  revert n. induction topics as [| t topics IH]; intros n; [reflexivity |].
  cbn [planned_calls]. unfold consumers in *. rewrite omap_app.
  fold (consumers (topic_calls (topic_queue server_queue n t) t)).
  rewrite consumers_topic_calls, IH. reflexivity.
Qed.

(** One consumer per topic, in the order of the configuration, each bound
    to its own topic: when the setup returns, the consumers registered are
    the topics of the configuration; when a call raises, they are the
    first topics of the configuration, and the call that raised is the
    last call made. *)
Theorem setup_one_consumer_per_topic topics :
  let calls := fst (setup topics) in
  consumers calls `prefix_of` default [] topics
  /\ (snd (setup topics) = Some tt ->
      consumers calls = default [] topics
      /\ forall n, (n < length calls)%nat -> call_raises n = false)
  /\ (snd (setup topics) = None ->
      exists n, length calls = S n /\ call_raises n = true
                /\ forall m, (m < n)%nat -> call_raises m = false).
Proof.
  rewrite setup_exec. cbn [fst snd].
  set (plan := planned_calls server_queue 0 (default [] topics)).
  assert (Hc : consumers plan = default [] topics) by apply consumers_planned.
  clearbody plan. rewrite <- Hc. clear Hc.
  split; [| split].
  - destruct (attempted_prefix call_raises 0 plan) as (k & -> & _).
    exists (consumers (drop k plan)). unfold consumers.
    now rewrite <- omap_app, take_drop.
  - destruct (succeeds call_raises 0 plan) eqn:E; [| discriminate]. intros _.
    rewrite (attempted_all _ _ _ E). split; [reflexivity |].
    intros n Hn. now apply (proj1 (succeeds_spec call_raises 0 plan) E n).
  - destruct (succeeds call_raises 0 plan) eqn:E; [discriminate |]. intros _.
    destruct (attempted_raises call_raises 0 plan E) as (j & Hlen & _ & Hr & Hb).
    exists j. repeat split; [exact Hlen | exact Hr | exact Hb].
Qed.

(** *** The order of the calls *)

Lemma binds_declared_app n l1 l2 :
  binds_declared server_queue n l1 ->
  binds_declared server_queue (n + length l1) l2 ->
  binds_declared server_queue n (l1 ++ l2)%list.
Proof.
  intros H1 H2 i ex q rk Hi.
  apply lookup_app_Some in Hi as [Hi | [Hlen Hi]].
  - destruct (H1 i ex q rk Hi) as (Hge & (ty & d & Hex) & (c & Hc & Hd)).
    split; [exact Hge |]. split.
    + exists ty, d. now apply lookup_app_l_Some.
    + exists c. split; [now apply lookup_app_l_Some | exact Hd].
  - destruct (H2 _ ex q rk Hi) as (Hge & (ty & d & Hex) & (c & Hc & Hd)).
    split; [lia |]. split.
    + exists ty, d. rewrite lookup_app_r by lia.
      now replace (i - 2 - length l1)%nat with (i - length l1 - 2)%nat by lia.
    + exists c. split.
      * rewrite lookup_app_r by lia.
        now replace (i - 1 - length l1)%nat with (i - length l1 - 1)%nat by lia.
      * now replace (n + (i - 1))%nat
          with (n + length l1 + (i - length l1 - 1))%nat by lia.
Qed.

Lemma consumes_declared_app n l1 l2 :
  consumes_declared server_queue n l1 ->
  consumes_declared server_queue (n + length l1) l2 ->
  consumes_declared server_queue n (l1 ++ l2)%list.
Proof.
  intros H1 H2 i q t a Hi.
  apply lookup_app_Some in Hi as [Hi | [Hlen Hi]].
  - destruct (H1 i q t a Hi) as (Ha & Hge & Hprev).
    split; [exact Ha |]. split; [exact Hge |].
    destruct Hprev as [(c & Hc & Hd) | (Hge2 & (ex & rk & Hb) & (c & Hc & Hd))].
    + left. exists c. split; [now apply lookup_app_l_Some | exact Hd].
    + right. split; [exact Hge2 |]. split.
      * exists ex, rk. now apply lookup_app_l_Some.
      * exists c. split; [now apply lookup_app_l_Some | exact Hd].
  - destruct (H2 _ q t a Hi) as (Ha & Hge & Hprev).
    split; [exact Ha |]. split; [lia |].
    destruct Hprev as [(c & Hc & Hd) | (Hge2 & (ex & rk & Hb) & (c & Hc & Hd))].
    + left. exists c. split.
      * rewrite lookup_app_r by lia.
        now replace (i - 1 - length l1)%nat with (i - length l1 - 1)%nat by lia.
      * now replace (n + (i - 1))%nat
          with (n + length l1 + (i - length l1 - 1))%nat by lia.
    + right. split; [lia |]. split.
      * exists ex, rk. rewrite lookup_app_r by lia.
        now replace (i - 1 - length l1)%nat with (i - length l1 - 1)%nat by lia.
      * exists c. split.
        -- rewrite lookup_app_r by lia.
           now replace (i - 2 - length l1)%nat with (i - length l1 - 2)%nat by lia.
        -- now replace (n + (i - 2))%nat
             with (n + length l1 + (i - length l1 - 2))%nat by lia.
Qed.

Lemma binds_declared_take n k l :
  binds_declared server_queue n l -> binds_declared server_queue n (take k l).
Proof.
  intros H i ex q rk Hi. apply lookup_take_Some in Hi as [Hi Hk].
  destruct (H i ex q rk Hi) as (Hge & (ty & d & Hex) & (c & Hc & Hd)).
  split; [exact Hge |]. split.
  - exists ty, d. now rewrite lookup_take_lt by lia.
  - exists c. split; [now rewrite lookup_take_lt by lia | exact Hd].
Qed.

Lemma consumes_declared_take n k l :
  consumes_declared server_queue n l ->
  consumes_declared server_queue n (take k l).
Proof.
  intros H i q t a Hi. apply lookup_take_Some in Hi as [Hi Hk].
  destruct (H i q t a Hi) as (Ha & Hge & Hprev).
  split; [exact Ha |]. split; [exact Hge |].
  destruct Hprev as [(c & Hc & Hd) | (Hge2 & (ex & rk & Hb) & (c & Hc & Hd))].
  - left. exists c. split; [now rewrite lookup_take_lt by lia | exact Hd].
  - right. split; [exact Hge2 |]. split.
    + exists ex, rk. now rewrite lookup_take_lt by lia.
    + exists c. split; [now rewrite lookup_take_lt by lia | exact Hd].
Qed.

Lemma topic_calls_ordered n t :
  binds_declared server_queue n (topic_calls (topic_queue server_queue n t) t)
  /\ consumes_declared server_queue n
       (topic_calls (topic_queue server_queue n t) t).
Proof.
  unfold topic_calls, topic_queue, binds_declared, consumes_declared.
  destruct (PyStr.truthy (default "" (Topic.exchange t)));
    destruct (Topic.queue_name t) as [q0 |]; try destruct (PyStr.truthy q0);
    cbn [app]; split.
  all: intros [| [| [| [| i]]]] ? ? ? Hi; try discriminate Hi;
    injection Hi as <- <- <-; cbn.
  all: unfold declares; rewrite ?Nat.add_0_r, ?Nat.add_1_r.
  all: eauto 12 with lia.
Qed.

Lemma planned_calls_ordered n topics :
  binds_declared server_queue n (planned_calls server_queue n topics)
  /\ consumes_declared server_queue n (planned_calls server_queue n topics).
Proof.
  revert n. induction topics as [| t topics IH]; intros n; cbn [planned_calls].
  - split; intros i ? ? ? Hi; discriminate Hi.
  - destruct (topic_calls_ordered n t) as [B1 C1].
    destruct (IH (n + length (topic_calls (topic_queue server_queue n t) t))%nat)
      as [B2 C2].
    split; [now apply binds_declared_app | now apply consumes_declared_app].
Qed.

(** Nothing is used before it is declared, whatever raises: every queue
    that is bound was declared by the call before, its exchange by the
    call before that one, and every consumer is registered, without
    automatic acknowledgement, on the queue that the call before declared,
    or declared and bound. *)
Theorem setup_declares_before_use topics :
  binds_declared server_queue 0 (fst (setup topics))
  /\ consumes_declared server_queue 0 (fst (setup topics)).
Proof.
  rewrite setup_exec. cbn [fst].
  destruct (attempted_prefix call_raises 0
              (planned_calls server_queue 0 (default [] topics))) as (k & -> & _).
  destruct (planned_calls_ordered 0 (default [] topics)) as [B C].
  split; [now apply binds_declared_take | now apply consumes_declared_take].
Qed.

(** *** What is declared for which topic *)

Lemma kinds_topic_calls q t :
  declared_exchanges (topic_calls q t) = option_list (topic_exchange t)
  /\ bindings (topic_calls q t) = option_list (topic_binding t)
  /\ length (topic_calls q t)
     = (2 + 2 * length (option_list (topic_exchange t)))%nat.
Proof.
  unfold topic_calls, topic_exchange, topic_binding.
  destruct (PyStr.truthy (default "" (Topic.exchange t)));
    destruct (Topic.queue_name t) as [[| c q0] |]; repeat split.
Qed.

Lemma declared_queues_topic_calls n t :
  declared_queues (topic_calls (topic_queue server_queue n t) t)
  = [topic_queue_declaration t].
Proof.
  unfold topic_calls, topic_queue_declaration, topic_queue.
  destruct (PyStr.truthy (default "" (Topic.exchange t)));
    destruct (Topic.queue_name t) as [[| c q0] |]; reflexivity.
Qed.

Lemma omap_cons_list {A B} (f : A -> option B) (x : A) (l : list A) :
  omap f (x :: l) = (option_list (f x) ++ omap f l)%list.
Proof. cbn. now destruct (f x). Qed.

Lemma kinds_planned n topics :
  declared_exchanges (planned_calls server_queue n topics)
  = omap topic_exchange topics
  /\ bindings (planned_calls server_queue n topics) = omap topic_binding topics
  /\ declared_queues (planned_calls server_queue n topics)
     = map topic_queue_declaration topics
  /\ length (planned_calls server_queue n topics)
     = (2 * length topics + 2 * length (omap topic_exchange topics))%nat.
Proof.
  revert n. induction topics as [| t topics IH]; intros n; [repeat split |].
  cbn [planned_calls].
  set (p := topic_calls (topic_queue server_queue n t) t).
  destruct (IH (n + length p)%nat) as (E & B & Q & L).
  destruct (kinds_topic_calls (topic_queue server_queue n t) t) as (E1 & B1 & L1).
  fold p in E1, B1, L1.
  split; [| split; [| split]].
  - unfold declared_exchanges in *. now rewrite omap_app, E, E1, omap_cons_list.
  - unfold bindings in *. now rewrite omap_app, B, B1, omap_cons_list.
  - unfold declared_queues in *. rewrite omap_app, Q.
    fold (declared_queues p). unfold p. now rewrite declared_queues_topic_calls.
  - rewrite length_app, L, L1, omap_cons_list, length_app. cbn [length]. lia.
Qed.

(** A topic on the default exchange (no exchange, or an empty one) has no
    exchange declared and no binding made: when the setup returns, the
    exchanges declared and the bindings made are those of the topics with
    an exchange, in order, with the defaults [topic], durable and [#], and
    the setup has made two calls per topic and two more per exchange. *)
Theorem setup_default_exchange_unbound topics :
  snd (setup topics) = Some tt ->
  declared_exchanges (fst (setup topics)) = omap topic_exchange (default [] topics)
  /\ bindings (fst (setup topics)) = omap topic_binding (default [] topics)
  /\ length (fst (setup topics))
     = (2 * length (default [] topics)
        + 2 * length (omap topic_exchange (default [] topics)))%nat.
Proof.
  rewrite setup_exec. cbn [fst snd].
  destruct (succeeds call_raises 0 _) eqn:E; [| discriminate]. intros _.
  rewrite (attempted_all _ _ _ E).
  destruct (kinds_planned 0 (default [] topics)) as (H1 & H2 & _ & H4).
  now rewrite H1, H2, H4.
Qed.

(** One queue is declared per topic: under its name, not exclusive and
    durable unless the topic says otherwise, or, for a topic without a
    queue name or with an empty one, without a name, exclusive and not
    durable.  When a call raises, the queues declared are those of the
    first topics. *)
Theorem setup_queue_per_topic topics :
  declared_queues (fst (setup topics))
    `prefix_of` map topic_queue_declaration (default [] topics)
  /\ (snd (setup topics) = Some tt ->
      declared_queues (fst (setup topics))
      = map topic_queue_declaration (default [] topics)).
Proof.
  rewrite setup_exec. cbn [fst snd].
  destruct (kinds_planned 0 (default [] topics)) as (_ & _ & <- & _).
  split.
  - destruct (attempted_prefix call_raises 0
                (planned_calls server_queue 0 (default [] topics))) as (k & -> & _).
    exists (declared_queues
              (drop k (planned_calls server_queue 0 (default [] topics)))).
    unfold declared_queues. now rewrite <- omap_app, take_drop.
  - destruct (succeeds call_raises 0 _) eqn:E; [| discriminate]. intros _.
    now rewrite (attempted_all _ _ _ E).
Qed.

End SetupProperties.

(** ** The handling of one delivery: further properties *)

Section DeliveryProperties.

Variable json_loads : string -> result pyval.
Variable fromisoformat : string -> option datetime.
Variable utcnow : datetime.
Variable py_repr : pyval -> string.
Variable write_returns : string -> Point.t -> bool.
Variable ack_returns : Z -> bool.
Variable config : Config.

Local Abbreviation transform :=
  (_transform_to_influx_point fromisoformat utcnow py_repr).
Local Abbreviation parse := (parse_message json_loads).
Local Abbreviation callback :=
  (_message_callback json_loads fromisoformat utcnow py_repr write_returns
     ack_returns config).

(** The shapes of the calls of a delivery; [acked] is the call of
    [basic_ack] with what follows it. *)
Lemma callback_cases method body topic_config :
  let tag := delivery_tag method in
  let acked :=
    BasicAck tag :: (if ack_returns tag then [] else [BasicNack tag true]) in
  (callback method body topic_config = [BasicNack tag true]
   /\ ((exists e, parse body = Raise e)
       \/ exists message_data p e,
            parse body = Ok message_data
            /\ transform message_data topic_config method = Some p
            /\ write_bucket config topic_config = Raise e))
  \/ (callback method body topic_config = acked
      /\ exists message_data,
           parse body = Ok message_data
           /\ transform message_data topic_config method = None)
  \/ (exists message_data p b,
        parse body = Ok message_data
        /\ transform message_data topic_config method = Some p
        /\ write_bucket config topic_config = Ok b
        /\ ((write_returns b p = true
             /\ callback method body topic_config = Write b p :: acked)
            \/ (write_returns b p = false
                /\ callback method body topic_config
                   = [Write b p; BasicNack tag true]))).
Proof.
  intros tag acked.
  destruct (parse body) as [message_data | e] eqn:Hp.
  - destruct (transform message_data topic_config method) as [p |] eqn:Ht.
    + destruct (write_bucket config topic_config) as [b | e] eqn:Hb.
      * right. right. exists message_data, p, b.
        repeat (split; [first [reflexivity | assumption] |]).
        rewrite (callback_point _ _ _ _ _ _ _ _ _ _ _ _ _ Hp Ht Hb).
        destruct (write_returns b p); [left | right]; split; reflexivity.
      * left. split; [| right; exists message_data, p, e; auto].
        exact (callback_no_bucket _ _ _ _ _ _ _ _ _ _ _ _ _ Hp Ht Hb).
    + right. left. split; [| exists message_data; auto].
      exact (callback_no_point _ _ _ _ _ _ _ _ _ _ _ Hp Ht).
  - left. split; [| left; now exists e].
    exact (callback_parse_raises _ _ _ _ _ _ _ _ _ _ _ Hp).
Qed.

(** No key but [timestamp]: the test of [fields_pass], on the keys. *)
Lemma only_timestamp_keys (items : list (string * pyval)) :
  forallb (fun item => String.eqb (fst item) "timestamp") items = true
  <-> field_keys items = [].
Proof.
  unfold field_keys. induction items as [| [k v] items IH]; [easy |].
  cbn [forallb map fst]. rewrite filter_cons.
  destruct (String.eqb_spec k "timestamp") as [-> | Hk].
  - destruct (decide ("timestamp" <> "timestamp")) as [Hne | _];
      [now destruct Hne | exact IH].
  - destruct (decide (k <> "timestamp")) as [_ | Hn]; [| now destruct Hn].
    split; discriminate.
Qed.

(** The settings let a point be built from an object: [tags] is missing or
    a mapping, and so is [field_mapping] unless the object has no key but
    [timestamp]. *)
Lemma builds_point_iff topic_config items :
  builds_point topic_config items = true
  <-> tags topic_config <> NotMapping
      /\ (field_mapping topic_config <> NotMapping \/ field_keys items = []).
Proof.
  unfold builds_point, fields_pass.
  rewrite andb_true_iff, orb_true_iff, only_timestamp_keys.
  split; intros [H1 H2]; (split; [| destruct H2 as [H2 | H2]; [left | now right]]).
  - intros E. rewrite E in H1. discriminate.
  - intros E. rewrite E in H2. discriminate.
  - now destruct (tags topic_config).
  - now destruct (field_mapping topic_config).
Qed.

(** Every delivery is settled by the last call made for it: a [basic_ack]
    that returns, or a [basic_nack], which always asks for a requeue.
    [basic_ack] and [basic_nack] are each called at most once, and one of
    them is called; when [basic_ack] is called, [basic_nack] follows
    exactly when [basic_ack] raises.  At most one write is attempted,
    before any of these calls. *)
Theorem delivery_settled_once method body topic_config :
  let tag := delivery_tag method in
  let calls := callback method body topic_config in
  (acks tag calls <= 1)%nat
  /\ (nacks tag calls <= 1)%nat
  /\ (1 <= acks tag calls + nacks tag calls)%nat
  /\ (acks tag calls = 1%nat ->
      (nacks tag calls = 1%nat <-> ack_returns tag = false))
  /\ (last calls = Some (BasicAck tag) /\ ack_returns tag = true
      \/ last calls = Some (BasicNack tag true))
  /\ (forall t requeue, In (BasicNack t requeue) calls -> requeue = true)
  /\ (writes calls <= 1)%nat
  /\ (forall b p, In (Write b p) calls -> head calls = Some (Write b p)).
Proof.
  intros tag calls.
  destruct (callback_cases method body topic_config)
    as [[E _] | [[E _] | (md & p & b & _ & _ & _ & [[_ E] | [_ E]])]];
    unfold calls; fold tag in E; rewrite E; clear E;
    destruct (ack_returns tag);
    unfold acks, nacks, writes; cbn; rewrite ?Z.eqb_refl; cbn.
  all: split; [apply Nat.leb_le; reflexivity |].
  all: split; [apply Nat.leb_le; reflexivity |].
  all: split; [apply Nat.leb_le; reflexivity |].
  all: split; [intros Ha; split; intros Hn; first [reflexivity | discriminate] |].
  all: split; [auto |].
  all: split; [intros t requeue H; repeat (destruct H as [H | H]; try congruence); destruct H |].
  all: split; [apply Nat.leb_le; reflexivity |].
  all: intros b' p' H; repeat (destruct H as [H | H]; try congruence); destruct H.
Qed.

(** A delivery is rejected exactly when handling it raises: when the body
    cannot be parsed; when a point is built and no bucket can be found for
    it, or the write raises; and when [basic_ack] is called, with or
    without a point, and raises. *)
Theorem rejected_iff_raises method body topic_config :
  In (BasicNack (delivery_tag method) true) (callback method body topic_config)
  <->
  (exists e, parse body = Raise e)
  \/ exists message_data,
       parse body = Ok message_data
       /\ ((transform message_data topic_config method = None
            /\ ack_returns (delivery_tag method) = false)
           \/ exists p,
                transform message_data topic_config method = Some p
                /\ ((exists e, write_bucket config topic_config = Raise e)
                    \/ exists b,
                         write_bucket config topic_config = Ok b
                         /\ (write_returns b p = false
                             \/ ack_returns (delivery_tag method) = false))).
Proof.
  split.
  - intros Hin.
    destruct (callback_cases method body topic_config)
      as [[_ [He | (md & p & e & H1 & H2 & H3)]]
         | [[E (md & H1 & H2)]
           | (md & p & b & H1 & H2 & H3 & [[Hw E] | [Hw _]])]].
    + now left.
    + right. exists md. split; [exact H1 |]. right. exists p. eauto.
    + right. exists md. split; [exact H1 |]. left. split; [exact H2 |].
      rewrite E in Hin. destruct (ack_returns (delivery_tag method));
        [| reflexivity].
      destruct Hin as [H | []]. discriminate.
    + right. exists md. split; [exact H1 |]. right. exists p.
      split; [exact H2 |]. right. exists b. split; [exact H3 |]. right.
      rewrite E in Hin. destruct (ack_returns (delivery_tag method));
        [| reflexivity].
      destruct Hin as [H | [H | []]]; discriminate.
    + right. exists md. split; [exact H1 |]. right. exists p. eauto 6.
  - intros [[e He] | (md & H1 & [[H2 Ha]
                                | (p & H2 & [[e H3] | (b & H3 & H4)])])].
    + rewrite (callback_parse_raises _ _ _ _ _ _ _ _ _ _ _ He). now left.
    + rewrite (callback_no_point _ _ _ _ _ _ _ _ _ _ _ H1 H2), Ha.
      right. now left.
    + rewrite (callback_no_bucket _ _ _ _ _ _ _ _ _ _ _ _ _ H1 H2 H3). now left.
    + rewrite (callback_point _ _ _ _ _ _ _ _ _ _ _ _ _ H1 H2 H3).
      destruct (write_returns b p); [| right; now left].
      destruct H4 as [H4 | H4]; [discriminate |]. rewrite H4.
      right. right. now left.
Qed.

(** A write is attempted exactly when the body is parsed to an object, the
    settings of the topic let a point be built from it ([tags] is missing
    or a mapping, and so is [field_mapping] unless the object has no key
    but [timestamp]) and a bucket is found; what is written, to that
    bucket, is the point built from the parsed body. *)
Theorem written_iff_object method body topic_config :
  ((writes (callback method body topic_config) = 1)%nat
   <->
   exists items b,
     parse body = Ok (JDict items)
     /\ tags topic_config <> NotMapping
     /\ (field_mapping topic_config <> NotMapping \/ field_keys items = [])
     /\ write_bucket config topic_config = Ok b)
  /\ (forall b p,
        In (Write b p) (callback method body topic_config) ->
        exists message_data,
          parse body = Ok message_data
          /\ transform message_data topic_config method = Some p
          /\ write_bucket config topic_config = Ok b).
Proof.
  split; [split |].
  - intros Hw.
    destruct (callback_cases method body topic_config)
      as [[E _] | [[E _] | (md & p & b & H1 & H2 & H3 & _)]].
    + rewrite E in Hw. discriminate.
    + rewrite E in Hw. now destruct (ack_returns (delivery_tag method)).
    + destruct (proj1 (transform_Some_iff fromisoformat utcnow py_repr
                         md topic_config method))
        as (items & -> & Hb); [now exists p |].
      apply builds_point_iff in Hb as [Ht Hf]. now exists items, b.
  - intros (items & b & H1 & Ht & Hf & H3).
    destruct (proj2 (transform_Some_iff fromisoformat utcnow py_repr
                       (JDict items) topic_config method)) as [p H2].
    { exists items. split; [reflexivity |]. now apply builds_point_iff. }
    rewrite (callback_point _ _ _ _ _ _ _ _ _ _ _ _ _ H1 H2 H3).
    destruct (write_returns b p); [| reflexivity].
    now destruct (ack_returns (delivery_tag method)).
  - intros b p Hin.
    destruct (callback_cases method body topic_config)
      as [[E _] | [[E _] | (md & p' & b' & H1 & H2 & H3 & [[_ E] | [_ E]])]];
      rewrite E in Hin.
    + destruct Hin as [H | []]. discriminate.
    + destruct (ack_returns (delivery_tag method));
        repeat (destruct Hin as [Hin | Hin]; try discriminate); destruct Hin.
    + assert (Write b p = Write b' p') as [= -> ->].
      { destruct (ack_returns (delivery_tag method));
          repeat (destruct Hin as [Hin | Hin]; try discriminate);
          first [now symmetry | destruct Hin]. }
      now exists md.
    + assert (Write b p = Write b' p') as [= -> ->].
      { repeat (destruct Hin as [Hin | Hin]; try discriminate);
          first [now symmetry | destruct Hin]. }
      now exists md.
Qed.

(** Without a bucket of its own that can be used, and without a bucket in
    the global configuration, a topic has every object that a point is
    built from rejected, and nothing is written: every object, when its
    [tags] and [field_mapping] are each missing or a mapping. *)
Theorem no_bucket_rejects_objects method body topic_config items :
  bucket config = None ->
  influx_bucket topic_config = None \/ influx_bucket topic_config = Some "" ->
  parse body = Ok (JDict items) ->
  tags topic_config <> NotMapping ->
  field_mapping topic_config <> NotMapping \/ field_keys items = [] ->
  callback method body topic_config = [BasicNack (delivery_tag method) true].
Proof.
  intros Hg Ht Hp Htags Hfm.
  destruct (proj2 (transform_Some_iff fromisoformat utcnow py_repr
                     (JDict items) topic_config method)) as [p H2].
  { exists items. split; [reflexivity |]. now apply builds_point_iff. }
  apply (callback_no_bucket _ _ _ _ _ _ _ _ _ _ (JDict items) p KeyError Hp H2).
  unfold write_bucket. rewrite Hg. now destruct Ht as [-> | ->].
Qed.

(** A topic whose [tags] is present and is not a mapping (a null, for one)
    loses every message that is parsed: no point is built, nothing is
    written, and the first call is [basic_ack].  So it is with a
    [field_mapping] that is not a mapping, for an object with a key other
    than [timestamp]. *)
Theorem broken_settings_drop_messages method body topic_config message_data :
  parse body = Ok message_data ->
  tags topic_config = NotMapping
  \/ (field_mapping topic_config = NotMapping
      /\ exists items, message_data = JDict items /\ field_keys items <> []) ->
  transform message_data topic_config method = None
  /\ writes (callback method body topic_config) = 0%nat
  /\ head (callback method body topic_config)
     = Some (BasicAck (delivery_tag method)).
Proof.
  intros Hp Hbroken.
  assert (Hnone : transform message_data topic_config method = None).
  { destruct (transform message_data topic_config method) as [p |] eqn:E;
      [| reflexivity].
    destruct (proj1 (transform_Some_iff fromisoformat utcnow py_repr
                       message_data topic_config method))
      as (items & -> & Hb); [now exists p |].
    apply builds_point_iff in Hb as [Ht Hf].
    destruct Hbroken as [Hbad | (Hbad & items' & [= <-] & Hkeys)];
      [contradiction |].
    destruct Hf as [Hf | Hf]; contradiction. }
  split; [exact Hnone |].
  rewrite (callback_no_point _ _ _ _ _ _ _ _ _ _ _ Hp Hnone).
  split; [| reflexivity].
  destruct (ack_returns (delivery_tag method)); reflexivity.
Qed.

(** The parse step raises only when the body is not UTF-8 or when
    [json.loads] raises something else than [JSONDecodeError]; when it
    returns, it returns what [json.loads] returned, of any shape, or the
    [raw_message] object for a text that [json.loads] rejects. *)
Theorem parse_outcomes body :
  (forall e, parse body = Raise e ->
     (Utf8.decode body = None /\ e = UnicodeDecodeError)
     \/ (Utf8.decode body = Some body /\ json_loads body = Raise e
         /\ e <> JSONDecodeError))
  /\ (forall v, parse body = Ok v ->
     Utf8.decode body = Some body
     /\ (json_loads body = Ok v
         \/ (json_loads body = Raise JSONDecodeError
             /\ v = JDict [("raw_message", JStr body)]))).
Proof.
  unfold parse_message, Utf8.decode.
  destruct (Utf8.well_formed body); simpl.
  - destruct (json_loads body) as [v | e] eqn:E.
    + split; [discriminate |]. intros v' [= <-]. auto.
    + split.
      * intros e' H. right. destruct e; try (injection H as <-; repeat split; discriminate).
        discriminate H.
      * intros v H. destruct e; try discriminate H. injection H as <-. auto.
  - split; [| discriminate]. intros e [= <-]. auto.
Qed.

End DeliveryProperties.

(** ** The point that is built: further properties *)

Section PointProperties.

Variable fromisoformat : string -> option datetime.
Variable utcnow : datetime.
Variable py_repr : pyval -> string.

Local Abbreviation transform :=
  (_transform_to_influx_point fromisoformat utcnow py_repr).

(** The time of the point is always set, and it is the current time
    whenever the object gives no usable timestamp: no [timestamp] key, a
    null, a list or an object under it, a string that the ISO parser
    rejects, or a float whose product with 1e9 is a NaN or an infinity. *)
Theorem time_falls_back_to_now items topic_config method p :
  transform (JDict items) topic_config method = Some p ->
  (exists t, Point.time_ p = Some t)
  /\ (assoc "timestamp" items = None ->
      Point.time_ p = Some (TimeDatetime utcnow))
  /\ (forall v, assoc "timestamp" items = Some v ->
      isinstance_int_float v = false ->
      (forall s, v = JStr s ->
         fromisoformat (PyStr.replace "Z" "+00:00" s) = None) ->
      Point.time_ p = Some (TimeDatetime utcnow))
  /\ (forall f, assoc "timestamp" items = Some (JFloat f) ->
      PyFloat.to_int (PyFloat.mul f (PyFloat.of_int 1000000000)) = None ->
      Point.time_ p = Some (TimeDatetime utcnow)).
Proof.
  intros H.
  destruct (transform_dict_attrs _ _ _ _ _ _ _ H) as (t & Ht & _ & -> & _).
  split; [now exists t |].
  unfold with_time in Ht. simpl in Ht.
  split; [| split].
  - intros Hnone. rewrite Hnone in Ht. simpl in Ht. now injection Ht as <-.
  - intros v Hv Hnum Hstr. rewrite Hv in Ht. simpl in Ht. rewrite Hnum in Ht.
    destruct v; simpl in Ht; try discriminate Hnum; try (now injection Ht as <-).
    rewrite (Hstr s eq_refl) in Ht. simpl in Ht. now injection Ht as <-.
  - intros f Hf Hint. rewrite Hf in Ht.
    cbn [isinstance_int_float num_mul py_int bind] in Ht.
    rewrite Hint in Ht. now injection Ht as <-.
Qed.

(** A boolean under [timestamp] counts as a number, [bool] being a kind of
    [int]: [true] gives one second after the epoch and [false] the epoch
    itself, not the current time. *)
Theorem boolean_timestamp_is_a_number items topic_config method p b :
  transform (JDict items) topic_config method = Some p ->
  assoc "timestamp" items = Some (JBool b) ->
  Point.time_ p = Some (TimeInt (if b then 1000000000 else 0)).
Proof.
  intros H Hb.
  destruct (transform_dict_attrs _ _ _ _ _ _ _ H) as (t & Ht & _ & -> & _).
  unfold with_time in Ht. simpl in Ht. rewrite Hb in Ht. simpl in Ht.
  injection Ht as <-. now destruct b.
Qed.

Lemma fields_loop_dom fm items p0 :
  dom (Point.fields_ (fold_left (put_field py_repr fm) items p0))
  = dom (Point.fields_ p0)
    ∪ list_to_set (map (field_name fm) (field_keys items)).
Proof.
  revert p0. induction items as [| [k v] items IH]; intros p0; cbn [fold_left].
  - unfold field_keys. simpl. now rewrite (right_id_L ∅ (∪)).
  - rewrite IH, put_field_eq. unfold field_keys. cbn [map fst].
    rewrite filter_cons.
    destruct (String.eqb_spec k "timestamp") as [-> | Hk].
    + destruct (decide ("timestamp" <> "timestamp")) as [Hne | _];
        [now destruct Hne | reflexivity].
    + destruct (decide (k <> "timestamp")) as [_ | Hn]; [| now destruct Hn].
      cbn [Point.fields_ Point.field map list_to_set].
      rewrite dom_insert_L.
      rewrite (comm_L (∪) {[field_name fm k]} (dom (Point.fields_ p0))).
      now rewrite <- (assoc_L (∪)).
Qed.

Lemma fields_loop_scalar fm items p0 :
  map_Forall (fun _ v => is_scalar v = true) (Point.fields_ p0) ->
  map_Forall (fun _ v => is_scalar v = true)
    (Point.fields_ (fold_left (put_field py_repr fm) items p0)).
Proof.
  revert p0. induction items as [| [k v] items IH]; intros p0 H; cbn [fold_left];
    [exact H |].
  apply IH. rewrite put_field_eq.
  destruct (String.eqb k "timestamp"); [exact H |].
  cbn [Point.fields_ Point.field]. apply map_Forall_insert_2; [| exact H].
  unfold field_value. now destruct v.
Qed.

(** The fields of the point are named after the keys of the object other
    than [timestamp], each through the field mapping, and there is no
    other field: an object with no such key gives a point without fields.
    Every field holds a scalar: a boolean, a number or a string. *)
Theorem fields_named_after_keys items topic_config method p :
  transform (JDict items) topic_config method = Some p ->
  dom (Point.fields_ p)
  = list_to_set
      (map (field_name (mapping_or ∅ (field_mapping topic_config)))
         (field_keys items))
  /\ (field_keys items = [] -> Point.fields_ p = ∅)
  /\ (forall name v, Point.fields_ p !! name = Some v -> is_scalar v = true).
Proof.
  intros H.
  destruct (transform_dict_attrs _ _ _ _ _ _ _ H) as (t & _ & _ & _ & _ & ->).
  assert (D := fields_loop_dom (mapping_or ∅ (field_mapping topic_config)) items
                 (Point.new (measurement_name topic_config method))).
  simpl in D. rewrite dom_empty_L, (left_id_L ∅ (∪)) in D.
  split; [exact D |]. split.
  - intros E. rewrite E in D. simpl in D. now apply dom_empty_inv_L.
  - intros name v Hv.
    apply (fields_loop_scalar (mapping_or ∅ (field_mapping topic_config)) items
             (Point.new (measurement_name topic_config method))
             (map_Forall_empty _) name v Hv).
Qed.

Lemma replace_char_cons (old new c : ascii) (s : string) :
  PyStr.replace old (String new "") (String c s)
  = String (if Ascii.eqb c old then new else c)
      (PyStr.replace old (String new "") s).
Proof. simpl. now destruct (Ascii.eqb c old). Qed.

Lemma replace_dot_chars (s : string) :
  String.length (PyStr.replace "." "_" s) = String.length s
  /\ ~ In "."%char (list_ascii_of_string (PyStr.replace "." "_" s)).
Proof.
  induction s as [| c s [IHl IHn]]; [simpl; auto |].
  rewrite replace_char_cons. cbn [String.length list_ascii_of_string].
  split; [now rewrite IHl |].
  intros [H | H]; [| auto].
  destruct (Ascii.eqb_spec c ".") as [-> | Hc]; [discriminate | congruence].
Qed.

(** Without a usable measurement override, the measurement name is as
    long as the routing key and has no dot in it; and sanitizing a name
    that is already sanitized changes nothing. *)
Theorem sanitized_name_has_no_dot message_data topic_config method p :
  transform message_data topic_config method = Some p ->
  measurement topic_config = None \/ measurement topic_config = Some "" ->
  String.length (Point.name p) = String.length (routing_key method)
  /\ ~ In "."%char (list_ascii_of_string (Point.name p))
  /\ PyStr.replace "." "_" (Point.name p) = Point.name p.
Proof.
  intros H Hm.
  destruct (transform_Some_dict _ _ _ _ _ _ _ H) as [items ->].
  destruct (transform_dict_attrs _ _ _ _ _ _ _ H) as (t & _ & -> & _).
  assert (E : measurement_name topic_config method
              = PyStr.replace "." "_" (routing_key method)).
  { unfold measurement_name. now destruct Hm as [-> | ->]. }
  rewrite E. destruct (replace_dot_chars (routing_key method)) as [Hl Hn].
  split; [exact Hl |]. split; [exact Hn |].
  apply replace_absent. intros c Hc ->. now apply Hn.
Qed.

End PointProperties.

(** ** The main loop *)

Example run_slow_start :
  run SampleRun.slow_start 30 =
    ([ConnectRabbitmq; Sleep 5; ConnectRabbitmq; Sleep 5; ConnectRabbitmq;
      Sleep 5; ConnectRabbitmq; ConnectInfluxdb; SetupSubscriptions]
       ++ replicate 11 ProcessDataEvents ++ [Cleanup],
     Some Returns)%list.
Proof. vm_compute. reflexivity. Qed.

Example run_broken :
  run SampleRun.broken 30 =
    ([ConnectRabbitmq; ConnectInfluxdb; SetupSubscriptions;
      ProcessDataEvents; Sleep 1; ProcessDataEvents; ConnectRabbitmq;
      SetupSubscriptions; Cleanup],
     Some Raises).
Proof. vm_compute. reflexivity. Qed.

Section RunFacts.

Variable w : World.

Lemma connect_loop_shape fuel steps :
  exists retries tail left,
    connect_loop w fuel steps
    = ((steps ++ concat (map retry retries) ++ tail)%list, left)
    /\ ((tail = [] /\ (left = true ->
                        running w (length (steps ++ concat (map retry retries)))
                        = false))
        \/ (tail = [ConnectRabbitmq; ConnectInfluxdb] /\ left = true)).
Proof.
  revert steps. induction fuel as [| fuel IH]; intros steps; cbn [connect_loop].
  - exists [], [], false. split; [now rewrite !app_nil_r |]. left. split; [reflexivity | discriminate].
  - destruct (running w (length steps)) eqn:Hrun.
    + destruct (rabbitmq_up w (length steps)); cbn [negb].
      * destruct (influxdb_up w _); cbn [negb].
        -- exists [], [ConnectRabbitmq; ConnectInfluxdb], true.
           split; [now rewrite <- !app_assoc | now right].
        -- destruct (IH (((steps ++ [ConnectRabbitmq]) ++ [ConnectInfluxdb])
                           ++ [Sleep 5])%list)
             as (rs & tail & left & E & H).
           exists (true :: rs), tail, left. rewrite E.
           cbn [map concat retry]. rewrite <- !app_assoc in *. cbn [app] in *.
           split; [reflexivity | exact H].
      * destruct (IH ((steps ++ [ConnectRabbitmq]) ++ [Sleep 5])%list)
          as (rs & tail & left & E & H).
        exists (false :: rs), tail, left. rewrite E.
        cbn [map concat retry]. rewrite <- !app_assoc in *. cbn [app] in *.
        split; [reflexivity | exact H].
    + exists [], [], true. split; [now rewrite !app_nil_r |].
      left. split; [reflexivity |]. intros _. now rewrite app_nil_r.
Qed.

Lemma consume_loop_shape fuel steps :
  exists added ended,
    consume_loop w fuel steps = ((steps ++ added)%list, ended)
    /\ Forall is_steady added
    /\ (ended = Some Raises ->
        exists before,
          added = (before ++ [SetupSubscriptions])%list
          /\ setup_raises w (length (steps ++ before)) = true)
    /\ (ended = Some Returns ->
        running w (length (steps ++ added)) = false
        \/ exists before,
             added = (before ++ [ProcessDataEvents])%list
             /\ events w (length (steps ++ before)) = Interrupted).
Proof.
  revert steps. induction fuel as [| fuel IH]; intros steps; cbn [consume_loop].
  - exists [], None. rewrite app_nil_r. repeat split; [constructor | discriminate..].
  - destruct (running w (length steps)) eqn:Hrun.
    + destruct (events w (length steps)) eqn:Hev.
      * destruct (IH (steps ++ [ProcessDataEvents])%list)
          as (added & ended & E & Hs & Hraise & Hret).
        exists (ProcessDataEvents :: added), ended. rewrite E.
        rewrite <- !app_assoc. cbn [app]. split; [reflexivity |].
        split; [constructor; [now left | exact Hs] |]. split.
        -- intros He. destruct (Hraise He) as (before & -> & Hb).
           exists (ProcessDataEvents :: before). split; [reflexivity |].
           now rewrite <- app_assoc in Hb.
        -- intros He. destruct (Hret He) as [Hr | (before & -> & Hb)].
           ++ left. now rewrite <- app_assoc in Hr.
           ++ right. exists (ProcessDataEvents :: before). split; [reflexivity |].
              now rewrite <- app_assoc in Hb.
      * destruct (setup_raises w _) eqn:Hsetup.
        -- exists [ProcessDataEvents; ConnectRabbitmq; SetupSubscriptions],
             (Some Raises).
           rewrite <- !app_assoc. cbn [app]. split; [reflexivity |].
           split; [repeat (constructor; [unfold is_steady; auto |]);
                  first [assumption | constructor] |]. split.
           ++ intros _. exists [ProcessDataEvents; ConnectRabbitmq].
              split; [reflexivity |]. rewrite <- Hsetup. f_equal.
              now rewrite <- !app_assoc.
           ++ discriminate.
        -- destruct (IH (((steps ++ [ProcessDataEvents]) ++ [ConnectRabbitmq])
                           ++ [SetupSubscriptions])%list)
             as (added & ended & E & Hs & Hraise & Hret).
           exists (ProcessDataEvents :: ConnectRabbitmq :: SetupSubscriptions
                     :: added), ended.
           rewrite E. rewrite <- !app_assoc. cbn [app]. split; [reflexivity |].
           split; [repeat (constructor; [unfold is_steady; auto |]);
                  first [assumption | constructor] |]. split.
           ++ intros He. destruct (Hraise He) as (before & -> & Hb).
              exists (ProcessDataEvents :: ConnectRabbitmq :: SetupSubscriptions
                        :: before).
              split; [reflexivity |]. now rewrite <- !app_assoc in Hb.
           ++ intros He. destruct (Hret He) as [Hr | (before & -> & Hb)].
              ** left. now rewrite <- !app_assoc in Hr.
              ** right.
                 exists (ProcessDataEvents :: ConnectRabbitmq
                           :: SetupSubscriptions :: before).
                 split; [reflexivity |]. now rewrite <- !app_assoc in Hb.
      * destruct (IH ((steps ++ [ProcessDataEvents]) ++ [Sleep 1])%list)
          as (added & ended & E & Hs & Hraise & Hret).
        exists (ProcessDataEvents :: Sleep 1 :: added), ended.
        rewrite E. rewrite <- !app_assoc. cbn [app]. split; [reflexivity |].
        split; [repeat (constructor; [unfold is_steady; auto |]);
                  first [assumption | constructor] |]. split.
        -- intros He. destruct (Hraise He) as (before & -> & Hb).
           exists (ProcessDataEvents :: Sleep 1 :: before).
           split; [reflexivity |]. now rewrite <- !app_assoc in Hb.
        -- intros He. destruct (Hret He) as [Hr | (before & -> & Hb)].
           ++ left. now rewrite <- !app_assoc in Hr.
           ++ right. exists (ProcessDataEvents :: Sleep 1 :: before).
              split; [reflexivity |]. now rewrite <- !app_assoc in Hb.
      * exists [ProcessDataEvents], (Some Returns). split; [reflexivity |].
        split; [repeat (constructor; [unfold is_steady; auto |]);
                  first [assumption | constructor] |].
        split; [discriminate |]. intros _. right. exists [].
        split; [reflexivity |]. now rewrite app_nil_r.
    + exists [], (Some Returns). rewrite app_nil_r. split; [reflexivity |].
      split; [constructor |]. split; [discriminate |]. intros _. now left.
Qed.

Lemma running_false n :
  running w n = false -> exists k, signal w = Some k /\ (k <= n)%nat.
Proof.
  unfold running. destruct (signal w) as [k |]; [| discriminate].
  intros H. exists k. split; [reflexivity |]. now apply Nat.ltb_ge.
Qed.

(** A run that ends has one of two shapes.  Either it is cancelled before
    it subscribes: it has made failed turns of the connecting loop only,
    or such turns and a successful connection, and it returns without
    calling [_cleanup].  Or it has made failed turns, a successful
    connection, the setup, calls of the consuming loop, and [_cleanup] as
    its last call.  So [_cleanup] is called once, at the end, exactly when
    the setup has been started, and InfluxDB is never connected again once
    the bridge has subscribed. *)
Theorem run_phases fuel steps out :
  run w fuel = (steps, Some out) ->
  exists retries,
    (out = Returns
     /\ (exists k, signal w = Some k /\ (k <= length steps)%nat)
     /\ (steps = concat (map retry retries)
         \/ steps = (concat (map retry retries)
                      ++ [ConnectRabbitmq; ConnectInfluxdb])%list))
    \/ exists steady,
         steps = (concat (map retry retries)
                  ++ [ConnectRabbitmq; ConnectInfluxdb; SetupSubscriptions]
                  ++ steady ++ [Cleanup])%list
         /\ Forall is_steady steady.
Proof.
  unfold run.
  destruct (connect_loop_shape fuel []) as (rs & tail & left & E & Htail).
  rewrite E. cbn [app] in *. intros Hres. exists rs.
  destruct left; [| discriminate].
  destruct (running w (length (concat (map retry rs) ++ tail))) eqn:Hrun;
    cbn [negb] in Hres.
  - destruct Htail as [[-> Hleft] | [-> _]].
    + rewrite app_nil_r in Hrun. rewrite (Hleft eq_refl) in Hrun. discriminate.
    + right.
      destruct (setup_raises w _).
      * injection Hres as <- <-. exists []. split; [| constructor].
        now rewrite <- !app_assoc.
      * destruct (consume_loop_shape fuel
                    ((concat (map retry rs) ++ [ConnectRabbitmq; ConnectInfluxdb])
                       ++ [SetupSubscriptions])%list)
          as (added & ended & E2 & Hs & _).
        rewrite E2 in Hres. destruct ended as [o |]; [| discriminate].
        injection Hres as <- <-. exists added. split; [| exact Hs].
        now rewrite <- !app_assoc.
  - injection Hres as <- <-. left. split; [reflexivity |].
    split; [now apply running_false |].
    destruct Htail as [[-> _] | [-> _]]; [left; now rewrite app_nil_r | now right].
Qed.

(** A run ends for one of three reasons only: a signal has been handled;
    or [_setup_subscriptions] has raised, and then [run] raises, after
    the cleanup; or [process_data_events] has raised
    [KeyboardInterrupt].  An error of [process_data_events], a lost
    connection or a failed reconnection alone never end it. *)
Theorem run_ends_for_a_reason fuel steps out :
  run w fuel = (steps, Some out) ->
  (out = Returns
   /\ exists k, signal w = Some k /\ (k <= length steps)%nat)
  \/ (out = Raises
      /\ exists before,
           steps = (before ++ [SetupSubscriptions; Cleanup])%list
           /\ setup_raises w (length before) = true)
  \/ (out = Returns
      /\ exists before,
           steps = (before ++ [ProcessDataEvents; Cleanup])%list
           /\ events w (length before) = Interrupted).
Proof.
  unfold run.
  destruct (connect_loop w fuel []) as [steps1 left].
  destruct left; [| discriminate].
  destruct (running w (length steps1)) eqn:Hrun; cbn [negb].
  - destruct (setup_raises w (length steps1)) eqn:Hsetup.
    + intros [= <- <-]. right. left. split; [reflexivity |].
      exists steps1. split; [now rewrite <- app_assoc | exact Hsetup].
    + destruct (consume_loop_shape fuel (steps1 ++ [SetupSubscriptions])%list)
        as (added & ended & E2 & _ & Hraise & Hret).
      rewrite E2. destruct ended as [[|] |]; [| | discriminate].
      * intros [= <- <-].
        destruct (Hret eq_refl) as [Hr | (before & -> & Hb)].
        -- left. split; [reflexivity |].
           destruct (running_false _ Hr) as (k & Hk & Hle).
           exists k. split; [exact Hk |]. rewrite length_app. cbn [length]. lia.
        -- right. right. split; [reflexivity |].
           exists ((steps1 ++ [SetupSubscriptions]) ++ before)%list.
           split; [now rewrite <- !app_assoc | exact Hb].
      * intros [= <- <-]. right. left. split; [reflexivity |].
        destruct (Hraise eq_refl) as (before & -> & Hb).
        exists ((steps1 ++ [SetupSubscriptions]) ++ before)%list.
        split; [now rewrite <- !app_assoc | exact Hb].
  - intros [= <- <-]. left. split; [reflexivity |]. now apply running_false.
Qed.

Lemma running_signal k n : signal w = Some k -> running w n = Nat.ltb n k.
Proof. unfold running. now intros ->. Qed.

Lemma connect_loop_stops k fuel steps :
  signal w = Some k ->
  (k - length steps < fuel)%nat ->
  exists steps',
    connect_loop w fuel steps = (steps', true)
    /\ (length steps' <= Nat.max (length steps) (k + 2))%nat.
Proof.
  intros Hk. revert steps.
  induction fuel as [| fuel IH]; intros steps Hfuel; [lia |].
  cbn [connect_loop]. rewrite (running_signal k _ Hk).
  destruct (Nat.ltb_spec (length steps) k) as [Hlt | Hge].
  - destruct (rabbitmq_up w (length steps)); cbn [negb].
    + destruct (influxdb_up w _); cbn [negb].
      * eexists. split; [reflexivity |]. rewrite !length_app. cbn [length]. lia.
      * destruct (IH (((steps ++ [ConnectRabbitmq]) ++ [ConnectInfluxdb])
                        ++ [Sleep 5])%list) as (steps' & E & Hlen).
        { rewrite !length_app. cbn [length]. lia. }
        exists steps'. split; [exact E |].
        rewrite !length_app in Hlen. cbn [length] in Hlen. lia.
    + destruct (IH ((steps ++ [ConnectRabbitmq]) ++ [Sleep 5])%list)
        as (steps' & E & Hlen).
      { rewrite !length_app. cbn [length]. lia. }
      exists steps'. split; [exact E |].
      rewrite !length_app in Hlen. cbn [length] in Hlen. lia.
  - exists steps. split; [reflexivity | lia].
Qed.

Lemma consume_loop_stops k fuel steps :
  signal w = Some k ->
  (k - length steps < fuel)%nat ->
  exists steps' out,
    consume_loop w fuel steps = (steps', Some out)
    /\ (length steps' <= Nat.max (length steps) (k + 2))%nat.
Proof.
  intros Hk. revert steps.
  induction fuel as [| fuel IH]; intros steps Hfuel; [lia |].
  cbn [consume_loop]. rewrite (running_signal k _ Hk).
  destruct (Nat.ltb_spec (length steps) k) as [Hlt | Hge].
  - destruct (events w (length steps)).
    + destruct (IH (steps ++ [ProcessDataEvents])%list) as (steps' & out & E & Hlen).
      { rewrite !length_app. cbn [length]. lia. }
      exists steps', out. split; [exact E |].
      rewrite !length_app in Hlen. cbn [length] in Hlen. lia.
    + destruct (setup_raises w _).
      * eexists _, _. split; [reflexivity |]. rewrite !length_app. cbn [length]. lia.
      * destruct (IH (((steps ++ [ProcessDataEvents]) ++ [ConnectRabbitmq])
                        ++ [SetupSubscriptions])%list)
          as (steps' & out & E & Hlen).
        { rewrite !length_app. cbn [length]. lia. }
        exists steps', out. split; [exact E |].
        rewrite !length_app in Hlen. cbn [length] in Hlen. lia.
    + destruct (IH ((steps ++ [ProcessDataEvents]) ++ [Sleep 1])%list)
        as (steps' & out & E & Hlen).
      { rewrite !length_app. cbn [length]. lia. }
      exists steps', out. split; [exact E |].
      rewrite !length_app in Hlen. cbn [length] in Hlen. lia.
    + eexists _, _. split; [reflexivity |]. rewrite !length_app. cbn [length]. lia.
  - exists steps, Returns. split; [reflexivity | lia].
Qed.

(** Once a signal has been handled the run ends: it finishes the turn of
    the loop it is in and, if it has subscribed, cleans up.  When the
    signal is handled by the time [k] calls have been made, the run ends
    after at most [k + 3] calls, whatever the world does. *)
Theorem run_stops_after_signal k fuel :
  signal w = Some k ->
  (k < fuel)%nat ->
  exists steps out,
    run w fuel = (steps, Some out) /\ (length steps <= k + 3)%nat.
Proof.
  intros Hk Hfuel. unfold run.
  destruct (connect_loop_stops k fuel [] Hk) as (steps1 & E1 & Hlen1);
    [cbn [length]; lia |].
  rewrite E1. cbn [length] in Hlen1. rewrite (running_signal k _ Hk).
  destruct (Nat.ltb_spec (length steps1) k) as [Hlt | Hge]; cbn [negb].
  - destruct (setup_raises w (length steps1)).
    + eexists _, _. split; [reflexivity |]. rewrite !length_app. cbn [length]. lia.
    + destruct (consume_loop_stops k fuel (steps1 ++ [SetupSubscriptions])%list Hk)
        as (steps2 & out & E2 & Hlen2); [lia |].
      rewrite E2. exists (steps2 ++ [Cleanup])%list, out.
      split; [reflexivity |].
      rewrite !length_app in *. cbn [length] in *. lia.
  - exists steps1, Returns. split; [reflexivity | lia].
Qed.

Lemma connect_loop_down fuel steps (at_influxdb : bool) :
  signal w = None ->
  (forall n, rabbitmq_up w n = at_influxdb) ->
  (at_influxdb = true -> forall n, influxdb_up w n = false) ->
  connect_loop w fuel steps
  = ((steps ++ concat (replicate fuel (retry at_influxdb)))%list, false).
Proof.
  intros Hs Hr Hi. revert steps.
  induction fuel as [| fuel IH]; intros steps; cbn [connect_loop replicate concat].
  - now rewrite app_nil_r.
  - unfold running. rewrite Hs, Hr.
    destruct at_influxdb; cbn [negb retry].
    + rewrite (Hi eq_refl). cbn [negb]. rewrite IH. now rewrite <- !app_assoc.
    + rewrite IH. now rewrite <- !app_assoc.
Qed.

(** The connecting loop never gives up.  Without a signal, as long as
    RabbitMQ cannot be reached the run does nothing but try RabbitMQ and
    sleep five seconds, turn after turn; and as long as RabbitMQ answers
    and InfluxDB does not, every turn opens a connection to RabbitMQ
    again before it tries InfluxDB and sleeps. *)
Theorem run_retries_forever fuel :
  signal w = None ->
  ((forall n, rabbitmq_up w n = false) ->
   run w fuel = (concat (replicate fuel [ConnectRabbitmq; Sleep 5]), None))
  /\ ((forall n, rabbitmq_up w n = true) ->
      (forall n, influxdb_up w n = false) ->
      run w fuel
      = (concat (replicate fuel [ConnectRabbitmq; ConnectInfluxdb; Sleep 5]),
         None)).
Proof.
  intros Hs. split; [intros Hr | intros Hr Hi]; unfold run.
  - now rewrite (connect_loop_down fuel [] false Hs Hr ltac:(discriminate)).
  - now rewrite (connect_loop_down fuel [] true Hs Hr (fun _ => Hi)).
Qed.

Lemma connect_loop_more fuel fuel' steps steps' :
  connect_loop w fuel steps = (steps', true) ->
  (fuel <= fuel')%nat ->
  connect_loop w fuel' steps = (steps', true).
Proof.
  revert fuel' steps. induction fuel as [| fuel IH]; intros fuel' steps;
    [discriminate |].
  intros H Hle. destruct fuel' as [| fuel']; [lia |].
  cbn [connect_loop] in *.
  destruct (running w (length steps)); [| exact H].
  destruct (rabbitmq_up w (length steps)); cbn [negb] in *.
  - destruct (influxdb_up w _); cbn [negb] in *; [exact H |].
    apply IH; [exact H | lia].
  - apply IH; [exact H | lia].
Qed.

Lemma consume_loop_more fuel fuel' steps steps' out :
  consume_loop w fuel steps = (steps', Some out) ->
  (fuel <= fuel')%nat ->
  consume_loop w fuel' steps = (steps', Some out).
Proof.
  revert fuel' steps. induction fuel as [| fuel IH]; intros fuel' steps;
    [discriminate |].
  intros H Hle. destruct fuel' as [| fuel']; [lia |].
  cbn [consume_loop] in *.
  destruct (running w (length steps)); [| exact H].
  destruct (events w (length steps)).
  - apply IH; [exact H | lia].
  - destruct (setup_raises w _); [exact H |]. apply IH; [exact H | lia].
  - apply IH; [exact H | lia].
  - exact H.
Qed.

(** How a run ends does not depend on the fuel: a run that has ended is
    the same run with more fuel. *)
Lemma run_more fuel fuel' steps out :
  run w fuel = (steps, Some out) ->
  (fuel <= fuel')%nat ->
  run w fuel' = (steps, Some out).
Proof.
  unfold run. intros H Hle.
  destruct (connect_loop w fuel []) as [steps1 left] eqn:E1.
  destruct left; [| discriminate].
  rewrite (connect_loop_more _ _ _ _ E1 Hle).
  destruct (running w (length steps1)); cbn [negb] in *; [| exact H].
  destruct (setup_raises w (length steps1)); [exact H |].
  destruct (consume_loop w fuel _) as [steps2 ended] eqn:E2.
  destruct ended as [o |]; [| discriminate].
  now rewrite (consume_loop_more _ _ _ _ _ E2 Hle).
Qed.

Lemma reacts_extend steps added :
  reacts w steps ->
  (forall j,
     added !! j = Some ProcessDataEvents ->
     (events w (length steps + j) = ConnectionLost ->
      added !! S j = Some ConnectRabbitmq
      /\ added !! S (S j) = Some SetupSubscriptions)
     /\ (events w (length steps + j) = Failed ->
         added !! S j = Some (Sleep 1))) ->
  reacts w (steps ++ added)%list.
Proof.
  intros H Hadd i Hi.
  apply lookup_app_Some in Hi as [Hi | [Hlen Hi]].
  - destruct (H i Hi) as [Hlost Hfail]. split.
    + intros He. destruct (Hlost He) as [H1 H2].
      split; now apply lookup_app_l_Some.
    + intros He. now apply lookup_app_l_Some, Hfail.
  - destruct (Hadd _ Hi) as [Hlost Hfail].
    replace (length steps + (i - length steps))%nat with i in * by lia.
    split.
    + intros He. destruct (Hlost He) as [H1 H2].
      rewrite !lookup_app_r by lia.
      replace (S i - length steps)%nat with (S (i - length steps)) by lia.
      replace (S (S i) - length steps)%nat with (S (S (i - length steps))) by lia.
      now split.
    + intros He. rewrite lookup_app_r by lia.
      replace (S i - length steps)%nat with (S (i - length steps)) by lia.
      now apply Hfail.
Qed.

Ltac reacts_added :=
  let j := fresh "j" in
  let Hj := fresh "Hj" in
  intros j Hj;
  destruct j as [| [| [| [| j]]]]; try discriminate Hj;
  rewrite ?Nat.add_0_r;
  split; intros ?; first [congruence | repeat split; reflexivity].

Lemma connect_loop_reacts fuel steps :
  reacts w steps -> reacts w (fst (connect_loop w fuel steps)).
Proof.
  revert steps. induction fuel as [| fuel IH]; intros steps H;
    cbn [connect_loop]; [exact H |].
  destruct (running w (length steps)); [| exact H].
  destruct (rabbitmq_up w (length steps)); cbn [negb].
  - destruct (influxdb_up w _); cbn [negb fst].
    + rewrite <- app_assoc. apply reacts_extend; [exact H | reacts_added].
    + apply IH. rewrite <- !app_assoc.
      apply reacts_extend; [exact H | reacts_added].
  - apply IH. rewrite <- !app_assoc.
    apply reacts_extend; [exact H | reacts_added].
Qed.

Lemma consume_loop_reacts fuel steps :
  reacts w steps -> reacts w (fst (consume_loop w fuel steps)).
Proof.
  revert steps. induction fuel as [| fuel IH]; intros steps H;
    cbn [consume_loop]; [exact H |].
  destruct (running w (length steps)); [| exact H].
  destruct (events w (length steps)) eqn:Hev.
  - apply IH. apply reacts_extend; [exact H | reacts_added].
  - destruct (setup_raises w _); cbn [fst]; [| apply IH];
      rewrite <- !app_assoc; (apply reacts_extend; [exact H | reacts_added]).
  - apply IH. rewrite <- !app_assoc.
    apply reacts_extend; [exact H | reacts_added].
  - cbn [fst]. apply reacts_extend; [exact H | reacts_added].
Qed.

(** How the loop reacts to what [process_data_events] does, at any point
    of a run, ended or not: a lost connection is followed at once by a
    reconnection to RabbitMQ and by the setup of the subscriptions,
    whether the reconnection succeeds or not; any other error is followed
    by a sleep of one second, after which the loop goes on. *)
Theorem run_reacts fuel : reacts w (fst (run w fuel)).
Proof.
  assert (H0 : reacts w []) by (intros i Hi; discriminate Hi).
  unfold run.
  pose proof (connect_loop_reacts fuel [] H0) as H1.
  destruct (connect_loop w fuel []) as [steps1 left]. cbn [fst] in H1.
  destruct left; [| exact H1].
  destruct (running w (length steps1)); cbn [negb]; [| exact H1].
  assert (H2 : reacts w (steps1 ++ [SetupSubscriptions])%list)
    by (apply reacts_extend; [exact H1 | reacts_added]).
  destruct (setup_raises w (length steps1)).
  - cbn [fst]. apply reacts_extend; [exact H2 | reacts_added].
  - pose proof (consume_loop_reacts fuel _ H2) as H3.
    destruct (consume_loop w fuel _) as [steps2 ended]. cbn [fst] in H3.
    destruct ended; cbn [fst]; [| exact H3].
    apply reacts_extend; [exact H3 | reacts_added].
Qed.

End RunFacts.

(** ** The test data generator *)

Section GeneratorFacts.

Variable attempt_succeeds : nat -> bool.
Variable publish_raises : nat -> bool.

Import Generator.

Lemma generator_connect_loop_shape fuel retry_count :
  (retry_count < max_retries)%nat ->
  (max_retries - retry_count <= fuel)%nat ->
  exists d r,
    connect_loop attempt_succeeds fuel retry_count
    = ((concat (replicate d [Attempt; Wait 5]) ++ [Attempt])%list, r)
    /\ (retry_count + d < max_retries)%nat
    /\ (forall j, (j < d)%nat -> attempt_succeeds (retry_count + j) = false)
    /\ ((attempt_succeeds (retry_count + d) = true /\ r = Some (Some true))
        \/ (S (retry_count + d) = max_retries
            /\ attempt_succeeds (retry_count + d) = false
            /\ r = Some (Some false))).
Proof.
  revert retry_count.
  induction fuel as [| fuel IH]; intros rc Hrc Hfuel; [lia |].
  cbn [connect_loop].
  destruct (Nat.ltb_spec rc max_retries) as [_ | Hge]; [| lia].
  destruct (attempt_succeeds rc) eqn:Hat.
  - exists 0%nat, (Some (Some true)). rewrite Nat.add_0_r.
    repeat split; [exact Hrc | intros j Hj; lia | now left].
  - destruct (Nat.ltb_spec (S rc) max_retries) as [Hlt | Hlast].
    + destruct (IH (S rc) Hlt ltac:(lia)) as (d & r & E & Hd & Hfail & Hres).
      rewrite E. exists (S d), r.
      replace (rc + S d)%nat with (S rc + d)%nat by lia.
      repeat split; [exact Hd | | exact Hres].
      intros [| j] Hj; [now rewrite Nat.add_0_r |].
      replace (rc + S j)%nat with (S rc + j)%nat by lia. apply Hfail. lia.
    + exists 0%nat, (Some (Some false)). rewrite Nat.add_0_r.
      repeat split; [exact Hrc | intros j Hj; lia |].
      right. repeat split; [lia | exact Hat].
Qed.

Lemma generator_connect_outcome fuel :
  (max_retries <= fuel)%nat ->
  exists d r,
    connect attempt_succeeds fuel
    = ((concat (replicate d [Attempt; Wait 5]) ++ [Attempt])%list, r)
    /\ (d < 10)%nat
    /\ (forall j, (j < d)%nat -> attempt_succeeds j = false)
    /\ ((attempt_succeeds d = true /\ r = Some (Some true))
        \/ (d = 9%nat /\ attempt_succeeds d = false /\ r = Some (Some false))).
Proof.
  intros Hfuel. unfold connect.
  destruct (generator_connect_loop_shape fuel 0) as (d & r & E & Hd & Hfail & Hres);
    [unfold max_retries; lia | lia |].
  exists d, r. cbn [Nat.add] in *. unfold max_retries in *.
  repeat split; [exact E | exact Hd | exact Hfail |].
  destruct Hres as [H | (H1 & H2 & H3)]; [now left | right].
  repeat split; [lia | exact H2 | exact H3].
Qed.

(** [DataPublisher.connect] tries at most ten times, sleeping five
    seconds between two attempts and never after the last one.  It
    returns [True] at the first attempt that goes through, and [False]
    once the tenth attempt has failed, after nine sleeps; it always
    returns one of the two. *)
Theorem generator_connect_bounded fuel :
  (max_retries <= fuel)%nat ->
  exists d r,
    connect attempt_succeeds fuel
    = ((concat (replicate d [Attempt; Wait 5]) ++ [Attempt])%list, r)
    /\ (d < 10)%nat
    /\ (forall j, (j < d)%nat -> attempt_succeeds j = false)
    /\ ((attempt_succeeds d = true /\ r = Some (Some true))
        \/ (d = 9%nat /\ attempt_succeeds d = false /\ r = Some (Some false))).
Proof. exact (generator_connect_outcome fuel). Qed.

Lemma turn_periodic c : turn (10 + c) = turn c.
Proof.
  unfold turn.
  replace ((10 + c) mod 2)%nat with (c mod 2)%nat
    by (replace (10 + c)%nat with (c + 5 * 2)%nat by lia;
        now rewrite Nat.Div0.mod_add).
  replace ((10 + c) mod 5)%nat with (c mod 5)%nat
    by (replace (10 + c)%nat with (c + 2 * 5)%nat by lia;
        now rewrite Nat.Div0.mod_add).
  replace ((10 + c) mod 10)%nat with (c mod 10)%nat
    by (replace (10 + c)%nat with (c + 1 * 10)%nat by lia;
        now rewrite Nat.Div0.mod_add).
  reflexivity.
Qed.

Lemma schedule_shift c n : schedule (10 + c) n = schedule c n.
Proof.
  unfold schedule. revert c. induction n as [| n IH]; intros c; [reflexivity |].
  cbn [seq map concat]. rewrite turn_periodic. f_equal.
  now rewrite <- (IH (S c)), Nat.add_succ_r.
Qed.

Lemma schedule_app c n m :
  schedule c (n + m) = (schedule c n ++ schedule (c + n) m)%list.
Proof. unfold schedule. now rewrite seq_app, map_app, concat_app. Qed.

Lemma count_app p l1 l2 :
  count p (l1 ++ l2)%list = (count p l1 + count p l2)%nat.
Proof. unfold count. now rewrite filter_app, length_app. Qed.

Lemma schedule_counts k :
  count Sensor (schedule 0 (10 * k)) = (5 * k)%nat
  /\ count Weather (schedule 0 (10 * k)) = (2 * k)%nat
  /\ count Alert (schedule 0 (10 * k)) = k
  /\ length (schedule 0 (10 * k)) = (8 * k)%nat.
Proof.
  induction k as [| k (IHs & IHw & IHa & IHl)]; [repeat split |].
  replace (10 * S k)%nat with (10 + 10 * k)%nat by lia.
  rewrite schedule_app, !count_app, length_app.
  replace (schedule (0 + 10) (10 * k)) with (schedule 0 (10 * k))
    by (symmetry; apply (schedule_shift 0)).
  rewrite IHs, IHw, IHa, IHl.
  assert (Hs : count Sensor (schedule 0 10) = 5%nat) by reflexivity.
  assert (Hw : count Weather (schedule 0 10) = 2%nat) by reflexivity.
  assert (Ha : count Alert (schedule 0 10) = 1%nat) by reflexivity.
  assert (Hl : length (schedule 0 10) = 8%nat) by reflexivity.
  rewrite Hs, Hw, Ha, Hl. repeat split; lia.
Qed.

Lemma publish_all_calm plan published :
  (forall n, publish_raises n = false) ->
  publish_all publish_raises plan published
  = (map Publish plan, Some (published + length plan)%nat).
Proof.
  intros Hcalm. revert published.
  induction plan as [| p plan IH]; intros published; cbn [publish_all map length].
  - now rewrite Nat.add_0_r.
  - rewrite Hcalm, IH. now rewrite Nat.add_succ_r.
Qed.

Lemma publications_publish plan : publications (map Publish plan) = plan.
Proof. induction plan as [| p plan IH]; [reflexivity |]. cbn. now f_equal. Qed.

Lemma main_loop_calm fuel c published :
  (forall n, publish_raises n = false) ->
  exists steps,
    main_loop publish_raises fuel c published = (steps, false)
    /\ publications steps = schedule c fuel.
Proof.
  intros Hcalm. revert c published.
  induction fuel as [| fuel IH]; intros c published; cbn [main_loop].
  - now exists [].
  - rewrite (publish_all_calm _ _ Hcalm).
    destruct (IH (S c) (published + length (turn c))%nat) as (steps & -> & Hp).
    eexists. split; [reflexivity |].
    unfold publications in *. rewrite omap_app. cbn [omap].
    fold (publications (map Publish (turn c))).
    rewrite publications_publish. unfold schedule in *. cbn [seq map concat].
    now rewrite <- Hp.
Qed.

(** As long as no publication raises, the main loop publishes, in every
    ten turns counted from the first, five sensor messages, two weather
    messages and one alert; a turn that publishes an alert publishes the
    three kinds, in that order, and the first turn is such a turn. *)
Theorem generator_mix k :
  (forall n, publish_raises n = false) ->
  exists steps,
    main_loop publish_raises (10 * k) 0 0 = (steps, false)
    /\ count Sensor (publications steps) = (5 * k)%nat
    /\ count Weather (publications steps) = (2 * k)%nat
    /\ count Alert (publications steps) = k
    /\ (forall c, In Alert (turn c) -> turn c = [Sensor; Weather; Alert])
    /\ turn 0 = [Sensor; Weather; Alert].
Proof.
  intros Hcalm.
  destruct (main_loop_calm (10 * k) 0 0 Hcalm) as (steps & E & Hp).
  exists steps. rewrite Hp.
  destruct (schedule_counts k) as (Hs & Hw & Ha & _).
  repeat split; try assumption.
  intros c. unfold turn.
  destruct (Nat.eqb_spec (c mod 10) 0) as [H10 | H10].
  - assert (H2 : (c mod 2 = 0)%nat).
    { pose proof (Nat.div_mod_eq c 10). pose proof (Nat.div_mod_eq c 2).
      pose proof (Nat.mod_upper_bound c 2). lia. }
    assert (H5 : (c mod 5 = 0)%nat).
    { pose proof (Nat.div_mod_eq c 10). pose proof (Nat.div_mod_eq c 5).
      pose proof (Nat.mod_upper_bound c 5). lia. }
    now rewrite H2, H5.
  - intros Hin. exfalso.
    destruct (Nat.eqb (c mod 2) 0), (Nat.eqb (c mod 5) 0); cbn in Hin;
      repeat (destruct Hin as [Hin | Hin]; try discriminate Hin); exact Hin.
Qed.

Lemma publish_all_shape plan published :
  exists steps r,
    publish_all publish_raises plan published = (steps, r)
    /\ Forall (fun s => exists p, s = Publish p) steps
    /\ (r = None ->
        exists before p,
          steps = (before ++ [Publish p])%list
          /\ publish_raises (published + length before) = true)
    /\ (forall n, r = Some n -> n = (published + length steps)%nat).
Proof.
  revert published. induction plan as [| p plan IH]; intros published;
    cbn [publish_all].
  - exists [], (Some published). repeat split; [constructor | discriminate |].
    intros n [= <-]. cbn. lia.
  - destruct (publish_raises published) eqn:Hr.
    + exists [Publish p], None. repeat split.
      * repeat constructor. now exists p.
      * intros _. exists [], p. split; [reflexivity |]. now rewrite Nat.add_0_r.
      * discriminate.
    + destruct (IH (S published)) as (steps & r & -> & Hall & Hnone & Hsome).
      exists (Publish p :: steps), r. repeat split.
      * constructor; [now exists p | exact Hall].
      * intros Hn. destruct (Hnone Hn) as (before & q & -> & Hb).
        exists (Publish p :: before), q. split; [reflexivity |].
        cbn [length]. now rewrite Nat.add_succ_r.
      * intros n Hn. rewrite (Hsome n Hn). cbn [length]. lia.
Qed.

Lemma publications_all steps :
  Forall (fun s => exists p, s = Publish p) steps ->
  length (publications steps) = length steps.
Proof.
  induction 1 as [| s steps [p ->] _ IH]; [reflexivity |].
  cbn. now rewrite <- IH.
Qed.

Lemma main_loop_shape fuel c published steps :
  main_loop publish_raises fuel c published = (steps, true) ->
  exists before p,
    steps = (before ++ [Publish p])%list
    /\ publish_raises (published + length (publications before)) = true
    /\ Forall (fun s => (exists q, s = Publish q) \/ s = Pause) before.
Proof.
  revert c published steps.
  induction fuel as [| fuel IH]; intros c published steps; cbn [main_loop];
    [discriminate |].
  destruct (publish_all_shape (turn c) published)
    as (steps1 & r & E & Hall & Hnone & Hsome).
  rewrite E. destruct r as [n |].
  - destruct (main_loop publish_raises fuel (S c) n) as [steps2 ended] eqn:E2.
    intros [= <- ->].
    destruct (IH _ _ _ E2) as (before & p & -> & Hb & Hbefore).
    exists (steps1 ++ Pause :: before)%list, p.
    split; [now rewrite <- !app_assoc |]. split.
    + unfold publications in *. rewrite omap_app. cbn [omap].
      rewrite length_app. fold (publications steps1).
      rewrite (publications_all _ Hall), Nat.add_assoc.
      now rewrite <- (Hsome n eq_refl).
    + apply Forall_app. split.
      * eapply Forall_impl; [exact Hall | intros s Hs; now left].
      * constructor; [now right | exact Hbefore].
  - intros [= <-]. destruct (Hnone eq_refl) as (before & p & -> & Hb).
    exists before, p. split; [reflexivity |].
    apply Forall_app in Hall as [Hall _].
    split.
    + now rewrite (publications_all _ Hall).
    + eapply Forall_impl; [exact Hall | intros s Hs; now left].
Qed.

(** Unless it is interrupted from the keyboard, [main] returns in two
    cases only.  When the ten attempts to connect
    have failed: nothing is published and the connection is not closed.
    When a publication raises: it is the last one, the connection is
    closed right after it, and that is the last call; nothing is
    published again. *)
Theorem generator_main_ends fuel steps :
  main attempt_succeeds publish_raises fuel = (steps, true) ->
  (publications steps = [] /\ ~ In Close steps
   /\ forall i, (i < 10)%nat -> attempt_succeeds i = false)
  \/ (exists before p,
        steps = (before ++ [Publish p; Close])%list
        /\ publish_raises (length (publications before)) = true
        /\ ~ In Close before
        /\ exists i, (i < 10)%nat /\ attempt_succeeds i = true).
Proof.
  unfold main.
  destruct (generator_connect_outcome (S max_retries))
    as (d & r & -> & Hd & Hfail & Hres); [lia |].
  assert (Hconn : publications
                    (concat (replicate d [Attempt; Wait 5]) ++ [Attempt])%list
                  = []
                  /\ ~ In Close
                        (concat (replicate d [Attempt; Wait 5]) ++ [Attempt])%list).
  { clear. induction d as [| d [IH1 IH2]]; [split; [reflexivity |] |].
    - intros [H | []]. discriminate.
    - cbn [replicate concat app]. split; [exact IH1 |].
      intros [H | [H | H]]; [discriminate | discriminate | now apply IH2]. }
  destruct Hconn as [Hpub Hclose].
  destruct Hres as [[Hok ->] | (-> & Hlast & ->)].
  - destruct (main_loop publish_raises fuel 0 0) as [steps' ended] eqn:E.
    destruct ended; [| discriminate]. intros [= <-]. right.
    destruct (main_loop_shape _ _ _ _ E) as (before & p & -> & Hb & Hbefore).
    exists ((concat (replicate d [Attempt; Wait 5]) ++ [Attempt]) ++ before)%list, p.
    split; [now rewrite <- !app_assoc |]. split; [| split].
    + unfold publications in *. rewrite omap_app, Hpub. exact Hb.
    + intros Hin. apply in_app_or in Hin as [Hin | Hin]; [now apply Hclose |].
      rewrite Forall_forall in Hbefore.
      destruct (Hbefore Close) as [[q Hq] | Hq]; [now apply list_elem_of_In | |];
        discriminate.
    + now exists d.
  - intros [= <-]. left. split; [exact Hpub |]. split; [exact Hclose |].
    intros i Hi. destruct (Nat.eq_dec i 9%nat) as [-> | Hne]; [exact Hlast |].
    apply Hfail. lia.
Qed.

End GeneratorFacts.

(** ** From the generator to the bridge *)

Example fmt_03d_examples :
  fmt_03d 5 = "005" /\ fmt_03d 10 = "010" /\ fmt_03d 0 = "000"
  /\ fmt_03d 1234 = "1234" /\ fmt_03d (-5) = "-05".
Proof. vm_compute. repeat split. Qed.

Section GeneratorToBridge.

Variable fromisoformat : string -> option datetime.
Variable utcnow : datetime.
Variable py_repr : pyval -> string.

Local Abbreviation transform :=
  (_transform_to_influx_point fromisoformat utcnow py_repr).

(** On a topic without a usable measurement override, the messages of the
    generator land in measurements named after what they are about: a
    sensor message in [sensor_sensor_NNN_measurements], a weather message
    in [station_weather_NNN_measurements], an alert in
    [alert_SEVERITY_TYPE]. *)
Theorem generated_measurement_names message_data topic_config method p :
  transform message_data topic_config method = Some p ->
  measurement topic_config = None \/ measurement topic_config = Some "" ->
  (forall drawn, 1 <= drawn <= 10 ->
     routing_key method = sensor_routing_key (sensor_id drawn) ->
     Point.name p = "sensor_sensor_" +:+ fmt_03d drawn +:+ "_measurements")
  /\ (forall drawn, 1 <= drawn <= 3 ->
     routing_key method = weather_routing_key (station_id drawn) ->
     Point.name p = "station_weather_" +:+ fmt_03d drawn +:+ "_measurements")
  /\ (forall severity alert_type,
     In severity severities -> In alert_type alert_types ->
     routing_key method = alert_routing_key severity alert_type ->
     Point.name p = "alert_" +:+ severity +:+ "_" +:+ alert_type).
Proof.
  intros H Hm.
  destruct (transform_Some_dict _ _ _ _ _ _ _ H) as [items ->].
  destruct (transform_dict_attrs _ _ _ _ _ _ _ H) as (t & _ & -> & _).
  assert (E : measurement_name topic_config method
              = PyStr.replace "." "_" (routing_key method)).
  { unfold measurement_name. now destruct Hm as [-> | ->]. }
  rewrite E. clear. split; [| split].
  - intros drawn Hd ->.
    assert (Hcases : drawn = 1 \/ drawn = 2 \/ drawn = 3 \/ drawn = 4
                     \/ drawn = 5 \/ drawn = 6 \/ drawn = 7 \/ drawn = 8
                     \/ drawn = 9 \/ drawn = 10) by lia.
    repeat (destruct Hcases as [-> | Hcases]; [vm_compute; reflexivity |]).
    subst. vm_compute. reflexivity.
  - intros drawn Hd ->.
    assert (Hcases : drawn = 1 \/ drawn = 2 \/ drawn = 3) by lia.
    repeat (destruct Hcases as [-> | Hcases]; [vm_compute; reflexivity |]).
    subst. vm_compute. reflexivity.
  - intros severity alert_type Hs Ha ->.
    unfold severities, alert_types in *. cbn [In] in *.
    repeat (destruct Hs as [<- | Hs]; [| try contradiction]);
      repeat (destruct Ha as [<- | Ha]; [| try contradiction]);
      vm_compute; reflexivity.
Qed.

(** A sensor message of the generator, on a topic without a field mapping:
    the point has the nine values of the message as fields, the
    identifiers and the status as strings and the measures as the numbers
    they are, and no field for the timestamp; the timestamp, in which the
    generator puts no [Z], is handed as it is to the ISO parser. *)
Theorem sensor_message_point isoformat sensor node temperature humidity
    pressure light_level battery_voltage signal_strength status
    topic_config method p :
  transform
    (JDict (generate_sensor_data isoformat sensor node temperature humidity
              pressure light_level battery_voltage signal_strength status))
    topic_config method = Some p ->
  field_mapping topic_config = Missing ->
  (forall c, In c (list_ascii_of_string isoformat) -> c <> "Z"%char) ->
  Point.fields_ p
  = list_to_map
      [("sensor_id", JStr (sensor_id sensor));
       ("node_id", JStr (node_id node));
       ("temperature", JFloat temperature);
       ("humidity", JFloat humidity);
       ("pressure", JFloat pressure);
       ("light_level", JInt light_level);
       ("battery_voltage", JFloat battery_voltage);
       ("signal_strength", JInt signal_strength);
       ("status", JStr status)]
  /\ Point.time_ p
     = Some (TimeDatetime
               match fromisoformat isoformat with
               | Some dt => dt
               | None => utcnow
               end).
Proof.
  intros H Hfm HnoZ.
  destruct (transform_dict_attrs _ _ _ _ _ _ _ H) as (t & Ht & _ & -> & _ & ->).
  split.
  - rewrite Hfm. unfold generate_sensor_data. cbn [fold_left mapping_or].
    rewrite !put_field_eq. unfold field_name. rewrite !lookup_empty.
    cbn [default]. apply map_eq. intros k.
    vm_compute. reflexivity.
  - unfold with_time, generate_sensor_data in Ht.
    cbn [py_in assoc bind getitem String.eqb Ascii.eqb Bool.eqb] in Ht.
    cbn in Ht. rewrite (replace_absent _ _ _ HnoZ) in Ht.
    destruct (fromisoformat isoformat); cbn in Ht; now injection Ht as <-.
Qed.

End GeneratorToBridge.

(** ** The further properties at work on the samples *)

(** The three sample topics, when no call raises: eight calls. *)
Lemma setup_default_exchange_unbound_witness :
  declared_exchanges
    (fst (_setup_subscriptions SampleSetup.never SampleSetup.server_queue
            (Some SampleSetup.topics)))
  = [("sensor.data", "topic", true); ("alerts", "fanout", false)]
  /\ bindings
       (fst (_setup_subscriptions SampleSetup.never SampleSetup.server_queue
               (Some SampleSetup.topics)))
     = [("sensor.data", "sensor.*.measurements"); ("alerts", "#")]
  /\ length
       (fst (_setup_subscriptions SampleSetup.never SampleSetup.server_queue
               (Some SampleSetup.topics))) = 10%nat.
Proof.
  apply (setup_default_exchange_unbound SampleSetup.never SampleSetup.server_queue
           (Some SampleSetup.topics)).
  reflexivity.
Defined.

(** An object, on a topic whose [tags:] is null. *)
Lemma broken_settings_drop_messages_witness :
  Sample.transform (JDict Sample.items_temp) Sample.topic_null_tags
    Sample.method_env = None
  /\ writes (Sample.callback Sample.store_up Sample.method_env Sample.body_temp
               Sample.topic_null_tags) = 0%nat
  /\ head (Sample.callback Sample.store_up Sample.method_env Sample.body_temp
             Sample.topic_null_tags) = Some (BasicAck 7).
Proof.
  apply (broken_settings_drop_messages Sample.json_loads Sample.fromisoformat
           Sample.utcnow Sample.py_repr Sample.store_up Sample.channel_open
           Sample.config Sample.method_env Sample.body_temp
           Sample.topic_null_tags (JDict Sample.items_temp));
    [reflexivity | left; reflexivity].
Defined.

(** An object, on a topic without a bucket, with no global bucket. *)
Lemma no_bucket_rejects_objects_witness :
  _message_callback Sample.json_loads Sample.fromisoformat Sample.utcnow
    Sample.py_repr Sample.store_up Sample.channel_open (mkConfig None)
    Sample.method_env Sample.body_temp Sample.topic_plain
  = [BasicNack 7 true].
Proof.
  apply (no_bucket_rejects_objects Sample.json_loads Sample.fromisoformat
           Sample.utcnow Sample.py_repr Sample.store_up Sample.channel_open
           (mkConfig None) Sample.method_env Sample.body_temp Sample.topic_plain
           Sample.items_temp);
    [reflexivity | left; reflexivity | reflexivity | discriminate
    | left; discriminate].
Defined.

(** An object without a timestamp. *)
Lemma time_falls_back_to_now_witness :
  Point.time_
    (Sample.point_of (JDict Sample.items_temp) Sample.topic_plain
       Sample.method_env)
  = Some (TimeDatetime Sample.utcnow).
Proof.
  destruct (time_falls_back_to_now Sample.fromisoformat Sample.utcnow
              Sample.py_repr Sample.items_temp Sample.topic_plain
              Sample.method_env
              (Sample.point_of (JDict Sample.items_temp) Sample.topic_plain
                 Sample.method_env))
    as (_ & Hnone & _); [reflexivity |].
  apply Hnone. reflexivity.
Defined.

(** [true] under [timestamp]. *)
Lemma boolean_timestamp_is_a_number_witness :
  Point.time_
    (Sample.point_of (JDict [("timestamp", JBool true)]) Sample.topic_plain
       Sample.method_env)
  = Some (TimeInt 1000000000).
Proof.
  apply (boolean_timestamp_is_a_number Sample.fromisoformat Sample.utcnow
           Sample.py_repr [("timestamp", JBool true)] Sample.topic_plain
           Sample.method_env _ true);
    reflexivity.
Defined.

(** The object whose keys [temperature] and [temp] share a name. *)
Lemma fields_named_after_keys_witness :
  dom (Point.fields_
         (Sample.point_of (JDict Sample.items_clash) Sample.topic_rename
            Sample.method_env))
  = list_to_set ["temperature"; "ok"; "temperature"; "note"].
Proof.
  destruct (fields_named_after_keys Sample.fromisoformat Sample.utcnow
              Sample.py_repr Sample.items_clash Sample.topic_rename
              Sample.method_env
              (Sample.point_of (JDict Sample.items_clash) Sample.topic_rename
                 Sample.method_env))
    as (Hdom & _); [reflexivity |].
  exact Hdom.
Defined.

(** The routing key [test.raw]. *)
Lemma sanitized_name_has_no_dot_witness :
  String.length
    (Point.name
       (Sample.point_of (JDict Sample.items_temp) Sample.topic_plain
          Sample.method_raw))
  = 8%nat.
Proof.
  destruct (sanitized_name_has_no_dot Sample.fromisoformat Sample.utcnow
              Sample.py_repr (JDict Sample.items_temp) Sample.topic_plain
              Sample.method_raw
              (Sample.point_of (JDict Sample.items_temp) Sample.topic_plain
                 Sample.method_raw))
    as (Hlen & _); [reflexivity | left; reflexivity |].
  exact Hlen.
Defined.

(** The world where RabbitMQ is down at first and a signal is handled
    while the twentieth call is made. *)
Lemma run_stops_after_signal_witness :
  exists steps out,
    run SampleRun.slow_start 21 = (steps, Some out)
    /\ (length steps <= 20 + 3)%nat.
Proof.
  apply (run_stops_after_signal SampleRun.slow_start 20 21);
    [reflexivity | apply Nat.leb_le; reflexivity].
Defined.

(** The world where RabbitMQ never answers, for seven turns. *)
Lemma run_retries_forever_witness :
  run SampleRun.unreachable 7
  = (concat (replicate 7 [ConnectRabbitmq; Sleep 5]), None).
Proof.
  destruct (run_retries_forever SampleRun.unreachable 7) as (Hdown & _);
    [reflexivity |].
  apply Hdown. reflexivity.
Defined.

(** The world where RabbitMQ is down at first: three failed turns, the
    connection, the setup, eleven calls of the consuming loop, the
    cleanup. *)
Lemma run_phases_witness :
  exists retries,
    (Returns = Returns
     /\ (exists k, signal SampleRun.slow_start = Some k
                   /\ (k <= length (fst (run SampleRun.slow_start 30)))%nat)
     /\ (fst (run SampleRun.slow_start 30) = concat (map retry retries)
         \/ fst (run SampleRun.slow_start 30)
            = (concat (map retry retries)
               ++ [ConnectRabbitmq; ConnectInfluxdb])%list))
    \/ exists steady,
         fst (run SampleRun.slow_start 30)
         = (concat (map retry retries)
            ++ [ConnectRabbitmq; ConnectInfluxdb; SetupSubscriptions]
            ++ steady ++ [Cleanup])%list
         /\ Forall is_steady steady.
Proof.
  apply (run_phases SampleRun.slow_start 30
           (fst (run SampleRun.slow_start 30)) Returns).
  reflexivity.
Defined.

(** The world where the connection is lost and the setup that follows
    raises. *)
Lemma run_ends_for_a_reason_witness :
  exists before,
    fst (run SampleRun.broken 30)
    = (before ++ [SetupSubscriptions; Cleanup])%list
    /\ setup_raises SampleRun.broken (length before) = true.
Proof.
  destruct (run_ends_for_a_reason SampleRun.broken 30
              (fst (run SampleRun.broken 30)) Raises)
    as [[H _] | [[_ H] | [H _]]];
    [reflexivity | discriminate H | exact H | discriminate H].
Defined.

(** A broker that answers at the third attempt. *)
Lemma generator_connect_bounded_witness :
  exists d r,
    Generator.connect SampleGenerator.third_fails 11
    = ((concat (replicate d [Generator.Attempt; Generator.Wait 5])
        ++ [Generator.Attempt])%list, r)
    /\ (d < 10)%nat
    /\ (forall j, (j < d)%nat -> SampleGenerator.third_fails j = false)
    /\ ((SampleGenerator.third_fails d = true /\ r = Some (Some true))
        \/ (d = 9%nat /\ SampleGenerator.third_fails d = false
            /\ r = Some (Some false))).
Proof.
  apply (generator_connect_bounded SampleGenerator.third_fails 11).
  apply Nat.leb_le. reflexivity.
Defined.

(** Twenty turns without a failure: ten, four and two messages. *)
Lemma generator_mix_witness :
  exists steps,
    Generator.main_loop SampleGenerator.never 20 0 0 = (steps, false)
    /\ Generator.count Generator.Sensor (Generator.publications steps) = 10%nat
    /\ Generator.count Generator.Weather (Generator.publications steps) = 4%nat
    /\ Generator.count Generator.Alert (Generator.publications steps) = 2%nat.
Proof.
  destruct (generator_mix SampleGenerator.never 2) as (steps & E & Hs & Hw & Ha & _);
    [reflexivity |].
  exists steps. repeat split; assumption.
Defined.

(** The broker answers at once and the third publication raises. *)
Lemma generator_main_ends_witness :
  fst (Generator.main SampleGenerator.always SampleGenerator.third_fails 5)
  = [Generator.Attempt; Generator.Publish Generator.Sensor;
     Generator.Publish Generator.Weather; Generator.Publish Generator.Alert;
     Generator.Close]
  /\ exists before p,
       fst (Generator.main SampleGenerator.always SampleGenerator.third_fails 5)
       = (before ++ [Generator.Publish p; Generator.Close])%list
       /\ SampleGenerator.third_fails
            (length (Generator.publications before)) = true.
Proof.
  split; [reflexivity |].
  destruct (generator_main_ends SampleGenerator.always
              SampleGenerator.third_fails 5
              (fst (Generator.main SampleGenerator.always
                      SampleGenerator.third_fails 5)))
    as [(Hnone & _) | (before & p & E & Hr & _)]; [reflexivity | | ].
  - discriminate Hnone.
  - exists before, p. split; [exact E | exact Hr].
Defined.

(** The sensor 7 of the generator, on a topic without an override. *)
Lemma generated_measurement_names_witness :
  Point.name
    (Sample.point_of (JDict SampleGenerator.data) Sample.topic_plain
       SampleGenerator.method_sensor)
  = "sensor_sensor_007_measurements".
Proof.
  destruct (generated_measurement_names Sample.fromisoformat Sample.utcnow
              Sample.py_repr (JDict SampleGenerator.data) Sample.topic_plain
              SampleGenerator.method_sensor
              (Sample.point_of (JDict SampleGenerator.data) Sample.topic_plain
                 SampleGenerator.method_sensor))
    as (Hsensor & _); [reflexivity | left; reflexivity |].
  apply (Hsensor 7); [lia | reflexivity].
Defined.

(** The message of the sensor 7. *)
Lemma sensor_message_point_witness :
  Point.fields_
    (Sample.point_of (JDict SampleGenerator.data) Sample.topic_plain
       SampleGenerator.method_sensor) !! "light_level" = Some (JInt 512)
  /\ Point.time_
       (Sample.point_of (JDict SampleGenerator.data) Sample.topic_plain
          SampleGenerator.method_sensor)
     = Some (TimeDatetime (Sample.utc 2024 1 15 12 30 0 (Some 0))).
Proof.
  destruct (sensor_message_point Sample.fromisoformat Sample.utcnow
              Sample.py_repr "2024-01-15T12:30:00+00:00" 7 2 Sample.f21_5
              Sample.f21_5 Sample.f21_5 512 Sample.f21_5 (-40) "active"
              Sample.topic_plain SampleGenerator.method_sensor
              (Sample.point_of (JDict SampleGenerator.data) Sample.topic_plain
                 SampleGenerator.method_sensor))
    as (Hf & Ht); [reflexivity | reflexivity | |].
  - intros c Hc. cbn in Hc.
    repeat (destruct Hc as [<- | Hc]; [discriminate |]). destruct Hc.
  - split; [rewrite Hf; reflexivity | exact Ht].
Defined.
